(** * Frankfurter MCP server: formatter, client error mapping and tool handlers

    A shallow embedding of [src/constants.ts], [src/types.ts],
    [src/services/formatter.ts], [src/services/frankfurter-client.ts] and
    the tool handlers of [src/index.ts], followed by the properties of the
    specification that concern them.

    Conventions of the embedding.
    - A JavaScript string is a [string]: each [ascii] stands for one
      UTF-16 code unit below 256.  [length] and [substring] count code
      units, as in JavaScript.
    - Integers that the code uses as lengths, status codes and indices are
      in [Z].
    - The floating-point numbers (rates, amounts) are kept abstract behind
      the interface [JSNumber]; so are [String.prototype.toUpperCase] and
      [String.prototype.localeCompare], which depend on Unicode tables and
      on the locale.
    - An object is the list of its own properties in the order of
      [Object.keys].  [obj[key]] also finds the properties of
      [Object.prototype] ([Get]); where the key cannot name one of them
      the own property is read at once ([getProperty]).
    - The reading of the clock by [new Date()] and the time zone of the
      host are parameters of the handlers that use them. *)

From Stdlib Require Import ZArith List String Ascii Bool Lia.
From Stdlib Require Import Sorting.Sorted Sorting.Permutation.
From Stdlib Require Import Structures.OrderedTypeEx.
From Stdlib Require Import DecimalString Decimal DecimalZ.
Import ListNotations.

Local Open Scope string_scope.
Local Open Scope Z_scope.

(** ** Strings *)

Module Str.

Definition LF : ascii := "010"%char.
Definition CR : ascii := "013"%char.
Definition TAB : ascii := "009"%char.
Definition BS : ascii := "008"%char.
Definition FF : ascii := "012"%char.
Definition DQUOTE : ascii := "034"%char.
Definition BACKSLASH : ascii := "092"%char.

(** One-character strings used by the templates of the source. *)
Definition nl : string := String LF EmptyString.
Definition dq : string := String DQUOTE EmptyString.

(** [s.length] *)
Definition length (s : string) : Z := Z.of_nat (String.length s).

(** [s.substring(start, end)]: both indices are clamped to
    [0 .. s.length] and swapped when [start > end]. *)
Definition substring (s : string) (start end_ : Z) : string :=
  let len := length s in
  let a := Z.min (Z.max start 0) len in
  let b := Z.min (Z.max end_ 0) len in
  let from := Z.min a b in
  let to := Z.max a b in
  String.substring (Z.to_nat from) (Z.to_nat (to - from)) s.

(** [xs.join(sep)] *)
Definition join (sep : string) (xs : list string) : string :=
  String.concat sep xs.

(** [String(n)] for an integer [n]. *)
Definition of_Z (n : Z) : string := NilZero.string_of_int (Z.to_int n).

(** [c.repeat(n)] *)
Fixpoint repeat (s : string) (n : nat) : string :=
  match n with
  | O => EmptyString
  | S k => s ++ repeat s k
  end.

End Str.

(** ** [constants.ts] *)

Definition CHARACTER_LIMIT : Z := 25000.
Definition API_TIMEOUT : Z := 10000.
Definition API_BASE_URL : string := "https://api.frankfurter.dev/v1".

Inductive ResponseFormat : Set :=
| JSON
| MARKDOWN.

Definition ResponseFormat_eqb (a b : ResponseFormat) : bool :=
  match a, b with
  | JSON, JSON | MARKDOWN, MARKDOWN => true
  | _, _ => false
  end.

(** ** [types.ts] *)

Record TruncationMeta : Set := mkTruncationMeta {
  truncated : bool;
  truncation_message : option string;
  original_length : option Z
}.

(** ** [formatter.ts]: truncation *)

(** The notice appended after the cut, by format. *)
Definition truncationMessage (format : ResponseFormat) : string :=
  if ResponseFormat_eqb format MARKDOWN
  then Str.nl ++ Str.nl ++ "---" ++ Str.nl ++ Str.nl
       ++ "**Note:** Response was truncated due to size limit ("
       ++ Str.of_Z CHARACTER_LIMIT ++ " characters). "
       ++ "To see more data, try:" ++ Str.nl
       ++ "- Narrowing the date range" ++ Str.nl
       ++ "- Filtering with the 'symbols' parameter" ++ Str.nl
       ++ "- Using pagination parameters" ++ Str.nl
  else Str.nl ++ Str.nl ++ "[TRUNCATED: Response exceeded character limit]".

Definition truncateIfNeeded (content : string) (format : ResponseFormat)
  : string * TruncationMeta :=
  if Str.length content <=? CHARACTER_LIMIT
  then (content, mkTruncationMeta false None None)
  else
    let truncated := Str.substring content 0 CHARACTER_LIMIT in
    (truncated ++ truncationMessage format,
     mkTruncationMeta true
       (Some "Response exceeded character limit and was truncated")
       (Some (Str.length content))).

(** ** JavaScript numbers

    Rates and amounts are IEEE-754 doubles.  The code multiplies them,
    prints them ([JSON.stringify], [toFixed]) and a consumer of the JSON
    output reads them back.  The interface lists these operations with the
    facts of ECMAScript that the development relies on: a finite number
    prints as a JSON number token, and reading that token back gives the
    same number (except for the negative zero, printed as [0]). *)

Module Lex.

Definition is_digit (c : ascii) : bool :=
  let n := N_of_ascii c in ((48 <=? n) && (n <=? 57))%N.

(** Characters that may occur in a JSON number token. *)
Definition is_num_char (c : ascii) : bool :=
  is_digit c || Ascii.eqb c "-" || Ascii.eqb c "+" || Ascii.eqb c "."
  || Ascii.eqb c "e" || Ascii.eqb c "E".

Definition is_num_start (c : ascii) : bool :=
  is_digit c || Ascii.eqb c "-".

Fixpoint all_num_chars (s : string) : bool :=
  match s with
  | EmptyString => true
  | String c r => is_num_char c && all_num_chars r
  end.

(** Shape of a printed finite number: starts with a digit or a minus
    sign and holds number characters only. *)
Definition number_token (s : string) : bool :=
  match s with
  | EmptyString => false
  | String c r => is_num_start c && all_num_chars r
  end.

(** Longest prefix of number characters, and what follows it. *)
Fixpoint take_number (s : string) : string * string :=
  match s with
  | EmptyString => (EmptyString, EmptyString)
  | String c r =>
      if is_num_char c
      then let '(tok, rest) := take_number r in (String c tok, rest)
      else (EmptyString, s)
  end.

Definition is_ws (c : ascii) : bool :=
  Ascii.eqb c " " || Ascii.eqb c Str.TAB || Ascii.eqb c Str.LF
  || Ascii.eqb c Str.CR.

Fixpoint skip_ws (s : string) : string :=
  match s with
  | EmptyString => EmptyString
  | String c r => if is_ws c then skip_ws r else s
  end.

End Lex.

Class JSNumber : Type := {
  number : Type;
  NaN : number;
  (** [x * y] *)
  multiply : number -> number -> number;
  (** [Number.isFinite(x)] *)
  isFinite : number -> bool;
  (** [x > 0] *)
  isPositive : number -> bool;
  (** [Object.is(x, -0)] *)
  isNegativeZero : number -> bool;
  (** [Number::toString(x)], radix 10 *)
  numberToString : number -> string;
  (** [x.toFixed(digits)] *)
  toFixed : number -> Z -> string;
  (** the value of a JSON number token, [None] when the text is not one *)
  parseJSONNumber : string -> option number;

  multiply_NaN_r : forall x, multiply x NaN = NaN;
  isFinite_NaN : isFinite NaN = false;
  numberToString_token :
    forall x, isFinite x = true -> Lex.number_token (numberToString x) = true;
  numberToString_exact :
    forall x, isFinite x = true -> isNegativeZero x = false ->
              parseJSONNumber (numberToString x) = Some x
}.

(** ** JavaScript values and [JSON.stringify(data, null, 2)] *)

Section Values.

Context {Num : JSNumber}.

(** A JavaScript value other than [undefined], as far as the program
    builds or receives them.  A property of an object literal may hold
    [undefined] ([None]); the members are listed in the order in which
    [Object.keys] enumerates them. *)
Unset Elimination Schemes.
Inductive value : Type :=
| VNull
| VBool (b : bool)
| VNumber (n : number)
| VString (s : string)
| VArray (items : list value)
| VObject (members : list (string * option value)).
Set Elimination Schemes.

Definition hexDigit (n : N) : ascii :=
  ascii_of_N (if (n <? 10)%N then 48 + n else 87 + n)%N.

(** [UnicodeEscape(c)] for a code unit below 256: [\u00XX]. *)
Definition UnicodeEscape (c : ascii) : string :=
  let n := N_of_ascii c in
  String Str.BACKSLASH
    (String "u" (String "0" (String "0"
       (String (hexDigit (n / 16)) (String (hexDigit (n mod 16)) EmptyString))))).

Definition escape2 (c : ascii) : string :=
  String Str.BACKSLASH (String c EmptyString).

Definition quoteChar (c : ascii) : string :=
  if Ascii.eqb c Str.BS then escape2 "b"
  else if Ascii.eqb c Str.TAB then escape2 "t"
  else if Ascii.eqb c Str.LF then escape2 "n"
  else if Ascii.eqb c Str.FF then escape2 "f"
  else if Ascii.eqb c Str.CR then escape2 "r"
  else if Ascii.eqb c Str.DQUOTE then escape2 Str.DQUOTE
  else if Ascii.eqb c Str.BACKSLASH then escape2 Str.BACKSLASH
  else if (N_of_ascii c <? 32)%N then UnicodeEscape c
  else String c EmptyString.

Fixpoint quoteChars (s : string) : string :=
  match s with
  | EmptyString => EmptyString
  | String c r => quoteChar c ++ quoteChars r
  end.

(** [QuoteJSONString(s)] *)
Definition QuoteJSONString (s : string) : string :=
  Str.dq ++ quoteChars s ++ Str.dq.

(** The [gap] of [JSON.stringify(_, null, 2)]. *)
Definition gap : string := "  ".

(** [separator] between the members of a non-empty object or array. *)
Definition separator (indent : string) : string := "," ++ Str.nl ++ indent.

Definition wrap (open close stepback indent : string) (partial : list string)
  : string :=
  match partial with
  | [] => open ++ close
  | _ => open ++ Str.nl ++ indent ++ Str.join (separator indent) partial
         ++ Str.nl ++ stepback ++ close
  end.

(** [SerializeJSONProperty] on a value that is not [undefined];
    [indent] is the indentation of the enclosing line. *)
Fixpoint SerializeJSONProperty (indent : string) (v : value) {struct v}
  : string :=
  match v with
  | VNull => "null"
  | VBool true => "true"
  | VBool false => "false"
  | VNumber n => if isFinite n then numberToString n else "null"
  | VString s => QuoteJSONString s
  | VArray items =>
      let stepback := indent in
      let indent := indent ++ gap in
      wrap "[" "]" stepback indent
        (map (SerializeJSONProperty indent) items)
  | VObject members =>
      let stepback := indent in
      let indent := indent ++ gap in
      wrap "{" "}" stepback indent
        (flat_map
           (fun kv =>
              match snd kv with
              | None => []
              | Some x =>
                  [QuoteJSONString (fst kv) ++ ": "
                   ++ SerializeJSONProperty indent x]
              end)
           members)
  end.

Definition JSON_stringify (v : value) : string :=
  SerializeJSONProperty EmptyString v.

(** [formatAsJSON(data)] *)
Definition formatAsJSON (data : value) : string := JSON_stringify data.

End Values.

(** ** [JSON.parse]

    The reader used by a consumer of the JSON output.  An object is built
    property by property as [JSON.parse] does: a repeated key overwrites
    the earlier value in place, an array-index key is enumerated before
    the other keys in ascending numeric order, any other key is appended.
    A [\uXXXX] escape of a code unit above 255 is outside the alphabet of
    the embedding and makes the reader fail. *)

Section Parse.

Context {Num : JSNumber}.

Definition members := list (string * option value).

Fixpoint digitsValue (acc : Z) (s : string) : option Z :=
  match s with
  | EmptyString => Some acc
  | String c r =>
      if Lex.is_digit c
      then digitsValue (10 * acc + (Z.of_N (N_of_ascii c) - 48)) r
      else None
  end.

(** The array index denoted by a property key, if it is one: a
    canonical numeric string of an integer in [0 .. 2^32 - 2]. *)
Definition arrayIndex (k : string) : option Z :=
  match k with
  | EmptyString => None
  | String c r =>
      if Ascii.eqb c "0" && negb (String.eqb r EmptyString) then None
      else match digitsValue 0 k with
           | Some n => if n <=? 4294967294 then Some n else None
           | None => None
           end
  end.

Fixpoint hasKey (k : string) (o : members) : bool :=
  match o with
  | [] => false
  | (k', _) :: r => String.eqb k k' || hasKey k r
  end.

Fixpoint replaceMember (k : string) (v : option value) (o : members)
  : members :=
  match o with
  | [] => []
  | (k', v') :: r =>
      if String.eqb k k' then (k', v) :: r
      else (k', v') :: replaceMember k v r
  end.

Fixpoint insertIndex (i : Z) (k : string) (v : option value) (o : members)
  : members :=
  match o with
  | [] => [(k, v)]
  | (k', v') :: r =>
      match arrayIndex k' with
      | Some j => if j <? i then (k', v') :: insertIndex i k v r
                  else (k, v) :: o
      | None => (k, v) :: o
      end
  end.

(** [CreateDataProperty(o, k, v)] on an ordinary object, seen through
    the order of [Object.keys]. *)
Definition defineProperty (k : string) (v : option value) (o : members)
  : members :=
  if hasKey k o then replaceMember k v o
  else match arrayIndex k with
       | Some i => insertIndex i k v o
       | None => (o ++ [(k, v)])%list
       end.

Definition objectOf (l : members) : members :=
  fold_left (fun o kv => defineProperty (fst kv) (snd kv) o) l [].

Definition hexValue (c : ascii) : option N :=
  let n := N_of_ascii c in
  if ((48 <=? n) && (n <=? 57))%N then Some (n - 48)%N
  else if ((97 <=? n) && (n <=? 102))%N then Some (n - 87)%N
  else if ((65 <=? n) && (n <=? 70))%N then Some (n - 55)%N
  else None.

Definition hex4 (h1 h2 h3 h4 : ascii) : option ascii :=
  match hexValue h1, hexValue h2, hexValue h3, hexValue h4 with
  | Some a, Some b, Some c, Some d =>
      if ((a =? 0) && (b =? 0))%N then Some (ascii_of_N (16 * c + d))
      else None
  | _, _, _, _ => None
  end.

Definition unescape (e : ascii) : option ascii :=
  if Ascii.eqb e Str.DQUOTE then Some Str.DQUOTE
  else if Ascii.eqb e Str.BACKSLASH then Some Str.BACKSLASH
  else if Ascii.eqb e "/" then Some "/"%char
  else if Ascii.eqb e "b" then Some Str.BS
  else if Ascii.eqb e "f" then Some Str.FF
  else if Ascii.eqb e "n" then Some Str.LF
  else if Ascii.eqb e "r" then Some Str.CR
  else if Ascii.eqb e "t" then Some Str.TAB
  else None.

Definition consChar (c : ascii) (p : option (string * string))
  : option (string * string) :=
  match p with
  | Some (s, rest) => Some (String c s, rest)
  | None => None
  end.

(** The characters of a string literal after its opening quote, up to
    and including the closing quote. *)
Fixpoint parse_chars (s : string) : option (string * string) :=
  match s with
  | EmptyString => None
  | String c r =>
      if Ascii.eqb c Str.DQUOTE then Some (EmptyString, r)
      else if Ascii.eqb c Str.BACKSLASH then
        match r with
        | String e r1 =>
            match unescape e with
            | Some x => consChar x (parse_chars r1)
            | None =>
                if Ascii.eqb e "u" then
                  match r1 with
                  | String h1 (String h2 (String h3 (String h4 r2))) =>
                      match hex4 h1 h2 h3 h4 with
                      | Some x => consChar x (parse_chars r2)
                      | None => None
                      end
                  | _ => None
                  end
                else None
            end
        | EmptyString => None
        end
      else if (N_of_ascii c <? 32)%N then None
      else consChar c (parse_chars r)
  end.

Fixpoint stripPrefix (p s : string) : option string :=
  match p, s with
  | EmptyString, _ => Some s
  | String a p', String b s' => if Ascii.eqb a b then stripPrefix p' s' else None
  | String _ _, EmptyString => None
  end.

Definition literal (word : string) (v : value) (s : string)
  : option (value * string) :=
  match stripPrefix word s with
  | Some rest => Some (v, rest)
  | None => None
  end.

Definition startsWith (c : ascii) (s : string) : option string :=
  match s with
  | String d r => if Ascii.eqb c d then Some r else None
  | EmptyString => None
  end.

Fixpoint parse_value (fuel : nat) (s : string) {struct fuel}
  : option (value * string) :=
  match fuel with
  | O => None
  | S fuel =>
      match Lex.skip_ws s with
      | EmptyString => None
      | String c r =>
          if Ascii.eqb c "{" then
            match startsWith "}" (Lex.skip_ws r) with
            | Some r' => Some (VObject [], r')
            | None => parse_members fuel [] r
            end
          else if Ascii.eqb c "[" then
            match startsWith "]" (Lex.skip_ws r) with
            | Some r' => Some (VArray [], r')
            | None =>
                match parse_elements fuel r with
                | Some (xs, r') => Some (VArray xs, r')
                | None => None
                end
            end
          else if Ascii.eqb c Str.DQUOTE then
            match parse_chars r with
            | Some (x, r') => Some (VString x, r')
            | None => None
            end
          else if Lex.is_num_start c then
            let '(tok, rest) := Lex.take_number (String c r) in
            match parseJSONNumber tok with
            | Some n => Some (VNumber n, rest)
            | None => None
            end
          else if Ascii.eqb c "n" then literal "ull" VNull r
          else if Ascii.eqb c "t" then literal "rue" (VBool true) r
          else if Ascii.eqb c "f" then literal "alse" (VBool false) r
          else None
      end
  end

with parse_elements (fuel : nat) (s : string) {struct fuel}
  : option (list value * string) :=
  match fuel with
  | O => None
  | S fuel =>
      match parse_value fuel s with
      | None => None
      | Some (v, r) =>
          match Lex.skip_ws r with
          | EmptyString => None
          | String c r' =>
              if Ascii.eqb c "," then
                match parse_elements fuel r' with
                | Some (xs, r'') => Some (v :: xs, r'')
                | None => None
                end
              else if Ascii.eqb c "]" then Some ([v], r')
              else None
          end
      end
  end

with parse_members (fuel : nat) (acc : members) (s : string) {struct fuel}
  : option (value * string) :=
  match fuel with
  | O => None
  | S fuel =>
      match startsWith Str.DQUOTE (Lex.skip_ws s) with
      | None => None
      | Some r =>
          match parse_chars r with
          | None => None
          | Some (k, r1) =>
              match startsWith ":" (Lex.skip_ws r1) with
              | None => None
              | Some r2 =>
                  match parse_value fuel r2 with
                  | None => None
                  | Some (v, r3) =>
                      let acc' := defineProperty k (Some v) acc in
                      match Lex.skip_ws r3 with
                      | EmptyString => None
                      | String c r4 =>
                          if Ascii.eqb c "," then parse_members fuel acc' r4
                          else if Ascii.eqb c "}" then Some (VObject acc', r4)
                          else None
                      end
                  end
              end
          end
      end
  end.

(** [JSON.parse(text)]; [None] stands for the [SyntaxError]. *)
Definition JSON_parse (text : string) : option value :=
  match parse_value (S (String.length text)) text with
  | Some (v, rest) =>
      match Lex.skip_ws rest with
      | EmptyString => Some v
      | String _ _ => None
      end
  | None => None
  end.

End Parse.

(** ** Exceptions and arrays *)

(** What a [throw] carries, as far as the handlers' [catch] block looks
    at it: every thrown value of the program is an [Error] with a
    message ([TypeError] included). *)
Inductive JsError : Set :=
| TypeError (message : string)
| Error (message : string).

Definition errorMessage (e : JsError) : string :=
  match e with
  | TypeError m => m
  | Error m => m
  end.

Inductive completion (A : Type) : Type :=
| Normal (a : A)
| Throw (e : JsError).

Arguments Normal {A} a.
Arguments Throw {A} e.

Definition bind {A B : Type} (c : completion A) (f : A -> completion B)
  : completion B :=
  match c with
  | Normal a => f a
  | Throw e => Throw e
  end.

Notation "x <- c ;; k" := (bind c (fun x => k))
  (at level 61, c at next level, right associativity).

(** The names of the properties of [Object.prototype]. *)
Definition Object_prototype_keys : list string :=
  ["constructor"; "__defineGetter__"; "__defineSetter__"; "hasOwnProperty";
   "__lookupGetter__"; "__lookupSetter__"; "isPrototypeOf";
   "propertyIsEnumerable"; "toString"; "valueOf"; "__proto__";
   "toLocaleString"].

(** What [obj[key]] finds on a plain object: the value of an own
    property, or else a property of [Object.prototype] under that name (a
    function, or the prototype itself for [__proto__]), or else
    [undefined]. *)
Inductive Property (A : Type) : Type :=
| Own (a : A)
| Inherited
| Undefined.

Arguments Own {A} a.
Arguments Inherited {A}.
Arguments Undefined {A}.

(** [arr.map(f)] for a callback that may throw: the elements are visited
    in order and the first exception ends the loop. *)
Fixpoint Array_map {A B : Type} (f : A -> completion B) (arr : list A)
  : completion (list B) :=
  match arr with
  | [] => Normal []
  | x :: rest =>
      y <- f x ;;
      ys <- Array_map f rest ;;
      Normal (y :: ys)
  end.

Section Arrays.

Context {A : Type}.

(** [arr.sort(compareFn)]: the sort is stable; the element [x] goes in
    front of the first element that is not smaller than it. *)
Fixpoint sortInsert (compareFn : A -> A -> Z) (x : A) (sorted : list A)
  : list A :=
  match sorted with
  | [] => [x]
  | y :: rest =>
      if compareFn x y <=? 0 then x :: sorted
      else y :: sortInsert compareFn x rest
  end.

Definition Array_sort (compareFn : A -> A -> Z) (arr : list A) : list A :=
  fold_right (sortInsert compareFn) [] arr.

(** The own property [key] of a plain object, [undefined] ([None]) when
    the object has none.  This is all of [obj[key]] where the key cannot
    name a property of [Object.prototype]: in [data.rates[to.toUpperCase()]],
    since an upper-cased string has no lower-case letter and every
    property name of [Object.prototype] has one, and in [rates[date]] for a
    [date] taken from [Object.keys(rates)]. *)
Fixpoint getProperty (obj : list (string * A)) (key : string) : option A :=
  match obj with
  | [] => None
  | (k, v) :: rest => if String.eqb key k then Some v else getProperty rest key
  end.

(** [obj[key]] for any key. *)
Definition Get (obj : list (string * A)) (key : string) : Property A :=
  match getProperty obj key with
  | Some v => Own v
  | None =>
      if existsb (String.eqb key) Object_prototype_keys
      then Inherited
      else Undefined
  end.

(** [Object.keys(obj)] *)
Definition Object_keys (obj : list (string * A)) : list string :=
  map fst obj.

End Arrays.

(** The comparison that [sort()] uses without a comparator: strings are
    compared code unit by code unit. *)
Definition defaultCompare (a b : string) : Z :=
  match String.compare a b with
  | Lt => -1
  | Eq => 0
  | Gt => 1
  end.

(** ** [formatter.ts]: Markdown renderers and [formatResponse] *)

Section Formatter.

Context {Num : JSNumber}.

(** [String.prototype.localeCompare], which depends on the locale. *)
Variable localeCompare : string -> string -> Z.

Definition formatRatesAsMarkdown
  (rates : list (string * number)) (base date : string) : string :=
  let entries := rates in
  let markdown := "## Exchange Rates for " ++ base ++ Str.nl ++ Str.nl in
  let markdown := markdown ++ "**Date:** " ++ date ++ Str.nl ++ Str.nl in
  let markdown := markdown ++ "| Currency | Rate |" ++ Str.nl in
  let markdown := markdown ++ "|----------|------|" ++ Str.nl in
  fold_left
    (fun markdown entry =>
       let '(currency, rate) := entry in
       markdown ++ "| " ++ currency ++ " | " ++ toFixed rate 4 ++ " |" ++ Str.nl)
    entries markdown.

(** The callback of [symbols.map]: the cell of one symbol in the row of
    one date.  [rate] is [dateRates[symbol]]: an own rate is printed,
    [undefined] gives [N/A], and what [Object.prototype] holds under the
    name of the symbol is not [undefined] and has no [toFixed], so the
    call throws. *)
Definition rateCell (dateRates : list (string * number)) (symbol : string)
  : completion string :=
  match Get dateRates symbol with
  | Own rate => Normal (toFixed rate 4)
  | Inherited => Throw (TypeError "rate.toFixed is not a function")
  | Undefined => Normal "N/A"
  end.

(** One pass of the loop over the sorted dates.  The loop visits the
    keys of [rates] only, and for a key [rates[date]] is that own
    property.  The other branch of the match is never taken by the loop;
    it is written for [undefined], a property of which cannot be read. *)
Definition timeSeriesRow
  (rates : list (string * list (string * number))) (symbols : list string)
  (date : string) : completion string :=
  match getProperty rates date with
  | None =>
      match symbols with
      | [] => Normal ("| " ++ date ++ " | " ++ EmptyString ++ " |" ++ Str.nl)
      | symbol :: _ =>
          Throw (TypeError ("Cannot read properties of undefined (reading '"
                            ++ symbol ++ "')"))
      end
  | Some dateRates =>
      cells <- Array_map (rateCell dateRates) symbols ;;
      let rateValues := Str.join " | " cells in
      Normal ("| " ++ date ++ " | " ++ rateValues ++ " |" ++ Str.nl)
  end.

Definition formatTimeSeriesAsMarkdown
  (rates : list (string * list (string * number)))
  (base : string) (symbols : list string) : completion string :=
  let dates := Array_sort defaultCompare (Object_keys rates) in
  let markdown :=
    "## Time Series Exchange Rates for " ++ base ++ Str.nl ++ Str.nl in
  let markdown :=
    markdown ++ "**Symbols:** " ++ Str.join ", " symbols ++ Str.nl ++ Str.nl in
  let markdown :=
    markdown ++ "| Date | " ++ Str.join " | " symbols ++ " |" ++ Str.nl in
  let markdown :=
    markdown ++ "|------|" ++ Str.join "|" (map (fun _ => "------") symbols)
    ++ "|" ++ Str.nl in
  fold_left
    (fun markdown date =>
       md <- markdown ;;
       row <- timeSeriesRow rates symbols date ;;
       Normal (md ++ row))
    dates (Normal markdown).

(** [rate] is [data.rates[to]], which is [undefined] ([None]) when the
    upstream answer has no such key; [rate.toFixed] then throws. *)
Definition formatConversionAsMarkdown
  (from to : string) (amount : number) (rate : option number)
  (result : number) (date : string) : completion string :=
  let markdown := "## Currency Conversion" ++ Str.nl ++ Str.nl in
  let markdown :=
    markdown ++ "**" ++ toFixed amount 2 ++ " " ++ from ++ " = "
    ++ toFixed result 2 ++ " " ++ to ++ "**" ++ Str.nl ++ Str.nl in
  match rate with
  | None =>
      Throw (TypeError "Cannot read properties of undefined (reading 'toFixed')")
  | Some rate =>
      let markdown :=
        markdown ++ "- Exchange Rate: " ++ toFixed rate 4 ++ Str.nl in
      let markdown := markdown ++ "- Date: " ++ date ++ Str.nl in
      Normal markdown
  end.

Definition formatCurrenciesAsMarkdown (currencies : list (string * string))
  : string :=
  let entries :=
    Array_sort (fun a b => localeCompare (fst a) (fst b)) currencies in
  let markdown := "## Available Currencies" ++ Str.nl ++ Str.nl in
  let markdown := markdown ++ "| Code | Name |" ++ Str.nl in
  let markdown := markdown ++ "|------|------|" ++ Str.nl in
  let markdown :=
    fold_left
      (fun markdown entry =>
         let '(code, name) := entry in
         markdown ++ "| " ++ code ++ " | " ++ name ++ " |" ++ Str.nl)
      entries markdown in
  markdown ++ Str.nl ++ "**Total:** "
  ++ Str.of_Z (Z.of_nat (List.length entries)) ++ " currencies" ++ Str.nl.

Definition formatResponse
  (data : value) (format : ResponseFormat)
  (formatter : option (value -> string)) : string :=
  let content :=
    if ResponseFormat_eqb format JSON then formatAsJSON data
    else match formatter with
         | Some f => f data
         | None => formatAsJSON data
         end in
  let '(finalContent, _) := truncateIfNeeded content format in
  finalContent.

End Formatter.

(** ** [types.ts]: the answers of the upstream API *)

Module FrankfurterBaseResponse.
Record t {Num : JSNumber} : Type := mk {
  base : string;
  date : string;
  rates : list (string * number)
}.
Arguments t {Num}.
Arguments mk {Num}.
End FrankfurterBaseResponse.

Module FrankfurterTimeSeriesResponse.
Record t {Num : JSNumber} : Type := mk {
  base : string;
  start_date : string;
  end_date : string;
  rates : list (string * list (string * number))
}.
Arguments t {Num}.
Arguments mk {Num}.
End FrankfurterTimeSeriesResponse.

Definition FrankfurterCurrenciesResponse : Type := list (string * string).

Section Payloads.

Context {Num : JSNumber}.

(** The payloads seen as plain values, which is how [formatAsJSON]
    receives them: the members that [types.ts] declares. *)
Definition ratesValue (rates : list (string * number)) : value :=
  VObject (map (fun kv => (fst kv, Some (VNumber (snd kv)))) rates).

Definition baseResponseValue (data : FrankfurterBaseResponse.t) : value :=
  VObject
    [("base", Some (VString (FrankfurterBaseResponse.base data)));
     ("date", Some (VString (FrankfurterBaseResponse.date data)));
     ("rates", Some (ratesValue (FrankfurterBaseResponse.rates data)))].

Definition timeSeriesResponseValue (data : FrankfurterTimeSeriesResponse.t)
  : value :=
  VObject
    [("base", Some (VString (FrankfurterTimeSeriesResponse.base data)));
     ("start_date",
      Some (VString (FrankfurterTimeSeriesResponse.start_date data)));
     ("end_date",
      Some (VString (FrankfurterTimeSeriesResponse.end_date data)));
     ("rates",
      Some (VObject
              (map (fun kv => (fst kv, Some (ratesValue (snd kv))))
                 (FrankfurterTimeSeriesResponse.rates data))))].

Definition currenciesResponseValue (data : FrankfurterCurrenciesResponse)
  : value :=
  VObject (map (fun kv => (fst kv, Some (VString (snd kv)))) data).

End Payloads.

(** ** [frankfurter-client.ts] *)

Record AxiosResponse : Set := mkAxiosResponse {
  status : Z;
  statusText : string
}.

(** The fields of an [AxiosError] that [handleApiError] reads; [request]
    records whether the field is set. *)
Record AxiosError : Set := mkAxiosError {
  code : option string;
  response : option AxiosResponse;
  request : bool;
  message : string
}.

Definition handleApiError (error : AxiosError) : JsError :=
  if match code error with
     | Some c => String.eqb c "ECONNABORTED"
     | None => false
     end
  then Error "Request timeout: The Frankfurter API did not respond within 10 seconds. Please try again."
  else
    match response error with
    | Some resp =>
        let status := status resp in
        if status =? 404 then
          Error "The requested resource was not found. Please check your date range and currency codes."
        else if status =? 429 then
          Error "Rate limit exceeded. Please wait a moment before making more requests."
        else if (status =? 500) || (status =? 502) || (status =? 503) then
          Error "The Frankfurter API is currently experiencing issues. Please try again later."
        else
          Error ("API request failed with status " ++ Str.of_Z status ++ ": "
                 ++ statusText resp)
    | None =>
        if request error then
          Error "Unable to connect to the Frankfurter API. Please check your internet connection."
        else
          Error ("An unexpected error occurred: " ++ message error)
    end.

(** A query parameter before processing: a string or an array of strings. *)
Inductive ParamValue : Set :=
| PString (s : string)
| PArray (l : list string).

Record AxiosRequestConfig : Set := mkAxiosRequestConfig {
  timeout : Z;
  headers : list (string * string);
  params : list (string * string)
}.

(** One [axios.get(url, config)]. *)
Record HttpGet : Set := mkHttpGet {
  url : string;
  config : AxiosRequestConfig
}.

(** How the awaited [axios.get] settles. *)
Inductive AxiosOutcome (T : Type) : Type :=
| Resolved (data : T)
| RejectedAxios (error : AxiosError)
| Rejected (error : JsError).

Arguments Resolved {T} data.
Arguments RejectedAxios {T} error.
Arguments Rejected {T} error.

(** A computation that answers at once or sends one request upstream and
    answers when it settles.  [R] is what the computation returns. *)
Inductive Step (T R : Type) : Type :=
| Return (r : R)
| Await (get : HttpGet) (k : AxiosOutcome T -> R).

Arguments Return {T R} r.
Arguments Await {T R} get k.

(** The requests that a computation sends upstream. *)
Definition requests {T R : Type} (s : Step T R) : list HttpGet :=
  match s with
  | Return _ => []
  | Await get _ => [get]
  end.

(** What a computation returns when the request it sends, if any,
    settles as [upstream]. *)
Definition run {T R : Type} (s : Step T R) (upstream : AxiosOutcome T) : R :=
  match s with
  | Return r => r
  | Await _ k => k upstream
  end.

Definition processParams (params : option (list (string * ParamValue)))
  : list (string * string) :=
  match params with
  | Some ps =>
      map (fun entry =>
             let '(key, value) := entry in
             (key, match value with
                   | PArray l => Str.join "," l
                   | PString s => s
                   end))
        ps
  | None => []
  end.

Definition makeApiRequest {T : Type}
  (endpoint : string) (params : option (list (string * ParamValue)))
  : Step T (completion T) :=
  let processedParams := processParams params in
  let config :=
    mkAxiosRequestConfig API_TIMEOUT
      [("Content-Type", "application/json"); ("Accept", "application/json")]
      processedParams in
  Await (mkHttpGet (API_BASE_URL ++ endpoint) config)
    (fun outcome =>
       match outcome with
       | Resolved data => Normal data
       | RejectedAxios error => Throw (handleApiError error)
       | Rejected error => Throw error
       end).

Definition andThen {T A B : Type} (s : Step T A) (f : A -> B) : Step T B :=
  match s with
  | Return a => Return (f a)
  | Await get k => Await get (fun outcome => f (k outcome))
  end.

(** ** Dates

    [new Date(s)] in Node for the strings [YYYY-MM-DD] that the schemas
    accept: a time value in milliseconds since the epoch, or [None] for an
    Invalid Date.

    With a month in [1 .. 12] and a day in [1 .. 31] the string is an ISO
    date: midnight UTC of that day, where a day past the end of the month
    counts into the next month.

    Any other string of that form goes to the legacy reader of V8 with
    its three numbers.  When the first number can be a day of a month
    ([1 .. 31]) they are read as month, day and year (a year below 50 is
    in the 2000s, another one in the 1900s), else as year, month and day;
    the date is invalid unless the month is in [1 .. 12] and the day in
    [1 .. 31], which the second reading never meets here.  The legacy
    reader gives midnight in the time zone of the host.

    Other forms of date strings are not modelled. *)

Module JsDate.

Definition msPerDay : Z := 86400000.

(** [DayFromYear(y)] of ECMAScript. *)
Definition DayFromYear (y : Z) : Z :=
  365 * (y - 1970) + (y - 1969) / 4 - (y - 1901) / 100 + (y - 1601) / 400.

Definition isLeapYear (y : Z) : bool :=
  ((y mod 4 =? 0) && negb (y mod 100 =? 0)) || (y mod 400 =? 0).

Definition DaysInMonth (y m : Z) : Z :=
  if m =? 2 then (if isLeapYear y then 29 else 28)
  else if (m =? 4) || (m =? 6) || (m =? 9) || (m =? 11) then 30
  else 31.

(** Days of the year before the first of month [m] (1-based). *)
Fixpoint daysBefore (y : Z) (m : nat) : Z :=
  match m with
  | O => 0
  | S k => match k with
           | O => 0
           | S _ => daysBefore y k + DaysInMonth y (Z.of_nat k)
           end
  end.

(** [MakeDay(y, m - 1, d)] for a month [m] in [1 .. 12]. *)
Definition MakeDay (y m d : Z) : Z :=
  DayFromYear y + daysBefore y (Z.to_nat m) + (d - 1).

Definition digit (c : ascii) : option Z :=
  if Lex.is_digit c then Some (Z.of_N (N_of_ascii c) - 48) else None.

Definition number2 (a b : ascii) : option Z :=
  match digit a, digit b with
  | Some x, Some y => Some (10 * x + y)
  | _, _ => None
  end.

Definition number4 (a b c d : ascii) : option Z :=
  match number2 a b, number2 c d with
  | Some x, Some y => Some (100 * x + y)
  | _, _ => None
  end.

(** The fields of a string that matches [/^\d{4}-\d{2}-\d{2}$/]. *)
Definition fields (s : string) : option (Z * Z * Z) :=
  match s with
  | String y1 (String y2 (String y3 (String y4 (String s1
      (String m1 (String m2 (String s2
        (String d1 (String d2 EmptyString))))))))) =>
      if Ascii.eqb s1 "-" && Ascii.eqb s2 "-" then
        match number4 y1 y2 y3 y4, number2 m1 m2, number2 d1 d2 with
        | Some y, Some m, Some d => Some (y, m, d)
        | _, _, _ => None
        end
      else None
  | _ => None
  end.

Definition matchesDatePattern (s : string) : bool :=
  match fields s with
  | Some _ => true
  | None => false
  end.

Definition IsMonth (x : Z) : bool := (1 <=? x) && (x <=? 12).

Definition IsDay (x : Z) : bool := (1 <=? x) && (x <=? 31).

(** The date of the legacy reader for the numbers [a-b-c] of a string
    that is no ISO date: year, month and day. *)
Definition legacyDate (a b c : Z) : option (Z * Z * Z) :=
  let '(year, month, day) :=
    if IsDay a then (c, a, b) else (a, b, c) in
  let year :=
    if (0 <=? year) && (year <=? 49) then year + 2000
    else if (50 <=? year) && (year <=? 99) then year + 1900
    else year in
  if IsMonth month && IsDay day then Some (year, month, day) else None.

(** The time value of [new Date(s)]; [UTC] turns a local time of the
    host into UTC. *)
Definition parse (UTC : Z -> Z) (s : string) : option Z :=
  match fields s with
  | Some (y, m, d) =>
      if IsMonth m && IsDay d
      then Some (MakeDay y m d * msPerDay)
      else
        match legacyDate y m d with
        | Some (year, month, day) =>
            Some (UTC (MakeDay year month day * msPerDay))
        | None => None
        end
  | None => None
  end.

(** [a > b] and [a >= b] on two [Date] objects: the time values are
    compared, and a comparison with an Invalid Date is false. *)
Definition gt (a b : option Z) : bool :=
  match a, b with
  | Some x, Some y => y <? x
  | _, _ => false
  end.

Definition ge (a b : option Z) : bool :=
  match a, b with
  | Some x, Some y => y <=? x
  | _, _ => false
  end.

(** A calendar date: the day exists in its month. *)
Definition validDate (y m d : Z) : Prop :=
  0 <= y <= 9999 /\ 1 <= m <= 12 /\ 1 <= d <= DaysInMonth y m.

(** The order of calendar dates. *)
Definition before (a b : Z * Z * Z) : Prop :=
  let '(y1, m1, d1) := a in
  let '(y2, m2, d2) := b in
  y1 < y2 \/ (y1 = y2 /\ (m1 < m2 \/ (m1 = m2 /\ d1 < d2))).

(** [today] is the UTC calendar date of the instant [now]. *)
Definition utcDateOf (now : Z) (today : Z * Z * Z) : Prop :=
  let '(y, m, d) := today in
  validDate y m d /\
  MakeDay y m d * msPerDay <= now < (MakeDay y m d + 1) * msPerDay.

End JsDate.

(** ** [index.ts]: tool inputs after [Schema.parse]

    Each record holds what the corresponding Zod schema returns on
    success ([response_format] has its default filled in); the boolean
    next to it states the constraints of the schema on those fields.  A
    failed [parse] throws a [ZodError], which the [catch] block of the
    request handler answers with an [Invalid parameters] error before
    any code of the tool runs. *)

Definition isCurrencyCode (s : string) : bool := Str.length s =? 3.

Module ConvertCurrency.
Record args {Num : JSNumber} : Type := mk {
  from : string;
  to : string;
  amount : number;
  date : option string;
  response_format : ResponseFormat
}.
Arguments args {Num}.
Arguments mk {Num}.

Definition Schema {Num : JSNumber} (a : args) : bool :=
  isCurrencyCode (from a) && isCurrencyCode (to a) && isPositive (amount a)
  && match date a with
     | Some d => JsDate.matchesDatePattern d
     | None => true
     end.
End ConvertCurrency.

Definition optionalCode (base : option string) : bool :=
  match base with
  | Some b => isCurrencyCode b
  | None => true
  end.

Definition optionalCodes (symbols : option (list string)) : bool :=
  match symbols with
  | Some l => forallb isCurrencyCode l
  | None => true
  end.

Module GetLatestRates.
Record args : Set := mk {
  base : option string;
  symbols : option (list string);
  response_format : ResponseFormat
}.

Definition Schema (a : args) : bool :=
  optionalCode (base a) && optionalCodes (symbols a).
End GetLatestRates.

Module GetHistoricalRates.
Record args : Set := mk {
  date : string;
  base : option string;
  symbols : option (list string);
  response_format : ResponseFormat
}.

Definition Schema (a : args) : bool :=
  JsDate.matchesDatePattern (date a)
  && optionalCode (base a) && optionalCodes (symbols a).
End GetHistoricalRates.

Module GetTimeSeries.
Record args : Set := mk {
  start_date : string;
  end_date : string;
  base : option string;
  symbols : option (list string);
  response_format : ResponseFormat
}.

Definition Schema (a : args) : bool :=
  JsDate.matchesDatePattern (start_date a)
  && JsDate.matchesDatePattern (end_date a)
  && optionalCode (base a) && optionalCodes (symbols a).
End GetTimeSeries.

Module ListCurrencies.
Record args : Set := mk {
  response_format : ResponseFormat
}.
End ListCurrencies.

(** ** [index.ts]: the tool handlers *)

Record TextContent : Set := mkTextContent {
  type : string;
  text : string
}.

(** The answer of a tool call; [isError] is [false] where the code
    leaves the field out. *)
Record CallToolResult : Set := mkCallToolResult {
  content : list TextContent;
  isError : bool
}.

Definition success (content : string) : CallToolResult :=
  mkCallToolResult [mkTextContent "text" content] false.

Definition failure (message : string) : CallToolResult :=
  mkCallToolResult [mkTextContent "text" message] true.

(** The [catch] block of the request handler for an error that is not a
    [ZodError]. *)
Definition catchBlock (c : completion CallToolResult) : CallToolResult :=
  match c with
  | Normal r => r
  | Throw error => failure ("Error: " ++ errorMessage error)
  end.

(** Truthiness of an optional string, as in [if (base)]. *)
Definition truthy (s : option string) : bool :=
  match s with
  | Some x => negb (String.eqb x EmptyString)
  | None => false
  end.

Section Handlers.

Context {Num : JSNumber}.

(** [String.prototype.toUpperCase] and [localeCompare]. *)
Variable toUpperCase : string -> string.
Variable localeCompare : string -> string -> Z.

(** The conversion from local time to UTC in the time zone of the host. *)
Variable UTC : Z -> Z.

(** [params] of the three rate tools. *)
Definition rateParams (base : option string) (symbols : option (list string))
  : list (string * ParamValue) :=
  ((if truthy base
    then match base with
         | Some b => [("base", PString (toUpperCase b))]
         | None => []
         end
    else [])
   ++ match symbols with
      | Some l => [("symbols", PArray (map toUpperCase l))]
      | None => []
      end)%list.

(** [amount * rate], where [rate] may be [undefined]. *)
Definition times (amount : number) (rate : option number) : number :=
  multiply amount (match rate with Some r => r | None => NaN end).

Definition frankfurter_convert_currency (validated : ConvertCurrency.args)
  : Step FrankfurterBaseResponse.t CallToolResult :=
  let from := ConvertCurrency.from validated in
  let to := ConvertCurrency.to validated in
  let amount := ConvertCurrency.amount validated in
  let date := ConvertCurrency.date validated in
  let response_format := ConvertCurrency.response_format validated in
  let endpoint :=
    if truthy date
    then match date with Some d => "/" ++ d | None => "/latest" end
    else "/latest" in
  let params :=
    [("from", PString (toUpperCase from)); ("to", PString (toUpperCase to))] in
  andThen (makeApiRequest endpoint (Some params))
    (fun awaited =>
       catchBlock
         (data <- awaited ;;
          let rate :=
            getProperty (FrankfurterBaseResponse.rates data) (toUpperCase to) in
          let result := times amount rate in
          content <-
            (if ResponseFormat_eqb response_format JSON
             then Normal
                    (formatAsJSON
                       (VObject
                          [("from", Some (VString (toUpperCase from)));
                           ("to", Some (VString (toUpperCase to)));
                           ("amount", Some (VNumber amount));
                           ("rate", option_map VNumber rate);
                           ("result", Some (VNumber result));
                           ("date",
                            Some (VString (FrankfurterBaseResponse.date data)))]))
             else formatConversionAsMarkdown
                    (toUpperCase from) (toUpperCase to) amount rate result
                    (FrankfurterBaseResponse.date data)) ;;
          Normal (success content))).

(** The formatting step shared by the latest and historical tools. *)
Definition ratesContent (response_format : ResponseFormat)
  (data : FrankfurterBaseResponse.t) : string :=
  if ResponseFormat_eqb response_format JSON
  then formatAsJSON (baseResponseValue data)
  else formatRatesAsMarkdown
         (FrankfurterBaseResponse.rates data)
         (FrankfurterBaseResponse.base data)
         (FrankfurterBaseResponse.date data).

Definition frankfurter_get_latest_rates (validated : GetLatestRates.args)
  : Step FrankfurterBaseResponse.t CallToolResult :=
  let base := GetLatestRates.base validated in
  let symbols := GetLatestRates.symbols validated in
  let response_format := GetLatestRates.response_format validated in
  let params := rateParams base symbols in
  andThen (makeApiRequest "/latest" (Some params))
    (fun awaited =>
       catchBlock
         (data <- awaited ;;
          let content := ratesContent response_format data in
          Normal (success content))).

(** [now] is the time value of [new Date()]. *)
Definition frankfurter_get_historical_rates
  (now : Z) (validated : GetHistoricalRates.args)
  : Step FrankfurterBaseResponse.t CallToolResult :=
  let date := GetHistoricalRates.date validated in
  let base := GetHistoricalRates.base validated in
  let symbols := GetHistoricalRates.symbols validated in
  let response_format := GetHistoricalRates.response_format validated in
  let queryDate := JsDate.parse UTC date in
  let today := Some now in
  if JsDate.gt queryDate today then
    Return
      (failure
         ("Error: Date '" ++ date
          ++ "' is in the future. For current rates, use frankfurter_get_latest_rates instead."))
  else
    let params := rateParams base symbols in
    andThen (makeApiRequest ("/" ++ date) (Some params))
      (fun awaited =>
         catchBlock
           (data <- awaited ;;
            let content := ratesContent response_format data in
            Normal (success content))).

(** [Object.keys(Object.values(data.rates)[0] || {})] *)
Definition firstEntryKeys (rates : list (string * list (string * number)))
  : list string :=
  match rates with
  | (_, first) :: _ => Object_keys first
  | [] => []
  end.

Definition frankfurter_get_time_series (validated : GetTimeSeries.args)
  : Step FrankfurterTimeSeriesResponse.t CallToolResult :=
  let start_date := GetTimeSeries.start_date validated in
  let end_date := GetTimeSeries.end_date validated in
  let base := GetTimeSeries.base validated in
  let symbols := GetTimeSeries.symbols validated in
  let response_format := GetTimeSeries.response_format validated in
  let startDate := JsDate.parse UTC start_date in
  let endDate := JsDate.parse UTC end_date in
  if JsDate.ge startDate endDate then
    Return
      (failure
         ("Error: start_date '" ++ start_date ++ "' must be before end_date '"
          ++ end_date ++ "'."))
  else
    let params := rateParams base symbols in
    andThen
      (makeApiRequest ("/" ++ start_date ++ ".." ++ end_date) (Some params))
      (fun awaited =>
         catchBlock
           (data <- awaited ;;
            content <-
              (if ResponseFormat_eqb response_format JSON
               then Normal (formatAsJSON (timeSeriesResponseValue data))
               else
                 let symbolList :=
                   match symbols with
                   | Some l => map toUpperCase l
                   | None =>
                       firstEntryKeys (FrankfurterTimeSeriesResponse.rates data)
                   end in
                 formatTimeSeriesAsMarkdown
                   (FrankfurterTimeSeriesResponse.rates data)
                   (FrankfurterTimeSeriesResponse.base data) symbolList) ;;
            let content :=
              formatResponse (VString content) response_format
                (if ResponseFormat_eqb response_format MARKDOWN
                 then None
                 else Some (fun _ => content)) in
            Normal (success content))).

Definition frankfurter_list_currencies (validated : ListCurrencies.args)
  : Step FrankfurterCurrenciesResponse CallToolResult :=
  let response_format := ListCurrencies.response_format validated in
  andThen (makeApiRequest "/currencies" None)
    (fun awaited =>
       catchBlock
         (data <- awaited ;;
          let content :=
            if ResponseFormat_eqb response_format JSON
            then formatAsJSON (currenciesResponseValue data)
            else formatCurrenciesAsMarkdown localeCompare data in
          Normal (success content))).

(** The [default] branch of the dispatch. *)
Definition unknownTool (name : string) : CallToolResult :=
  failure
    ("Error: Unknown tool '" ++ name
     ++ "'. Available tools: frankfurter_convert_currency, frankfurter_get_latest_rates, frankfurter_get_historical_rates, frankfurter_get_time_series, frankfurter_list_currencies").

End Handlers.

(** ** JSON values *)

Section JsonValues.

Context {Num : JSNumber}.

(** The keys of an object in the order in which the object enumerates
    them: no key twice, and an array index only after smaller array
    indices and before every other key. *)
Fixpoint canonicalFrom (seen keys : list string) : bool :=
  match keys with
  | [] => true
  | k :: rest =>
      negb (existsb (String.eqb k) seen)
      && match arrayIndex k with
         | Some i =>
             forallb
               (fun k' =>
                  match arrayIndex k' with
                  | Some j => j <? i
                  | None => false
                  end)
               seen
         | None => true
         end
      && canonicalFrom (seen ++ [k]) rest
  end.

Definition canonicalKeys (keys : list string) : bool := canonicalFrom [] keys.

(** The values that JSON text can denote: every number is finite and not
    the negative zero, no member of an object is [undefined], and the
    members of an object are in its enumeration order. *)
Fixpoint isJSONValue (v : value) : bool :=
  match v with
  | VNull => true
  | VBool _ => true
  | VNumber n => isFinite n && negb (isNegativeZero n)
  | VString _ => true
  | VArray items => forallb isJSONValue items
  | VObject members =>
      forallb
        (fun kv =>
           match snd kv with
           | Some x => isJSONValue x
           | None => false
           end)
        members
      && canonicalKeys (map fst members)
  end.


(** Induction on values, with the hypothesis for every item of an array
    and every defined member of an object. *)
Section Induction.

Variable P : value -> Prop.
Hypothesis Hnull : P VNull.
Hypothesis Hbool : forall b, P (VBool b).
Hypothesis Hnumber : forall n, P (VNumber n).
Hypothesis Hstring : forall s, P (VString s).
Hypothesis Harray : forall items, Forall P items -> P (VArray items).
Hypothesis Hobject :
  forall members,
    Forall (fun kv => forall x, snd kv = Some x -> P x) members ->
    P (VObject members).

Fixpoint value_induction (v : value) : P v :=
  match v with
  | VNull => Hnull
  | VBool b => Hbool b
  | VNumber n => Hnumber n
  | VString s => Hstring s
  | VArray items =>
      Harray items
        ((fix go (l : list value) : Forall P l :=
            match l with
            | [] => Forall_nil P
            | x :: r => Forall_cons x (value_induction x) (go r)
            end) items)
  | VObject members =>
      Hobject members
        ((fix go (l : list (string * option value))
            : Forall (fun kv => forall x, snd kv = Some x -> P x) l :=
            match l with
            | [] => Forall_nil _
            | kv :: r =>
                Forall_cons kv
                  (match snd kv as o
                         return forall x, o = Some x -> P x with
                   | Some y =>
                       fun x (E : Some y = Some x) =>
                         match E in _ = o
                               return match o with
                                      | Some z => P z
                                      | None => True
                                      end with
                         | eq_refl => value_induction y
                         end
                   | None => fun x (E : None = Some x) =>
                       match E in _ = o
                             return match o with
                                    | Some z => P z
                                    | None => True
                                    end with
                       | eq_refl => I
                       end
                   end)
                  (go r)
            end) members)
  end.

End Induction.

End JsonValues.

(** ** The time-series table of the specification *)

(** The order of strings by code units. *)
Definition codeUnitLt (a b : string) : Prop := String.compare a b = Lt.

Section TableSpec.

Context {Num : JSNumber}.

(** The table as the specification describes it.  Above the rows: the
    heading with the base, the line of the requested symbols, and the
    head of the table with the column [Date] and one column per
    requested symbol. *)
Definition timeSeriesHeader (base : string) (symbols : list string)
  : string :=
  ("## Time Series Exchange Rates for " ++ base ++ Str.nl)
  ++ Str.nl
  ++ ("**Symbols:** " ++ Str.join ", " symbols ++ Str.nl)
  ++ Str.nl
  ++ ("| Date | " ++ Str.join " | " symbols ++ " |" ++ Str.nl)
  ++ ("|------|" ++ Str.join "|" (map (fun _ => "------") symbols) ++ "|"
      ++ Str.nl).

(** One row per entry of the series, one cell per requested symbol; a
    cell shows the rate with four decimals, or [N/A] when the entry has
    no rate for the symbol. *)
Definition tableCell (dateRates : list (string * number)) (symbol : string)
  : string :=
  match getProperty dateRates symbol with
  | Some rate => toFixed rate 4
  | None => "N/A"
  end.

Definition tableRow (symbols : list string)
  (entry : string * list (string * number)) : string :=
  "| " ++ fst entry ++ " | "
  ++ Str.join " | " (map (tableCell (snd entry)) symbols) ++ " |" ++ Str.nl.

Definition tableRows (symbols : list string)
  (entries : list (string * list (string * number))) : string :=
  fold_right append EmptyString (map (tableRow symbols) entries).

(** The entry of [rates] under the key [date]. *)
Definition entryOf (rates : list (string * list (string * number)))
  (date : string) : string * list (string * number) :=
  (date, match getProperty rates date with Some r => r | None => [] end).

(** No cell of the table is found on [Object.prototype]: a symbol that
    an entry of the series lacks is not one of its names either. *)
Definition ownCells (rates : list (string * list (string * number)))
  (symbols : list string) : Prop :=
  forall date dateRates symbol,
    getProperty rates date = Some dateRates -> In symbol symbols ->
    Get dateRates symbol <> Inherited.

End TableSpec.

(** ** Notions used in the proofs about [JSON.parse] *)

(** Text that the reader skips in front of a token. *)
Definition blank (s : string) : Prop :=
  forall t, Lex.skip_ws (s ++ t) = Lex.skip_ws t.

(** Text in front of which a number token ends. *)
Definition delimited (rest : string) : Prop :=
  match rest with
  | EmptyString => True
  | String c _ => Lex.is_num_char c = false
  end.

(** Text that starts with a character of a token, other than the
    closing bracket. *)
Definition opens (s : string) : Prop :=
  exists c r, s = String c r /\ Lex.is_ws c = false
              /\ Ascii.eqb "]" c = false.

(** The member of [key] whose value is written as [text]. *)
Definition memberText (key text : string) : string :=
  QuoteJSONString key ++ ": " ++ text.

Section ReadBack.

Context {Num : JSNumber}.

(** The text of one member of an object. *)
Definition memberOf (indent : string) (kv : string * option value) : string :=
  memberText (fst kv)
    (match snd kv with
     | Some x => SerializeJSONProperty indent x
     | None => EmptyString
     end).

(** What reading back the text of [v] means: with enough fuel, whatever
    the indentation, and in front of any text that delimits a number. *)
Definition readsBack (v : value) : Prop :=
  forall indent rest fuel,
    isJSONValue v = true -> blank indent -> delimited rest ->
    (String.length (SerializeJSONProperty indent v) < fuel)%nat ->
    parse_value fuel (SerializeJSONProperty indent v ++ rest) = Some (v, rest).

End ReadBack.

(** ** The tables of the rates and currencies renderers *)

(** The rows of a table, one after the other. *)
Definition concatRows (rows : list string) : string :=
  fold_right append EmptyString rows.

Section RatesTable.

Context {Num : JSNumber}.

(** The lines above the rows of the rates table. *)
Definition ratesHeader (base date : string) : string :=
  ((("## Exchange Rates for " ++ base ++ Str.nl ++ Str.nl)
    ++ "**Date:** " ++ date ++ Str.nl ++ Str.nl)
   ++ "| Currency | Rate |" ++ Str.nl)
  ++ "|----------|------|" ++ Str.nl.

(** The row of one currency: its code and its rate with four decimals. *)
Definition rateRow (entry : string * number) : string :=
  "| " ++ fst entry ++ " | " ++ toFixed (snd entry) 4 ++ " |" ++ Str.nl.

End RatesTable.

(** The lines above the rows of the currencies table. *)
Definition currenciesHeader : string :=
  (("## Available Currencies" ++ Str.nl ++ Str.nl)
   ++ "| Code | Name |" ++ Str.nl)
  ++ "|------|------|" ++ Str.nl.

(** The row of one currency of the catalog: its code and its name. *)
Definition currencyRow (entry : string * string) : string :=
  "| " ++ fst entry ++ " | " ++ snd entry ++ " |" ++ Str.nl.

(** The line under the rows of the currencies table. *)
Definition currenciesFooter (count : nat) : string :=
  Str.nl ++ "**Total:** " ++ Str.of_Z (Z.of_nat count) ++ " currencies"
  ++ Str.nl.

(** A character that a line of text can hold: no control character, so
    no line break. *)
Definition printable (c : ascii) : bool := (32 <=? N_of_ascii c)%N.

Fixpoint allPrintable (s : string) : bool :=
  match s with
  | EmptyString => true
  | String c r => printable c && allPrintable r
  end.

(** ** What the tools send upstream, and how a request fails *)

(** The headers and the timeout of every request. *)
Definition requestConfig (query : list (string * string))
  : AxiosRequestConfig :=
  mkAxiosRequestConfig 10000
    [("Content-Type", "application/json"); ("Accept", "application/json")]
    query.

(** The query of the three rate tools: the base and the symbols in upper
    case, the symbols joined by commas. *)
Definition rateQuery (toUpperCase : string -> string)
  (base : option string) (symbols : option (list string))
  : list (string * string) :=
  (match base with
   | Some b => [("base", toUpperCase b)]
   | None => []
   end
   ++ match symbols with
      | Some l => [("symbols", Str.join "," (map toUpperCase l))]
      | None => []
      end)%list.

(** How a request fails: with an error of the HTTP client, or with any
    other error; and the error that [makeApiRequest] then throws. *)
Definition rejectedWith {T : Type} (rejection : AxiosError + JsError)
  : AxiosOutcome T :=
  match rejection with
  | inl error => RejectedAxios error
  | inr error => Rejected error
  end.

Definition thrownBy (rejection : AxiosError + JsError) : JsError :=
  match rejection with
  | inl error => handleApiError error
  | inr error => error
  end.

(** The columns of the time-series table: the requested symbols in upper
    case, or the keys of the first entry of the answer when no symbols
    were requested. *)
Definition seriesColumns {Num : JSNumber} (toUpperCase : string -> string)
  (symbols : option (list string))
  (rates : list (string * list (string * number))) : list string :=
  match symbols with
  | Some l => map toUpperCase l
  | None => firstEntryKeys rates
  end.

(** ** A model of the number interface: the integers

    The integers with a [NaN], printed in decimal, satisfy the facts that
    the interface states.  The examples below are run on them. *)

Inductive IntegerNumber : Set :=
| IntNaN
| IntOf (z : Z).

Definition integerMultiply (a b : IntegerNumber) : IntegerNumber :=
  match a, b with
  | IntOf x, IntOf y => IntOf (x * y)
  | _, _ => IntNaN
  end.

Definition integerToString (n : IntegerNumber) : string :=
  match n with
  | IntNaN => "NaN"
  | IntOf z => Str.of_Z z
  end.

Definition integerToFixed (n : IntegerNumber) (digits : Z) : string :=
  match n with
  | IntNaN => "NaN"
  | IntOf z =>
      if 0 <? digits
      then Str.of_Z z ++ "." ++ Str.repeat "0" (Z.to_nat digits)
      else Str.of_Z z
  end.

(** Reads the decimal text of an integer as [integerToString] prints it. *)
Definition integerParse (s : string) : option IntegerNumber :=
  match NilZero.int_of_string s with
  | Some d =>
      if String.eqb (Str.of_Z (Z.of_int d)) s then Some (IntOf (Z.of_int d))
      else None
  | None => None
  end.

Definition integerIsFinite (n : IntegerNumber) : bool :=
  match n with
  | IntOf _ => true
  | IntNaN => false
  end.

Definition integerIsPositive (n : IntegerNumber) : bool :=
  match n with
  | IntOf z => 0 <? z
  | IntNaN => false
  end.

(** The integers have no negative zero. *)
Definition integerIsNegativeZero (n : IntegerNumber) : bool := false.

(** [toUpperCase] on the letters of ASCII. *)
Definition upperChar (c : ascii) : ascii :=
  let n := N_of_ascii c in
  if ((97 <=? n) && (n <=? 122))%N then ascii_of_N (n - 32) else c.

Fixpoint asciiUpperCase (s : string) : string :=
  match s with
  | EmptyString => EmptyString
  | String c r => String (upperChar c) (asciiUpperCase r)
  end.

Lemma uint_digits (d : Decimal.uint) :
  Lex.all_num_chars (NilEmpty.string_of_uint d) = true.
Proof. induction d; simpl; auto. Qed.

Lemma uint_token (d : Decimal.uint) :
  exists c r, NilZero.string_of_uint d = String c r
              /\ Lex.is_digit c = true /\ Lex.all_num_chars r = true.
Proof.
  destruct d; simpl;
    try (eexists _, _; split; [reflexivity | split; [reflexivity |]];
         try reflexivity; apply uint_digits).
Qed.

Lemma of_Z_token (z : Z) : Lex.number_token (Str.of_Z z) = true.
Proof.
  unfold Str.of_Z. destruct (Z.to_int z) as [d | d]; simpl.
  - destruct (uint_token d) as (c & r & -> & Hc & Hr). simpl.
    unfold Lex.is_num_start. rewrite Hc, Hr. reflexivity.
  - destruct (uint_token d) as (c & r & -> & Hc & Hr). simpl.
    unfold Lex.is_num_char at 1. rewrite Hc, Hr. reflexivity.
Qed.

Lemma int_of_string_of_Z (z : Z) :
  exists d, NilZero.int_of_string (Str.of_Z z) = Some d /\ Z.of_int d = z.
Proof.
  unfold Str.of_Z. pose proof (DecimalZ.of_to z) as Hz.
  destruct (Z.to_int z) as [d | d].
  - destruct d;
      try (eexists; split; [apply NilZero.isi; discriminate | exact Hz]).
    exists (Pos Decimal.zero). split; [reflexivity | exact Hz].
  - destruct d;
      try (eexists; split; [apply NilZero.isi; discriminate | exact Hz]).
    exists (Neg (D0 Nil)). split; [reflexivity | exact Hz].
Qed.

Lemma integerParse_toString (z : Z) :
  integerParse (Str.of_Z z) = Some (IntOf z).
Proof.
  unfold integerParse.
  destruct (int_of_string_of_Z z) as (d & -> & ->).
  rewrite String.eqb_refl. reflexivity.
Qed.

Lemma integerMultiply_NaN_r (x : IntegerNumber) : integerMultiply x IntNaN = IntNaN.
Proof. destruct x; reflexivity. Qed.

Lemma integerToString_token (x : IntegerNumber) :
  integerIsFinite x = true -> Lex.number_token (integerToString x) = true.
Proof. destruct x as [|z]; intros H; [discriminate | apply of_Z_token]. Qed.

Lemma integerToString_exact (x : IntegerNumber) :
  integerIsFinite x = true -> integerIsNegativeZero x = false ->
  integerParse (integerToString x) = Some x.
Proof.
  destruct x as [|z]; intros H _; [discriminate | apply integerParse_toString].
Qed.

Instance Integers : JSNumber := {|
  number := IntegerNumber;
  NaN := IntNaN;
  multiply := integerMultiply;
  isFinite := integerIsFinite;
  isPositive := integerIsPositive;
  isNegativeZero := integerIsNegativeZero;
  numberToString := integerToString;
  toFixed := integerToFixed;
  parseJSONNumber := integerParse;
  multiply_NaN_r := integerMultiply_NaN_r;
  isFinite_NaN := eq_refl;
  numberToString_token := integerToString_token;
  numberToString_exact := integerToString_exact
|}.

(** ** Sample data *)

(** A content of 25001 characters, one more than the limit. *)
Definition overLimit : string := Str.repeat "a" (Z.to_nat 25001).

(** An instant of 15 June 2024, at noon UTC. *)
Definition noon_2024_06_15 : Z := 1718452800000.

(** A host whose local time is UTC. *)
Definition utcHost : Z -> Z := fun t => t.

(** The object that the conversion tool renders when the upstream answer
    lacks the target code: [rate] is [undefined] and [result] is [NaN]. *)
Definition conversionWithoutRate : value (Num := Integers) :=
  VObject
    [("from", Some (VString "EUR")); ("to", Some (VString "USD"));
     ("amount", Some (VNumber (IntOf 100)));
     ("rate", None);
     ("result", Some (VNumber IntNaN));
     ("date", Some (VString "2024-06-14"))].

(** A payload with nested objects and an array. *)
Definition sampleSeries : value (Num := Integers) :=
  VObject
    [("base", Some (VString "EUR"));
     ("rates",
      Some (VObject
              [("2024-01-02",
                Some (VObject [("USD", Some (VNumber (IntOf 2)))]));
               ("2024-01-01", Some (VArray [VNull; VBool true]))]))].

(** A time-series call for January 2024 in JSON format, with a small and
    with an oversized upstream answer. *)
Definition januaryJson : GetTimeSeries.args :=
  GetTimeSeries.mk "2024-01-01" "2024-01-31" None None JSON.

Definition smallSeries : FrankfurterTimeSeriesResponse.t (Num := Integers) :=
  FrankfurterTimeSeriesResponse.mk "EUR" "2024-01-01" "2024-01-31"
    [("2024-01-02", [("USD", IntOf 2)])].

Definition largeSeries : FrankfurterTimeSeriesResponse.t (Num := Integers) :=
  FrankfurterTimeSeriesResponse.mk overLimit "2024-01-01" "2024-01-31"
    [("2024-01-02", [("USD", IntOf 2)])].

(** The first 25000 characters of the oversized sample content. *)
Definition atLimit : string := Str.repeat "a" (Z.to_nat 25000).

(** A time-series call for January 2024 in Markdown format. *)
Definition januaryMarkdown : GetTimeSeries.args :=
  GetTimeSeries.mk "2024-01-01" "2024-01-31" None None MARKDOWN.

(** An upstream answer with one rate. *)
Definition smallRates : FrankfurterBaseResponse.t (Num := Integers) :=
  FrankfurterBaseResponse.mk "EUR" "2024-06-14" [("USD", IntOf 2)].

(** * Properties *)

(** ** Strings *)

Lemma append_nil_r (s : string) : s ++ EmptyString = s.
Proof. induction s as [|c s IH]; simpl; [reflexivity | now rewrite IH]. Qed.

Lemma append_assoc (a b c : string) : (a ++ b) ++ c = a ++ (b ++ c).
Proof. induction a as [|x a IH]; simpl; [reflexivity | now rewrite IH]. Qed.

Lemma length_append (a b : string) :
  String.length (a ++ b) = (String.length a + String.length b)%nat.
Proof. induction a as [|x a IH]; simpl; [reflexivity | now rewrite IH]. Qed.

Lemma Str_length_append (a b : string) :
  Str.length (a ++ b) = Str.length a + Str.length b.
Proof. unfold Str.length. rewrite length_append. lia. Qed.

Lemma Str_length_nonneg (s : string) : 0 <= Str.length s.
Proof. unfold Str.length. lia. Qed.

Lemma substring_0_length (n : nat) (s : string) :
  (n <= String.length s)%nat -> String.length (String.substring 0 n s) = n.
Proof.
  revert s. induction n as [|n IH]; intros s Hn.
  - destruct s; reflexivity.
  - destruct s as [|c s]; simpl in *; [lia |].
    rewrite IH; [reflexivity | lia].
Qed.

Lemma substring_0_split (n : nat) (s : string) :
  s = String.substring 0 n s ++ String.substring n (String.length s - n) s.
Proof.
  revert s. induction n as [|n IH]; intros s.
  - simpl. rewrite Nat.sub_0_r. destruct s as [|c s]; [reflexivity |].
    simpl. f_equal.
    assert (H : forall t, String.substring 0 (String.length t) t = t).
    { induction t as [|x t IHt]; simpl; [reflexivity | now rewrite IHt]. }
    now rewrite H.
  - destruct s as [|c s]; simpl; [reflexivity |].
    f_equal. apply IH.
Qed.

(** The prefix that [substring(0, limit)] cuts from a longer string. *)
Lemma Str_substring_prefix (s : string) (limit : Z) :
  0 <= limit < Str.length s ->
  Str.length (Str.substring s 0 limit) = limit /\
  exists rest, s = Str.substring s 0 limit ++ rest.
Proof.
  intros H. unfold Str.substring.
  assert (Ha : Z.min (Z.max 0 0) (Str.length s) = 0) by lia.
  assert (Hb : Z.min (Z.max limit 0) (Str.length s) = limit) by lia.
  rewrite Ha, Hb.
  replace (Z.min 0 limit) with 0 by lia.
  replace (Z.max 0 limit - 0) with limit by lia.
  change (Z.to_nat 0) with 0%nat.
  split.
  - unfold Str.length in *. rewrite substring_0_length; lia.
  - eexists. apply substring_0_split.
Qed.

(** ** Truncation *)

Lemma truncationMessage_length (format : ResponseFormat) :
  0 < Str.length (truncationMessage format).
Proof. destruct format; vm_compute; reflexivity. Qed.

Lemma truncateIfNeeded_short (content : string) (format : ResponseFormat) :
  Str.length content <= CHARACTER_LIMIT ->
  truncateIfNeeded content format
  = (content, mkTruncationMeta false None None).
Proof.
  intros H. unfold truncateIfNeeded.
  destruct (Z.leb_spec (Str.length content) CHARACTER_LIMIT); [reflexivity | lia].
Qed.

Lemma truncateIfNeeded_long (content : string) (format : ResponseFormat) :
  CHARACTER_LIMIT < Str.length content ->
  truncateIfNeeded content format
  = (Str.substring content 0 CHARACTER_LIMIT ++ truncationMessage format,
     mkTruncationMeta true
       (Some "Response exceeded character limit and was truncated")
       (Some (Str.length content))).
Proof.
  intros H. unfold truncateIfNeeded.
  destruct (Z.leb_spec (Str.length content) CHARACTER_LIMIT); [lia | reflexivity].
Qed.

Lemma truncateIfNeeded_length (content : string) (format : ResponseFormat) :
  Str.length (fst (truncateIfNeeded content format))
  <= CHARACTER_LIMIT + Str.length (truncationMessage format).
Proof.
  pose proof (truncationMessage_length format) as Hm.
  destruct (Z.le_gt_cases (Str.length content) CHARACTER_LIMIT) as [H | H].
  - rewrite truncateIfNeeded_short by exact H. cbn [fst]. lia.
  - rewrite truncateIfNeeded_long by exact H. cbn [fst].
    rewrite Str_length_append.
    destruct (Str_substring_prefix content CHARACTER_LIMIT) as [Hl _].
    { unfold CHARACTER_LIMIT in *. lia. }
    lia.
Qed.

(** C2.  Content within the limit comes back unchanged and unflagged.
    Longer content comes back as its first 25000 characters followed by
    the notice of the format: the output is 25000 plus the length of the
    notice long, it is flagged as truncated and the length before the
    cut is recorded. *)
Theorem truncateIfNeeded_spec (content : string) (format : ResponseFormat) :
  (Str.length content <= 25000 ->
   truncateIfNeeded content format
   = (content, mkTruncationMeta false None None))
  /\
  (Str.length content > 25000 ->
   exists head rest,
     content = head ++ rest /\ Str.length head = 25000 /\
     fst (truncateIfNeeded content format) = head ++ truncationMessage format /\
     Str.length (fst (truncateIfNeeded content format))
     = 25000 + Str.length (truncationMessage format) /\
     truncated (snd (truncateIfNeeded content format)) = true /\
     original_length (snd (truncateIfNeeded content format))
     = Some (Str.length content)).
Proof.
  split; intros H.
  - apply truncateIfNeeded_short. exact H.
  - destruct (Str_substring_prefix content CHARACTER_LIMIT) as [Hl [rest Hr]].
    { unfold CHARACTER_LIMIT. lia. }
    exists (Str.substring content 0 CHARACTER_LIMIT), rest.
    rewrite truncateIfNeeded_long by (unfold CHARACTER_LIMIT; lia).
    cbn [fst snd truncated original_length]. rewrite Str_length_append, Hl.
    repeat split; try reflexivity. exact Hr.
Qed.

Lemma truncateIfNeeded_spec_witness :
  truncateIfNeeded "EUR" JSON = ("EUR", mkTruncationMeta false None None)
  /\
  exists head rest,
    overLimit = head ++ rest /\ Str.length head = 25000 /\
    fst (truncateIfNeeded overLimit MARKDOWN)
    = head ++ truncationMessage MARKDOWN /\
    Str.length (fst (truncateIfNeeded overLimit MARKDOWN))
    = 25000 + Str.length (truncationMessage MARKDOWN) /\
    truncated (snd (truncateIfNeeded overLimit MARKDOWN)) = true /\
    original_length (snd (truncateIfNeeded overLimit MARKDOWN))
    = Some (Str.length overLimit).
Proof.
  split.
  - apply (proj1 (truncateIfNeeded_spec "EUR" JSON)).
    vm_compute. discriminate.
  - apply (proj2 (truncateIfNeeded_spec overLimit MARKDOWN)).
    vm_compute. reflexivity.
Defined.

(** C3, as stated, fails: the output of a first truncation is the limit
    plus the notice long, and truncating it again reports a truncation. *)
Lemma retruncation_counterexample :
  let first := fst (truncateIfNeeded overLimit JSON) in
  Str.length first <= CHARACTER_LIMIT + Str.length (truncationMessage JSON)
  /\ truncated (snd (truncateIfNeeded first JSON)) = true.
Proof.
  split.
  - vm_compute. discriminate.
  - vm_compute. reflexivity.
Qed.

(** C3, amended.  A second truncation reports exactly what the first one
    reported: content within the limit is a fixed point of [truncate]
    and is reported as not truncated again, while the output for longer
    content exceeds the limit by the length of the notice and is reported
    as truncated again. *)
Theorem truncateIfNeeded_twice (content : string) (format : ResponseFormat) :
  let first := truncateIfNeeded content format in
  let second := truncateIfNeeded (fst first) format in
  truncated (snd second) = truncated (snd first)
  /\ (truncated (snd first) = false <-> Str.length content <= CHARACTER_LIMIT)
  /\ (truncated (snd first) = false -> second = first)
  /\ (truncated (snd first) = true ->
      Str.length (fst first)
      = CHARACTER_LIMIT + Str.length (truncationMessage format)).
Proof.
  cbv zeta.
  pose proof (truncationMessage_length format) as Hm.
  destruct (Z.le_gt_cases (Str.length content) CHARACTER_LIMIT) as [H | H].
  - rewrite (truncateIfNeeded_short content format H). cbn [fst snd truncated].
    rewrite (truncateIfNeeded_short content format H). cbn [fst snd truncated].
    repeat split; try reflexivity; try discriminate. intros _. exact H.
  - destruct (Str_substring_prefix content CHARACTER_LIMIT) as [Hl _].
    { unfold CHARACTER_LIMIT in *. lia. }
    rewrite (truncateIfNeeded_long content format H). cbn [fst snd truncated].
    rewrite truncateIfNeeded_long.
    + cbn [fst snd truncated]. rewrite Str_length_append, Hl.
      repeat split; try reflexivity; try discriminate. intros Hle. lia.
    + rewrite Str_length_append, Hl. lia.
Qed.

Lemma truncateIfNeeded_twice_witness :
  let first := truncateIfNeeded overLimit JSON in
  let second := truncateIfNeeded (fst first) JSON in
  truncated (snd second) = truncated (snd first)
  /\ (truncated (snd first) = false <-> Str.length overLimit <= CHARACTER_LIMIT)
  /\ (truncated (snd first) = false -> second = first)
  /\ (truncated (snd first) = true ->
      Str.length (fst first)
      = CHARACTER_LIMIT + Str.length (truncationMessage JSON)).
Proof. exact (truncateIfNeeded_twice overLimit JSON). Defined.

(** ** Error messages of the client *)

(** C5, as stated, fails for the 5xx statuses other than 500, 502 and
    503: a 504 gets the generic message. *)
Lemma handleApiError_504 :
  let error :=
    mkAxiosError (Some "ERR_BAD_RESPONSE")
      (Some (mkAxiosResponse 504 "Gateway Timeout")) true
      "Request failed with status code 504" in
  500 <= 504 <= 599
  /\ handleApiError error
     = Error "API request failed with status 504: Gateway Timeout"
  /\ handleApiError error
     <> Error "The Frankfurter API is currently experiencing issues. Please try again later.".
Proof.
  cbv zeta. split; [lia |]. split; [vm_compute; reflexivity |].
  vm_compute. discriminate.
Qed.

(** C5, amended.  For an error that carries an HTTP response and is not
    a timeout of the client, the message depends on the status alone:
    404 gives the not-found message, 429 the rate-limit message, 500, 502
    and 503 the service-issues message, and every other status the
    generic message with the status number and the reason. *)
Theorem handleApiError_status
  (error : AxiosError) (resp : AxiosResponse) :
  code error <> Some "ECONNABORTED" ->
  response error = Some resp ->
  (status resp = 404 ->
   handleApiError error
   = Error "The requested resource was not found. Please check your date range and currency codes.")
  /\ (status resp = 429 ->
      handleApiError error
      = Error "Rate limit exceeded. Please wait a moment before making more requests.")
  /\ (status resp = 500 \/ status resp = 502 \/ status resp = 503 ->
      handleApiError error
      = Error "The Frankfurter API is currently experiencing issues. Please try again later.")
  /\ (status resp <> 404 -> status resp <> 429 -> status resp <> 500 ->
      status resp <> 502 -> status resp <> 503 ->
      handleApiError error
      = Error ("API request failed with status " ++ Str.of_Z (status resp)
               ++ ": " ++ statusText resp)).
Proof.
  intros Hcode Hresp. unfold handleApiError. rewrite Hresp.
  assert (Hc : match code error with
               | Some c => String.eqb c "ECONNABORTED"
               | None => false
               end = false).
  { destruct (code error) as [c|]; [| reflexivity].
    destruct (String.eqb_spec c "ECONNABORTED") as [-> | Hne];
      [now elim Hcode | reflexivity]. }
  rewrite Hc. cbv zeta.
  repeat split.
  - intros ->. reflexivity.
  - intros ->. reflexivity.
  - intros [-> | [-> | ->]]; reflexivity.
  - intros H1 H2 H3 H4 H5.
    destruct (Z.eqb_spec (status resp) 404); [contradiction |].
    destruct (Z.eqb_spec (status resp) 429); [contradiction |].
    destruct (Z.eqb_spec (status resp) 500); [contradiction |].
    destruct (Z.eqb_spec (status resp) 502); [contradiction |].
    destruct (Z.eqb_spec (status resp) 503); [contradiction |].
    reflexivity.
Qed.

Lemma handleApiError_status_witness :
  let resp := mkAxiosResponse 504 "Gateway Timeout" in
  let error :=
    mkAxiosError (Some "ERR_BAD_RESPONSE") (Some resp) true
      "Request failed with status code 504" in
  handleApiError error
  = Error ("API request failed with status " ++ Str.of_Z (status resp)
           ++ ": " ++ statusText resp).
Proof.
  cbv zeta.
  refine (proj2 (proj2 (proj2
    (handleApiError_status
       (mkAxiosError (Some "ERR_BAD_RESPONSE")
          (Some (mkAxiosResponse 504 "Gateway Timeout")) true
          "Request failed with status code 504")
       (mkAxiosResponse 504 "Gateway Timeout") _ _))) _ _ _ _ _);
    simpl; try discriminate; reflexivity.
Defined.

(** ** Calendar dates *)

Lemma DayFromYear_succ (y : Z) :
  JsDate.DayFromYear (y + 1)
  = JsDate.DayFromYear y + (if JsDate.isLeapYear y then 366 else 365).
Proof.
  unfold JsDate.DayFromYear, JsDate.isLeapYear.
  destruct (Z.eqb_spec (y mod 4) 0); destruct (Z.eqb_spec (y mod 100) 0);
    destruct (Z.eqb_spec (y mod 400) 0); cbn [andb orb negb];
    Z.div_mod_to_equations; lia.
Qed.

Lemma DayFromYear_mono (y1 y2 : Z) :
  y1 <= y2 -> JsDate.DayFromYear y1 <= JsDate.DayFromYear y2.
Proof.
  intros H. unfold JsDate.DayFromYear. Z.div_mod_to_equations. lia.
Qed.

Lemma DaysInMonth_bounds (y m : Z) : 28 <= JsDate.DaysInMonth y m <= 31.
Proof.
  unfold JsDate.DaysInMonth.
  destruct (m =? 2); [destruct (JsDate.isLeapYear y); lia |].
  destruct ((m =? 4) || (m =? 6) || (m =? 9) || (m =? 11)); lia.
Qed.

Lemma daysBefore_succ (y : Z) (k : nat) :
  (1 <= k)%nat ->
  JsDate.daysBefore y (S k)
  = JsDate.daysBefore y k + JsDate.DaysInMonth y (Z.of_nat k).
Proof. intros H. destruct k as [|k]; [lia | reflexivity]. Qed.

Lemma daysBefore_mono (y : Z) (a b : nat) :
  (1 <= a < b)%nat ->
  JsDate.daysBefore y a + JsDate.DaysInMonth y (Z.of_nat a)
  <= JsDate.daysBefore y b.
Proof.
  intros [Ha Hab]. induction b as [|b IH]; [lia |].
  rewrite daysBefore_succ by lia.
  destruct (Nat.eq_dec a b) as [-> | Hne]; [lia |].
  pose proof (DaysInMonth_bounds y (Z.of_nat b)).
  assert (a < b)%nat by lia. specialize (IH H0). lia.
Qed.

Lemma daysBefore_nonneg (y : Z) (a : nat) : 0 <= JsDate.daysBefore y a.
Proof.
  induction a as [|a IH]; [simpl; lia |].
  destruct a as [|a]; [simpl; lia |].
  rewrite daysBefore_succ by lia.
  pose proof (DaysInMonth_bounds y (Z.of_nat (S a))). lia.
Qed.

Lemma daysBefore_year (y : Z) :
  JsDate.daysBefore y 13 = if JsDate.isLeapYear y then 366 else 365.
Proof.
  unfold JsDate.daysBefore, JsDate.DaysInMonth.
  destruct (JsDate.isLeapYear y); reflexivity.
Qed.

(** The day number of a calendar date lies within its year. *)
Lemma MakeDay_within_year (y m d : Z) :
  JsDate.validDate y m d ->
  JsDate.DayFromYear y <= JsDate.MakeDay y m d < JsDate.DayFromYear (y + 1).
Proof.
  intros (Hy & Hm & Hd). unfold JsDate.MakeDay.
  rewrite DayFromYear_succ, <- daysBefore_year.
  pose proof (daysBefore_nonneg y (Z.to_nat m)).
  assert (Hle : JsDate.daysBefore y (Z.to_nat m)
                + JsDate.DaysInMonth y (Z.of_nat (Z.to_nat m))
                <= JsDate.daysBefore y 13).
  { apply daysBefore_mono. lia. }
  rewrite Z2Nat.id in Hle by lia. lia.
Qed.

(** The day number is strictly monotone on calendar dates. *)
Lemma MakeDay_before (y1 m1 d1 y2 m2 d2 : Z) :
  JsDate.validDate y1 m1 d1 -> JsDate.validDate y2 m2 d2 ->
  JsDate.before (y1, m1, d1) (y2, m2, d2) ->
  JsDate.MakeDay y1 m1 d1 < JsDate.MakeDay y2 m2 d2.
Proof.
  intros V1 V2 [Hy | [-> [Hm | [-> Hd]]]].
  - pose proof (MakeDay_within_year _ _ _ V1).
    pose proof (MakeDay_within_year _ _ _ V2).
    pose proof (DayFromYear_mono (y1 + 1) y2). lia.
  - destruct V1 as (_ & Hm1 & Hd1). destruct V2 as (_ & Hm2 & Hd2).
    unfold JsDate.MakeDay.
    assert (Hle : JsDate.daysBefore y2 (Z.to_nat m1)
                  + JsDate.DaysInMonth y2 (Z.of_nat (Z.to_nat m1))
                  <= JsDate.daysBefore y2 (Z.to_nat m2)).
    { apply daysBefore_mono. lia. }
    rewrite Z2Nat.id in Hle by lia. lia.
  - unfold JsDate.MakeDay. lia.
Qed.

Lemma before_trichotomy (a b : Z * Z * Z) :
  JsDate.before a b \/ a = b \/ JsDate.before b a.
Proof.
  destruct a as [[y1 m1] d1], b as [[y2 m2] d2]. unfold JsDate.before.
  destruct (Z.lt_trichotomy y1 y2) as [H | [-> | H]]; [lia | | lia].
  destruct (Z.lt_trichotomy m1 m2) as [H | [-> | H]]; [lia | | lia].
  destruct (Z.lt_trichotomy d1 d2) as [H | [-> | H]]; [lia | | lia].
  right. left. reflexivity.
Qed.

(** ** Date guards of the historical and time-series tools *)

(** A calendar date is an ISO date for [new Date], in every time zone. *)
Lemma parse_valid (UTC : Z -> Z) (s : string) (y m d : Z) :
  JsDate.fields s = Some (y, m, d) -> JsDate.validDate y m d ->
  JsDate.parse UTC s = Some (JsDate.MakeDay y m d * JsDate.msPerDay).
Proof.
  intros Hf (Hy & Hm & Hd). unfold JsDate.parse, JsDate.IsMonth, JsDate.IsDay.
  rewrite Hf.
  pose proof (DaysInMonth_bounds y m).
  destruct (Z.leb_spec 1 m); [| lia].
  destruct (Z.leb_spec m 12); [| lia].
  destruct (Z.leb_spec 1 d); [| lia].
  destruct (Z.leb_spec d 31); [| lia].
  reflexivity.
Qed.

Section DateGuards.

Context {Num : JSNumber}.
Variable toUpperCase : string -> string.
Variable UTC : Z -> Z.

(** C6.  When the requested date is a calendar date later than the
    current (UTC) date, the historical-rates tool answers at once with
    the error-flagged guidance that points to the latest-rates tool, and
    sends no request upstream. *)
Theorem historical_future_date_rejected
  (now : Z) (validated : GetHistoricalRates.args)
  (y m d : Z) (today : Z * Z * Z) :
  JsDate.fields (GetHistoricalRates.date validated) = Some (y, m, d) ->
  JsDate.validDate y m d ->
  JsDate.utcDateOf now today ->
  JsDate.before today (y, m, d) ->
  let answer := frankfurter_get_historical_rates toUpperCase UTC now validated in
  requests answer = []
  /\ answer
     = Return
         (mkCallToolResult
            [mkTextContent "text"
               ("Error: Date '" ++ GetHistoricalRates.date validated
                ++ "' is in the future. For current rates, use frankfurter_get_latest_rates instead.")]
            true).
Proof.
  intros Hf Hv Ht Hb answer. subst answer.
  unfold frankfurter_get_historical_rates. cbv zeta.
  rewrite (parse_valid UTC _ _ _ _ Hf Hv).
  destruct today as [[y0 m0] d0]. destruct Ht as [Hv0 Hnow].
  pose proof (MakeDay_before _ _ _ _ _ _ Hv0 Hv Hb) as Hlt.
  unfold JsDate.gt.
  destruct (Z.ltb_spec now (JsDate.MakeDay y m d * JsDate.msPerDay)) as [_ | Hge].
  - split; reflexivity.
  - unfold JsDate.msPerDay in *. lia.
Qed.

(** C7, amended.  For a start and an end that are calendar dates:
    when they are equal or the start is later, the time-series tool
    answers at once with the error-flagged guidance and sends no request
    upstream; when the start is earlier, it sends the one request for
    that range. *)
Theorem time_series_range_guard
  (validated : GetTimeSeries.args) (y1 m1 d1 y2 m2 d2 : Z) :
  JsDate.fields (GetTimeSeries.start_date validated) = Some (y1, m1, d1) ->
  JsDate.fields (GetTimeSeries.end_date validated) = Some (y2, m2, d2) ->
  JsDate.validDate y1 m1 d1 ->
  JsDate.validDate y2 m2 d2 ->
  let answer := frankfurter_get_time_series toUpperCase UTC validated in
  ((y1, m1, d1) = (y2, m2, d2) \/ JsDate.before (y2, m2, d2) (y1, m1, d1) ->
   requests answer = []
   /\ answer
      = Return
          (mkCallToolResult
             [mkTextContent "text"
                ("Error: start_date '" ++ GetTimeSeries.start_date validated
                 ++ "' must be before end_date '"
                 ++ GetTimeSeries.end_date validated ++ "'.")]
             true))
  /\ (JsDate.before (y1, m1, d1) (y2, m2, d2) ->
      exists get,
        requests answer = [get]
        /\ url get
           = API_BASE_URL ++ "/" ++ GetTimeSeries.start_date validated ++ ".."
             ++ GetTimeSeries.end_date validated)
  /\ (requests answer <> [] -> JsDate.before (y1, m1, d1) (y2, m2, d2)).
Proof.
  intros Hs He V1 V2 answer. subst answer.
  unfold frankfurter_get_time_series. cbv zeta.
  rewrite (parse_valid UTC _ _ _ _ Hs V1), (parse_valid UTC _ _ _ _ He V2).
  unfold JsDate.ge.
  assert (Hrej : (y1, m1, d1) = (y2, m2, d2)
                 \/ JsDate.before (y2, m2, d2) (y1, m1, d1) ->
                 JsDate.MakeDay y2 m2 d2 * JsDate.msPerDay
                 <= JsDate.MakeDay y1 m1 d1 * JsDate.msPerDay).
  { intros [Heq | Hb].
    - injection Heq as -> -> ->. lia.
    - pose proof (MakeDay_before _ _ _ _ _ _ V2 V1 Hb).
      unfold JsDate.msPerDay. lia. }
  assert (Hacc : JsDate.before (y1, m1, d1) (y2, m2, d2) ->
                 JsDate.MakeDay y1 m1 d1 * JsDate.msPerDay
                 < JsDate.MakeDay y2 m2 d2 * JsDate.msPerDay).
  { intros Hb. pose proof (MakeDay_before _ _ _ _ _ _ V1 V2 Hb).
    unfold JsDate.msPerDay. lia. }
  destruct (Z.leb_spec (JsDate.MakeDay y2 m2 d2 * JsDate.msPerDay)
              (JsDate.MakeDay y1 m1 d1 * JsDate.msPerDay)) as [Hle | Hlt].
  - split; [| split].
    + intros _. split; reflexivity.
    + intros Hb. specialize (Hacc Hb). lia.
    + intros Hreq. now elim Hreq.
  - split; [| split].
    + intros Hc. specialize (Hrej Hc). lia.
    + intros _. eexists. split; reflexivity.
    + intros _.
      destruct (before_trichotomy (y1, m1, d1) (y2, m2, d2)) as [Hb | Hc];
        [exact Hb |].
      specialize (Hrej Hc). lia.
Qed.

End DateGuards.

Lemma historical_future_date_rejected_witness :
  let validated := GetHistoricalRates.mk "2024-06-16" None None MARKDOWN in
  let answer :=
    frankfurter_get_historical_rates (Num := Integers) asciiUpperCase utcHost
      noon_2024_06_15 validated in
  requests answer = []
  /\ answer
     = Return
         (mkCallToolResult
            [mkTextContent "text"
               ("Error: Date '" ++ GetHistoricalRates.date validated
                ++ "' is in the future. For current rates, use frankfurter_get_latest_rates instead.")]
            true).
Proof.
  apply (historical_future_date_rejected (Num := Integers) asciiUpperCase
           utcHost noon_2024_06_15
           (GetHistoricalRates.mk "2024-06-16" None None MARKDOWN)
           2024 6 16 (2024, 6, 15)).
  - reflexivity.
  - vm_compute. intuition discriminate.
  - vm_compute. intuition discriminate.
  - vm_compute. right. split; [reflexivity |]. right. split; reflexivity.
Defined.

(** The schema admits strings that are no calendar dates, and what the
    guard does with them depends on the string.  [2024-13-01] is an
    Invalid Date, every comparison with which is false: the request goes
    upstream.  [2099-02-30] is read as 2 March 2099 and [0001-01-32], by
    the legacy reader, as 1 January 2032: both are turned down as dates
    in the future. *)
Lemma historical_strings_that_are_no_dates :
  let tool date :=
    frankfurter_get_historical_rates (Num := Integers) asciiUpperCase utcHost
      noon_2024_06_15 (GetHistoricalRates.mk date None None MARKDOWN) in
  GetHistoricalRates.Schema
    (GetHistoricalRates.mk "2024-13-01" None None MARKDOWN) = true
  /\ JsDate.parse utcHost "2024-13-01" = None
  /\ map url (requests (tool "2024-13-01"))
     = ["https://api.frankfurter.dev/v1/2024-13-01"]
  /\ JsDate.parse utcHost "2099-02-30"
     = Some (JsDate.MakeDay 2099 3 2 * JsDate.msPerDay)
  /\ requests (tool "2099-02-30") = []
  /\ JsDate.parse utcHost "0001-01-32"
     = Some (JsDate.MakeDay 2032 1 1 * JsDate.msPerDay)
  /\ requests (tool "0001-01-32") = [].
Proof.
  cbv zeta. repeat split; vm_compute; reflexivity.
Qed.

(** C7, as stated, fails at a start and an end that are both
    [2024-13-01]: the string matches the date pattern and is an Invalid
    Date, every comparison with which is false, so the guard lets the
    request go upstream although the two are equal. *)
Lemma time_series_equal_dates_pass :
  let validated := GetTimeSeries.mk "2024-13-01" "2024-13-01" None None MARKDOWN in
  GetTimeSeries.Schema validated = true
  /\ GetTimeSeries.start_date validated = GetTimeSeries.end_date validated
  /\ exists get,
       requests (frankfurter_get_time_series (Num := Integers) asciiUpperCase utcHost
                   validated) = [get]
       /\ url get = "https://api.frankfurter.dev/v1/2024-13-01..2024-13-01".
Proof.
  cbv zeta. split; [reflexivity |]. split; [reflexivity |].
  eexists. split; vm_compute; reflexivity.
Qed.

Lemma time_series_range_guard_witness :
  let validated := GetTimeSeries.mk "2024-01-31" "2024-01-01" None None JSON in
  let answer :=
    frankfurter_get_time_series (Num := Integers) asciiUpperCase utcHost validated in
  requests answer = []
  /\ answer
     = Return
         (mkCallToolResult
            [mkTextContent "text"
               ("Error: start_date '" ++ GetTimeSeries.start_date validated
                ++ "' must be before end_date '"
                ++ GetTimeSeries.end_date validated ++ "'.")]
            true).
Proof.
  refine (proj1 (time_series_range_guard (Num := Integers) asciiUpperCase
           utcHost (GetTimeSeries.mk "2024-01-31" "2024-01-01" None None JSON)
           2024 1 31 2024 1 1 _ _ _ _) _).
  - reflexivity.
  - reflexivity.
  - vm_compute. intuition discriminate.
  - vm_compute. intuition discriminate.
  - right. vm_compute. right. split; [reflexivity |]. right. split; reflexivity.
Defined.

(** ** The conversion tool *)

Section Conversion.

Context {Num : JSNumber}.
Variable toUpperCase : string -> string.

(** C10.  The rate is read from the upstream answer without a check.
    When the answer has the uppercased target code, the tool reports
    [amount * rate].  When it has not, the Markdown rendering throws on
    the undefined rate and the tool answers with an error-flagged
    response, while the JSON rendering succeeds: the [rate] member is
    left out and the result is written as [null]. *)
Theorem convert_currency_rate_lookup
  (validated : ConvertCurrency.args) (data : FrankfurterBaseResponse.t) :
  let from := toUpperCase (ConvertCurrency.from validated) in
  let to := toUpperCase (ConvertCurrency.to validated) in
  let amount := ConvertCurrency.amount validated in
  let date := FrankfurterBaseResponse.date data in
  let format := ConvertCurrency.response_format validated in
  let answer :=
    run (frankfurter_convert_currency toUpperCase validated) (Resolved data) in
  (forall rate,
     getProperty (FrankfurterBaseResponse.rates data) to = Some rate ->
     (format = JSON ->
      answer
      = success
          (formatAsJSON
             (VObject
                [("from", Some (VString from)); ("to", Some (VString to));
                 ("amount", Some (VNumber amount));
                 ("rate", Some (VNumber rate));
                 ("result", Some (VNumber (multiply amount rate)));
                 ("date", Some (VString date))])))
     /\ (format = MARKDOWN ->
         answer
         = success
             (((("## Currency Conversion" ++ Str.nl ++ Str.nl)
                ++ "**" ++ toFixed amount 2 ++ " " ++ from ++ " = "
                ++ toFixed (multiply amount rate) 2 ++ " " ++ to ++ "**"
                ++ Str.nl ++ Str.nl)
               ++ "- Exchange Rate: " ++ toFixed rate 4 ++ Str.nl)
              ++ "- Date: " ++ date ++ Str.nl)))
  /\
  (getProperty (FrankfurterBaseResponse.rates data) to = None ->
   (format = MARKDOWN ->
    isError answer = true
    /\ answer
       = failure "Error: Cannot read properties of undefined (reading 'toFixed')")
   /\ (format = JSON ->
       isError answer = false
       /\ answer
          = success
              (formatAsJSON
                 (VObject
                    [("from", Some (VString from)); ("to", Some (VString to));
                     ("amount", Some (VNumber amount));
                     ("result", Some VNull);
                     ("date", Some (VString date))])))).
Proof.
  cbv zeta. unfold frankfurter_convert_currency, makeApiRequest, andThen, run.
  cbv zeta. cbn [bind].
  split.
  - intros rate Hrate. rewrite Hrate. split; intros ->; reflexivity.
  - intros Hnone. rewrite Hnone. split; intros ->.
    + split; reflexivity.
    + split; [reflexivity |].
      cbn [ResponseFormat_eqb bind catchBlock option_map times].
      f_equal. unfold formatAsJSON, JSON_stringify.
      cbn [SerializeJSONProperty flat_map snd fst app].
      unfold times. rewrite multiply_NaN_r, isFinite_NaN. reflexivity.
Qed.

End Conversion.

Lemma convert_currency_rate_lookup_witness :
  let validated :=
    ConvertCurrency.mk (Num := Integers) "eur" "usd" (IntOf 100) None JSON in
  let data :=
    FrankfurterBaseResponse.mk (Num := Integers) "EUR" "2024-06-14"
      [("GBP", IntOf 1)] in
  let answer :=
    run (frankfurter_convert_currency asciiUpperCase validated) (Resolved data) in
  isError answer = false
  /\ answer
     = success
         (formatAsJSON
            (VObject
               [("from", Some (VString "EUR")); ("to", Some (VString "USD"));
                ("amount", Some (VNumber (IntOf 100)));
                ("result", Some VNull);
                ("date", Some (VString "2024-06-14"))])).
Proof.
  refine (proj2 (proj2 (convert_currency_rate_lookup (Num := Integers)
    asciiUpperCase
    (ConvertCurrency.mk (Num := Integers) "eur" "usd" (IntOf 100) None JSON)
    (FrankfurterBaseResponse.mk (Num := Integers) "EUR" "2024-06-14"
       [("GBP", IntOf 1)])) _) _); reflexivity.
Defined.

(** ** Truncation in the tool handlers *)

(** C1 at a failing input: the latest-rates tool returns the JSON
    rendering of an oversized upstream answer as it is, longer than the
    limit plus the notice, although the truncation step would cut it. *)
Theorem latest_rates_not_truncated :
  let validated := GetLatestRates.mk None None JSON in
  let data :=
    FrankfurterBaseResponse.mk (Num := Integers) overLimit "2024-06-14"
      [("USD", IntOf 1)] in
  let rendered := formatAsJSON (baseResponseValue data) in
  run (frankfurter_get_latest_rates asciiUpperCase validated) (Resolved data)
  = success rendered
  /\ CHARACTER_LIMIT + Str.length (truncationMessage JSON) < Str.length rendered
  /\ rendered <> fst (truncateIfNeeded rendered JSON).
Proof.
  cbv zeta. split; [reflexivity |].
  assert (Hlen : CHARACTER_LIMIT + Str.length (truncationMessage JSON)
                 < Str.length
                     (formatAsJSON
                        (baseResponseValue
                           (FrankfurterBaseResponse.mk (Num := Integers)
                              overLimit "2024-06-14" [("USD", IntOf 1)])))).
  { vm_compute. reflexivity. }
  split; [exact Hlen |].
  intros Heq.
  pose proof (truncateIfNeeded_length
                (formatAsJSON
                   (baseResponseValue
                      (FrankfurterBaseResponse.mk (Num := Integers)
                         overLimit "2024-06-14" [("USD", IntOf 1)]))) JSON)
    as Hb.
  rewrite <- Heq in Hb. lia.
Qed.

(** The Markdown table of the time-series tool does not reach the
    truncation step as rendered either: what is returned is the table
    written as a JSON string, quotes and escapes included. *)
Lemma time_series_markdown_quoted :
  exists table,
    formatTimeSeriesAsMarkdown (Num := Integers)
      [("2024-01-02", [("USD", IntOf 2)])] "EUR" ["USD"] = Normal table
    /\ run (frankfurter_get_time_series asciiUpperCase utcHost
              (GetTimeSeries.mk "2024-01-01" "2024-01-31" None None MARKDOWN))
         (Resolved smallSeries)
       = success (formatAsJSON (VString table))
    /\ formatAsJSON (VString table) <> fst (truncateIfNeeded table MARKDOWN).
Proof.
  eexists. split; [reflexivity |]. split; [reflexivity |].
  vm_compute. discriminate.
Qed.

(** ** Sorting by code units *)

Lemma codeUnitLt_trans (a b c : string) :
  codeUnitLt a b -> codeUnitLt b c -> codeUnitLt a c.
Proof.
  unfold codeUnitLt. intros H1 H2.
  apply String_as_OT.cmp_lt in H1. apply String_as_OT.cmp_lt in H2.
  apply String_as_OT.cmp_lt. exact (String_as_OT.lt_trans _ _ _ H1 H2).
Qed.


Lemma defaultCompare_le (a b : string) :
  defaultCompare a b <= 0 <-> codeUnitLt a b \/ a = b.
Proof.
  unfold defaultCompare, codeUnitLt.
  destruct (String.compare a b) eqn:E; split; intros H; try lia.
  - right. apply String_as_OT.cmp_eq. exact E.
  - left. reflexivity.
  - destruct H as [H | ->]; [discriminate |].
    assert (E' : String.compare b b = Eq) by (apply String_as_OT.cmp_eq; reflexivity).
    congruence.
Qed.

Lemma defaultCompare_gt (a b : string) :
  ~ defaultCompare a b <= 0 -> codeUnitLt b a.
Proof.
  unfold defaultCompare, codeUnitLt. intros H.
  pose proof (String_as_OT.cmp_antisym b a) as Ha. unfold String_as_OT.cmp in Ha.
  destruct (String.compare a b); try lia. exact Ha.
Qed.

Section InsertionSort.

Context {A : Type}.
Variable compareFn : A -> A -> Z.

Lemma sortInsert_perm (x : A) (l : list A) :
  Permutation (sortInsert compareFn x l) (x :: l).
Proof.
  induction l as [|y l IH]; simpl; [reflexivity |].
  destruct (compareFn x y <=? 0); [reflexivity |].
  rewrite IH. apply perm_swap.
Qed.

Lemma Array_sort_perm (l : list A) : Permutation (Array_sort compareFn l) l.
Proof.
  induction l as [|x l IH]; simpl; [reflexivity |].
  rewrite sortInsert_perm. now constructor.
Qed.

End InsertionSort.




(** ** Objects as lists of members with distinct keys *)

Section Objects.

Context {A : Type}.



Lemma getProperty_Some_key (obj : list (string * A)) (k : string) :
  In k (Object_keys obj) -> exists v, getProperty obj k = Some v /\ In (k, v) obj.
Proof.
  induction obj as [|[k' v'] obj IH]; simpl; intros Hk; [contradiction |].
  destruct (String.eqb_spec k k') as [-> | Hne].
  - exists v'. split; [reflexivity | now left].
  - destruct Hk as [-> | Hk]; [now elim Hne |].
    destruct (IH Hk) as (v & Hv & Hin). exists v. split; [exact Hv | now right].
Qed.

Lemma getProperty_Some_In (obj : list (string * A)) (k : string) (v : A) :
  getProperty obj k = Some v -> In k (Object_keys obj).
Proof.
  induction obj as [|[k' v'] obj IH]; simpl; [discriminate |].
  destruct (String.eqb_spec k k') as [-> | Hne]; [now left |].
  intros H. right. now apply IH.
Qed.


End Objects.

(** ** The time-series table *)

Section TimeSeriesTable.

Context {Num : JSNumber}.



(** Under a name that [Object.prototype] has, [obj[key]] is never
    [undefined]. *)
Lemma Get_inherited {A : Type} (obj : list (string * A)) (key : string) :
  In key Object_prototype_keys -> getProperty obj key = None ->
  Get obj key = Inherited.
Proof.
  intros Hkey Hnone. unfold Get. rewrite Hnone.
  destruct (existsb (String.eqb key) Object_prototype_keys) eqn:E;
    [reflexivity |].
  assert (H : existsb (String.eqb key) Object_prototype_keys = true).
  { apply existsb_exists. exists key. split; [exact Hkey |].
    apply String.eqb_refl. }
  congruence.
Qed.

(** A string of three characters, as every currency code that the
    schemas accept, is no name of [Object.prototype]. *)
Lemma code_not_inherited (code : string) :
  String.length code = 3%nat -> ~ In code Object_prototype_keys.
Proof.
  intros Hlen Hin. unfold Object_prototype_keys in Hin. cbn [In] in Hin.
  repeat (destruct Hin as [<- | Hin]; [discriminate Hlen |]).
  exact Hin.
Qed.

Lemma Get_Inherited_inv {A : Type} (obj : list (string * A)) (key : string) :
  Get obj key = Inherited ->
  getProperty obj key = None /\ In key Object_prototype_keys.
Proof.
  unfold Get. destruct (getProperty obj key); [discriminate |].
  destruct (existsb (String.eqb key) Object_prototype_keys) eqn:E;
    [| discriminate].
  intros _. split; [reflexivity |].
  apply existsb_exists in E. destruct E as (k & Hin & Heq).
  apply String.eqb_eq in Heq. now subst k.
Qed.


Lemma Array_map_Normal {A B : Type} (f : A -> completion B) (g : A -> B)
  (arr : list A) :
  (forall x, In x arr -> f x = Normal (g x)) ->
  Array_map f arr = Normal (map g arr).
Proof.
  induction arr as [|x arr IH]; intros H; [reflexivity |].
  cbn [Array_map map]. rewrite (H x) by now left.
  cbn [bind]. rewrite IH by (intros y Hy; apply H; now right).
  reflexivity.
Qed.

(** When the callback throws nothing but [e], and throws it for some
    element, [arr.map] throws [e]. *)
Lemma Array_map_Throw {A B : Type} (f : A -> completion B) (e : JsError)
  (arr : list A) :
  (forall x, In x arr -> f x = Throw e \/ exists y, f x = Normal y) ->
  (exists x, In x arr /\ f x = Throw e) ->
  Array_map f arr = Throw e.
Proof.
  induction arr as [|x arr IH]; intros Hall (x0 & Hin & Hx0); [contradiction |].
  cbn [Array_map].
  destruct (Hall x (or_introl eq_refl)) as [Hx | (y & Hx)]; rewrite Hx;
    [reflexivity |].
  cbn [bind]. rewrite IH; [reflexivity | |].
  - intros z Hz. apply Hall. now right.
  - destruct Hin as [<- | Hin]; [congruence |]. now exists x0.
Qed.

Lemma rateCell_tableCell (dateRates : list (string * number))
  (symbol : string) :
  Get dateRates symbol <> Inherited ->
  rateCell dateRates symbol = Normal (tableCell dateRates symbol).
Proof.
  unfold rateCell, tableCell, Get.
  destruct (getProperty dateRates symbol); [reflexivity |].
  destruct (existsb (String.eqb symbol) Object_prototype_keys);
    [intros H; now elim H | reflexivity].
Qed.

(** The only exception of a cell. *)
Lemma rateCell_outcome (dateRates : list (string * number)) (symbol : string) :
  (Get dateRates symbol = Inherited
   /\ rateCell dateRates symbol
      = Throw (TypeError "rate.toFixed is not a function"))
  \/ (Get dateRates symbol <> Inherited
      /\ rateCell dateRates symbol = Normal (tableCell dateRates symbol)).
Proof.
  destruct (Get dateRates symbol) eqn:E.
  - right. split; [discriminate |]. apply rateCell_tableCell. congruence.
  - left. split; [reflexivity |]. unfold rateCell. now rewrite E.
  - right. split; [discriminate |]. apply rateCell_tableCell. congruence.
Qed.

Lemma timeSeriesRow_entry
  (rates : list (string * list (string * number))) (symbols : list string)
  (date : string) (dateRates : list (string * number)) :
  getProperty rates date = Some dateRates ->
  (forall s, In s symbols -> Get dateRates s <> Inherited) ->
  timeSeriesRow rates symbols date
  = Normal (tableRow symbols (entryOf rates date)).
Proof.
  intros Hdate Hsym. unfold timeSeriesRow, entryOf, tableRow. rewrite Hdate.
  rewrite (Array_map_Normal _ (tableCell dateRates))
    by (intros s Hs; apply rateCell_tableCell, Hsym, Hs).
  reflexivity.
Qed.

(** The row of a date of the series is written, unless one of its cells
    is found on [Object.prototype]. *)
Lemma timeSeriesRow_outcome
  (rates : list (string * list (string * number))) (symbols : list string)
  (date : string) (dateRates : list (string * number)) :
  getProperty rates date = Some dateRates ->
  ((exists s, In s symbols /\ Get dateRates s = Inherited)
   /\ timeSeriesRow rates symbols date
      = Throw (TypeError "rate.toFixed is not a function"))
  \/ ((forall s, In s symbols -> Get dateRates s <> Inherited)
      /\ timeSeriesRow rates symbols date
         = Normal (tableRow symbols (entryOf rates date))).
Proof.
  intros Hdate.
  assert (Hdec : (exists s, In s symbols /\ Get dateRates s = Inherited)
                 \/ (forall s, In s symbols -> Get dateRates s <> Inherited)).
  { clear. induction symbols as [|s symbols IH].
    - right. intros s [].
    - destruct (Get dateRates s) eqn:E.
      + destruct IH as [(s' & Hin & Hs') | IH].
        * left. exists s'. split; [now right | exact Hs'].
        * right. intros s' [<- | Hin]; [congruence | now apply IH].
      + left. exists s. split; [now left | exact E].
      + destruct IH as [(s' & Hin & Hs') | IH].
        * left. exists s'. split; [now right | exact Hs'].
        * right. intros s' [<- | Hin]; [congruence | now apply IH]. }
  destruct Hdec as [Hbad | Hgood].
  - left. split; [exact Hbad |].
    unfold timeSeriesRow. rewrite Hdate.
    rewrite (Array_map_Throw _ (TypeError "rate.toFixed is not a function"));
      [reflexivity | |].
    + intros s _. destruct (rateCell_outcome dateRates s) as [[_ H] | [_ H]];
        [now left | right; eexists; exact H].
    + destruct Hbad as (s & Hin & Hs). exists s. split; [exact Hin |].
      destruct (rateCell_outcome dateRates s) as [[_ H] | [H _]];
        [exact H | contradiction].
  - right. split; [exact Hgood |].
    exact (timeSeriesRow_entry _ _ _ _ Hdate Hgood).
Qed.

Lemma timeSeries_loop
  (rates : list (string * list (string * number))) (symbols : list string)
  (dates : list string) (markdown : string) :
  ownCells rates symbols ->
  (forall d, In d dates -> In d (Object_keys rates)) ->
  fold_left
    (fun markdown date =>
       md <- markdown ;;
       row <- timeSeriesRow rates symbols date ;;
       Normal (md ++ row))
    dates (Normal markdown)
  = Normal (markdown ++ tableRows symbols (map (entryOf rates) dates)).
Proof.
  intros Hown. revert markdown.
  induction dates as [|d dates IH]; intros markdown Hin.
  - simpl. unfold tableRows. simpl. now rewrite append_nil_r.
  - simpl.
    destruct (getProperty_Some_key rates d (Hin d (or_introl eq_refl)))
      as (v & Hv & _).
    rewrite (timeSeriesRow_entry _ _ _ _ Hv)
      by (intros s Hs; exact (Hown d v s Hv Hs)).
    cbn [bind]. rewrite IH by (intros d' Hd'; apply Hin; now right).
    unfold tableRows. simpl. now rewrite append_assoc.
Qed.

(** Once a row has thrown, the loop is over; and the loop throws when
    the row of one of its dates does. *)
Lemma timeSeries_loop_Throw
  (rates : list (string * list (string * number))) (symbols : list string)
  (dates : list string) (date : string) (dateRates : list (string * number))
  (symbol : string) (markdown : completion string) :
  (forall d, In d dates -> In d (Object_keys rates)) ->
  In date dates ->
  getProperty rates date = Some dateRates ->
  In symbol symbols -> Get dateRates symbol = Inherited ->
  markdown = Throw (TypeError "rate.toFixed is not a function")
  \/ (exists md, markdown = Normal md) ->
  fold_left
    (fun markdown date =>
       md <- markdown ;;
       row <- timeSeriesRow rates symbols date ;;
       Normal (md ++ row))
    dates markdown
  = Throw (TypeError "rate.toFixed is not a function").
Proof.
  intros Hkeys Hin Hdate Hsym Hget.
  assert (Hstay : forall l,
            fold_left
              (fun markdown date =>
                 md <- markdown ;;
                 row <- timeSeriesRow rates symbols date ;;
                 Normal (md ++ row))
              l (Throw (TypeError "rate.toFixed is not a function"))
            = Throw (TypeError "rate.toFixed is not a function")).
  { induction l as [|x l IHl]; [reflexivity | exact IHl]. }
  revert markdown.
  induction dates as [|d dates IH]; intros markdown Hmd; [contradiction |].
  cbn [fold_left].
  destruct Hmd as [-> | (md & ->)]; [apply Hstay |].
  cbn [bind].
  destruct (getProperty_Some_key rates d (Hkeys d (or_introl eq_refl)))
    as (v & Hv & _).
  destruct (timeSeriesRow_outcome rates symbols d v Hv)
    as [[_ Hrow] | [Hgood Hrow]]; rewrite Hrow; cbn [bind].
  - apply Hstay.
  - destruct Hin as [-> | Hin].
    + rewrite Hdate in Hv. injection Hv as <-.
      elim (Hgood symbol Hsym). exact Hget.
    + apply IH; [intros d' Hd'; apply Hkeys; now right | exact Hin |].
      right. eexists. reflexivity.
Qed.

(** The lines that the renderer writes before its loop. *)
Lemma timeSeriesHeader_written (base : string) (symbols : list string) :
  ((("## Time Series Exchange Rates for " ++ base ++ Str.nl ++ Str.nl)
    ++ "**Symbols:** " ++ Str.join ", " symbols ++ Str.nl ++ Str.nl)
   ++ "| Date | " ++ Str.join " | " symbols ++ " |" ++ Str.nl)
  ++ "|------|" ++ Str.join "|" (map (fun _ => "------") symbols)
  ++ "|" ++ Str.nl
  = timeSeriesHeader base symbols.
Proof.
  unfold timeSeriesHeader. now rewrite !append_assoc.
Qed.


(** Whether a cell is found on [Object.prototype] can be told from the
    entries and the symbols. *)
Lemma ownCells_dec
  (rates : list (string * list (string * number))) (symbols : list string) :
  ownCells rates symbols
  \/ exists date dateRates symbol,
       getProperty rates date = Some dateRates /\ In symbol symbols
       /\ Get dateRates symbol = Inherited.
Proof.
  assert (H : forall dates,
            (forall date dateRates symbol,
               In date dates -> getProperty rates date = Some dateRates ->
               In symbol symbols -> Get dateRates symbol <> Inherited)
            \/ exists date dateRates symbol,
                 getProperty rates date = Some dateRates /\ In symbol symbols
                 /\ Get dateRates symbol = Inherited).
  { induction dates as [|d dates IH].
    - left. intros date dateRates symbol [].
    - destruct IH as [IH | IH]; [| now right].
      destruct (getProperty rates d) as [v|] eqn:Hd.
      + destruct (timeSeriesRow_outcome rates symbols d v Hd)
          as [[(s & Hs & Hget) _] | [Hgood _]].
        * right. now exists d, v, s.
        * left. intros date dateRates symbol [<- | Hin] Hdate Hsym.
          -- rewrite Hd in Hdate. injection Hdate as <-. now apply Hgood.
          -- exact (IH date dateRates symbol Hin Hdate Hsym).
      + left. intros date dateRates symbol [<- | Hin] Hdate Hsym.
        * congruence.
        * exact (IH date dateRates symbol Hin Hdate Hsym). }
  destruct (H (Object_keys rates)) as [Hown | Hbad]; [left | now right].
  intros date dateRates symbol Hdate Hsym.
  apply (Hown date dateRates symbol); [| exact Hdate | exact Hsym].
  exact (getProperty_Some_In rates date dateRates Hdate).
Qed.

(** The table of a series none of whose cells is found on
    [Object.prototype]. *)
Lemma formatTimeSeriesAsMarkdown_normal
  (rates : list (string * list (string * number)))
  (base : string) (symbols : list string) :
  ownCells rates symbols ->
  formatTimeSeriesAsMarkdown rates base symbols
  = Normal
      (timeSeriesHeader base symbols
       ++ tableRows symbols
            (map (entryOf rates)
               (Array_sort defaultCompare (Object_keys rates)))).
Proof.
  intros Hown. unfold formatTimeSeriesAsMarkdown. cbv zeta.
  rewrite timeSeriesHeader_written.
  apply (timeSeries_loop _ _ _ _ Hown). intros d Hd.
  exact (Permutation_in _ (Array_sort_perm defaultCompare _) Hd).
Qed.

(** The renderer throws when a cell is found on [Object.prototype]. *)
Lemma formatTimeSeriesAsMarkdown_Throw
  (rates : list (string * list (string * number)))
  (base : string) (symbols : list string)
  (date : string) (dateRates : list (string * number)) (symbol : string) :
  getProperty rates date = Some dateRates ->
  In symbol symbols -> Get dateRates symbol = Inherited ->
  formatTimeSeriesAsMarkdown rates base symbols
  = Throw (TypeError "rate.toFixed is not a function").
Proof.
  intros Hdate Hsym Hget. unfold formatTimeSeriesAsMarkdown. cbv zeta.
  apply (timeSeries_loop_Throw rates symbols _ date dateRates symbol);
    try assumption.
  - intros d Hd.
    exact (Permutation_in _ (Array_sort_perm defaultCompare _) Hd).
  - apply (Permutation_in _ (Permutation_sym (Array_sort_perm defaultCompare _))).
    apply (getProperty_Some_In rates date dateRates Hdate).
  - right. eexists. reflexivity.
Qed.


End TimeSeriesTable.


(** ** Reading back what [JSON.stringify] wrote *)

(** *** Characters *)

Ltac each_char c := destruct c as [[] [] [] [] [] [] [] []].

Lemma num_start_class (c : ascii) :
  Lex.is_num_start c = true ->
  Lex.is_ws c = false /\ Lex.is_num_char c = true
  /\ Ascii.eqb c "{" = false /\ Ascii.eqb c "[" = false
  /\ Ascii.eqb c Str.DQUOTE = false /\ Ascii.eqb c "]" = false.
Proof. each_char c; vm_compute; intuition congruence. Qed.

Lemma hexValue_hexDigit (k : N) :
  (k < 16)%N -> hexValue (hexDigit k) = Some k.
Proof.
  intros H.
  assert (Hk : In k [0; 1; 2; 3; 4; 5; 6; 7; 8; 9; 10; 11; 12; 13; 14; 15]%N).
  { simpl. lia. }
  simpl in Hk.
  repeat (destruct Hk as [<- | Hk]; [reflexivity |]). contradiction.
Qed.

Lemma hex4_UnicodeEscape (c : ascii) :
  (N_of_ascii c < 32)%N ->
  hex4 "0" "0" (hexDigit (N_of_ascii c / 16)) (hexDigit (N_of_ascii c mod 16))
  = Some c.
Proof.
  intros H. unfold hex4.
  change (hexValue "0") with (Some 0%N).
  rewrite !hexValue_hexDigit.
  - cbn [N.eqb andb]. rewrite <- N.div_mod'. now rewrite ascii_N_embedding.
  - apply N.mod_lt. discriminate.
  - apply N.Div0.div_lt_upper_bound. lia.
Qed.

(** Reading one quoted character. *)
Lemma parse_chars_quoteChar (c : ascii) (tail : string) :
  parse_chars (quoteChar c ++ tail) = consChar c (parse_chars tail).
Proof.
  unfold quoteChar.
  destruct (Ascii.eqb_spec c Str.BS) as [-> | H1]; [reflexivity |].
  destruct (Ascii.eqb_spec c Str.TAB) as [-> | H2]; [reflexivity |].
  destruct (Ascii.eqb_spec c Str.LF) as [-> | H3]; [reflexivity |].
  destruct (Ascii.eqb_spec c Str.FF) as [-> | H4]; [reflexivity |].
  destruct (Ascii.eqb_spec c Str.CR) as [-> | H5]; [reflexivity |].
  destruct (Ascii.eqb_spec c Str.DQUOTE) as [-> | H6]; [reflexivity |].
  destruct (Ascii.eqb_spec c Str.BACKSLASH) as [-> | H7]; [reflexivity |].
  destruct (N.ltb_spec (N_of_ascii c) 32) as [Hlt | Hge].
  - unfold UnicodeEscape.
    cbn [append parse_chars].
    change (Ascii.eqb Str.BACKSLASH Str.DQUOTE) with false.
    change (Ascii.eqb Str.BACKSLASH Str.BACKSLASH) with true.
    change (unescape "u") with (@None ascii).
    change (Ascii.eqb "u" "u") with true.
    cbv iota. rewrite (hex4_UnicodeEscape c Hlt). reflexivity.
  - cbn [append parse_chars].
    apply Ascii.eqb_neq in H6, H7. rewrite H6, H7.
    destruct (N.ltb_spec (N_of_ascii c) 32) as [Hlt | _]; [lia |].
    reflexivity.
Qed.

Lemma parse_chars_quoteChars (s rest : string) :
  parse_chars (quoteChars s ++ String Str.DQUOTE rest) = Some (s, rest).
Proof.
  induction s as [|c s IH].
  - reflexivity.
  - cbn [quoteChars]. rewrite append_assoc, parse_chars_quoteChar, IH.
    reflexivity.
Qed.

(** Reading a quoted string after its opening quote. *)
Lemma parse_chars_QuoteJSONString (s rest : string) :
  exists body,
    QuoteJSONString s ++ rest = String Str.DQUOTE body
    /\ parse_chars body = Some (s, rest).
Proof.
  exists (quoteChars s ++ String Str.DQUOTE rest). split.
  - unfold QuoteJSONString, Str.dq. cbn [append].
    now rewrite append_assoc.
  - apply parse_chars_quoteChars.
Qed.

(** *** White space and delimiters *)

Lemma blank_empty : blank EmptyString.
Proof. intros t. reflexivity. Qed.

Lemma blank_app (a b : string) : blank a -> blank b -> blank (a ++ b).
Proof. intros Ha Hb t. now rewrite append_assoc, Ha, Hb. Qed.

Lemma blank_nl : blank Str.nl.
Proof. intros t. reflexivity. Qed.

Lemma blank_space : blank " ".
Proof. intros t. reflexivity. Qed.

Lemma blank_gap : blank gap.
Proof. intros t. reflexivity. Qed.

Lemma take_number_token (tok rest : string) :
  Lex.all_num_chars tok = true -> delimited rest ->
  Lex.take_number (tok ++ rest) = (tok, rest).
Proof.
  intros Ht Hr. induction tok as [|c tok IH].
  - destruct rest as [|d rest]; [reflexivity |].
    cbn [append Lex.take_number]. unfold delimited in Hr. now rewrite Hr.
  - cbn [Lex.all_num_chars] in Ht.
    apply andb_true_iff in Ht. destruct Ht as [Hc Ht].
    cbn [append Lex.take_number]. rewrite Hc, (IH Ht). reflexivity.
Qed.

Lemma opens_app (s t : string) : opens s -> opens (s ++ t).
Proof.
  intros (c & r & -> & H). exists c, (r ++ t). split; [reflexivity | exact H].
Qed.

Lemma opens_skip (s : string) : opens s -> Lex.skip_ws s = s.
Proof. intros (c & r & -> & Hws & _). cbn [Lex.skip_ws]. now rewrite Hws. Qed.

Lemma opens_not_close (s : string) : opens s -> startsWith "]" s = None.
Proof. intros (c & r & -> & _ & Hc). cbn [startsWith]. now rewrite Hc. Qed.

Section ReaderSteps.

Context {Num : JSNumber}.

(** *** One step of the reader *)

Lemma parse_value_blank (fuel : nat) (ws s : string) :
  blank ws -> parse_value fuel (ws ++ s) = parse_value fuel s.
Proof. intros H. destruct fuel; [reflexivity |]. simpl. now rewrite H. Qed.

Lemma parse_elements_blank (fuel : nat) (ws s : string) :
  blank ws -> parse_elements fuel (ws ++ s) = parse_elements fuel s.
Proof.
  intros H. destruct fuel; [reflexivity |].
  simpl. now rewrite (parse_value_blank fuel ws s H).
Qed.

Lemma parse_members_blank (fuel : nat) (acc : members) (ws s : string) :
  blank ws -> parse_members fuel acc (ws ++ s) = parse_members fuel acc s.
Proof. intros H. destruct fuel; [reflexivity |]. simpl. now rewrite H. Qed.

Lemma parse_value_string (fuel : nat) (body : string) :
  parse_value (S fuel) (String Str.DQUOTE body)
  = match parse_chars body with
    | Some (x, r') => Some (VString x, r')
    | None => None
    end.
Proof. reflexivity. Qed.

Lemma parse_value_number (fuel : nat) (c : ascii) (r : string) :
  Lex.is_num_start c = true ->
  parse_value (S fuel) (String c r)
  = let '(tok, rest) := Lex.take_number (String c r) in
    match parseJSONNumber tok with
    | Some n => Some (VNumber n, rest)
    | None => None
    end.
Proof.
  intros H. destruct (num_start_class c H) as (Hws & _ & H1 & H2 & H3 & _).
  cbn [parse_value Lex.skip_ws]. rewrite Hws, H1, H2, H3, H. reflexivity.
Qed.

Lemma parse_value_array (fuel : nat) (r : string) :
  parse_value (S fuel) (String "[" r)
  = match startsWith "]" (Lex.skip_ws r) with
    | Some r' => Some (VArray [], r')
    | None =>
        match parse_elements fuel r with
        | Some (xs, r') => Some (VArray xs, r')
        | None => None
        end
    end.
Proof. reflexivity. Qed.

Lemma parse_value_object (fuel : nat) (r : string) :
  parse_value (S fuel) (String "{" r)
  = match startsWith "}" (Lex.skip_ws r) with
    | Some r' => Some (VObject [], r')
    | None => parse_members fuel [] r
    end.
Proof. reflexivity. Qed.

Lemma parse_elements_step (fuel : nat) (s : string) :
  parse_elements (S fuel) s
  = match parse_value fuel s with
    | None => None
    | Some (v, r) =>
        match Lex.skip_ws r with
        | EmptyString => None
        | String c r' =>
            if Ascii.eqb c "," then
              match parse_elements fuel r' with
              | Some (xs, r'') => Some (v :: xs, r'')
              | None => None
              end
            else if Ascii.eqb c "]" then Some ([v], r')
            else None
        end
    end.
Proof. reflexivity. Qed.

Lemma parse_members_step (fuel : nat) (acc : members) (body : string) :
  parse_members (S fuel) acc (String Str.DQUOTE body)
  = match parse_chars body with
    | None => None
    | Some (k, r1) =>
        match startsWith ":" (Lex.skip_ws r1) with
        | None => None
        | Some r2 =>
            match parse_value fuel r2 with
            | None => None
            | Some (v, r3) =>
                let acc' := defineProperty k (Some v) acc in
                match Lex.skip_ws r3 with
                | EmptyString => None
                | String c r4 =>
                    if Ascii.eqb c "," then parse_members fuel acc' r4
                    else if Ascii.eqb c "}" then Some (VObject acc', r4)
                    else None
                end
            end
        end
    end.
Proof. reflexivity. Qed.

End ReaderSteps.

Section ObjectsAndText.

Context {Num : JSNumber}.

(** *** Objects in enumeration order *)

Lemma hasKey_existsb (k : string) (o : members) :
  hasKey k o = existsb (String.eqb k) (map fst o).
Proof.
  induction o as [|[k' v'] o IH]; simpl; [reflexivity | now rewrite IH].
Qed.

Lemma insertIndex_last (i : Z) (k : string) (v : option value) (o : members) :
  forallb
    (fun k' => match arrayIndex k' with Some j => j <? i | None => false end)
    (map fst o) = true ->
  insertIndex i k v o = (o ++ [(k, v)])%list.
Proof.
  induction o as [|[k' v'] o IH]; intros H; [reflexivity |].
  cbn [map fst forallb] in H. apply andb_true_iff in H. destruct H as [Hk Ho].
  cbn [insertIndex]. destruct (arrayIndex k') as [j|]; [| discriminate].
  rewrite Hk, (IH Ho). reflexivity.
Qed.

Lemma defineProperty_canonical (acc ms : members) :
  canonicalFrom (map fst acc) (map fst ms) = true ->
  fold_left (fun o kv => defineProperty (fst kv) (snd kv) o) ms acc
  = (acc ++ ms)%list.
Proof.
  revert acc. induction ms as [|[k v] ms IH]; intros acc H.
  - now rewrite app_nil_r.
  - cbn [map fst canonicalFrom] in H.
    apply andb_true_iff in H. destruct H as [H Hrest].
    apply andb_true_iff in H. destruct H as [Hfresh Hidx].
    cbn [fold_left fst snd].
    assert (Hdef : defineProperty k v acc = (acc ++ [(k, v)])%list).
    { unfold defineProperty. rewrite hasKey_existsb.
      apply negb_true_iff in Hfresh. rewrite Hfresh.
      destruct (arrayIndex k) as [i|]; [| reflexivity].
      now apply insertIndex_last. }
    rewrite Hdef, IH.
    + now rewrite <- app_assoc.
    + now rewrite map_app.
Qed.

Lemma objectOf_canonical (ms : members) :
  canonicalKeys (map fst ms) = true -> objectOf ms = ms.
Proof. intros H. unfold objectOf. now rewrite defineProperty_canonical. Qed.

(** *** The text of arrays and objects *)

Lemma join_cons2 (sep x y : string) (l : list string) :
  Str.join sep (x :: y :: l) = x ++ sep ++ Str.join sep (y :: l).
Proof. reflexivity. Qed.

Lemma wrap_nil (open close stepback indent : string) :
  wrap open close stepback indent [] = open ++ close.
Proof. reflexivity. Qed.

Lemma wrap_cons (o c : ascii) (stepback indent p : string) (ps : list string)
  (rest : string) :
  wrap (String o EmptyString) (String c EmptyString) stepback indent (p :: ps)
  ++ rest
  = String o
      (Str.nl ++ indent
       ++ Str.join (separator indent) (p :: ps)
       ++ Str.nl ++ stepback ++ String c rest).
Proof.
  unfold wrap. cbn [append]. f_equal. rewrite !append_assoc. reflexivity.
Qed.

Lemma wrap_length (o c : ascii) (stepback indent p : string)
  (ps : list string) :
  (4 + String.length (Str.join (separator indent) (p :: ps))
   <= String.length
        (wrap (String o EmptyString) (String c EmptyString) stepback indent
           (p :: ps)))%nat.
Proof.
  unfold wrap. rewrite !length_append. cbn [String.length]. unfold Str.nl.
  cbn [String.length]. lia.
Qed.

Lemma separator_length (indent : string) :
  (2 <= String.length (separator indent))%nat.
Proof. unfold separator. rewrite !length_append. simpl. lia. Qed.

Lemma members_text (indent : string) (ms : members) :
  forallb
    (fun kv => match snd kv with Some x => isJSONValue x | None => false end)
    ms = true ->
  flat_map
    (fun kv =>
       match snd kv with
       | None => []
       | Some x =>
           [QuoteJSONString (fst kv) ++ ": " ++ SerializeJSONProperty indent x]
       end)
    ms
  = map
      (fun kv =>
         memberText (fst kv)
           (match snd kv with
            | Some x => SerializeJSONProperty indent x
            | None => EmptyString
            end))
      ms.
Proof.
  induction ms as [|[k [x|]] ms IH]; intros H; [reflexivity | |].
  - cbn [forallb snd] in H. apply andb_true_iff in H. destruct H as [_ H].
    cbn [flat_map map snd fst app]. now rewrite (IH H).
  - discriminate.
Qed.

(** The text of a JSON value starts with a character of a token. *)
Lemma SerializeJSONProperty_opens (indent : string) (v : value) :
  isJSONValue v = true -> opens (SerializeJSONProperty indent v).
Proof.
  intros H. destruct v as [| [] | n | s | items | ms].
  - eexists _, _. split; [reflexivity | split; reflexivity].
  - eexists _, _. split; [reflexivity | split; reflexivity].
  - eexists _, _. split; [reflexivity | split; reflexivity].
  - cbn [isJSONValue] in H. apply andb_true_iff in H. destruct H as [Hf _].
    cbn [SerializeJSONProperty]. rewrite Hf.
    pose proof (numberToString_token n Hf) as Ht.
    destruct (numberToString n) as [|c r]; [discriminate |].
    cbn [Lex.number_token] in Ht. apply andb_true_iff in Ht.
    destruct Ht as [Hc _].
    destruct (num_start_class c Hc) as (Hws & _ & _ & _ & _ & Hclose).
    exists c, r. split; [reflexivity | split; [exact Hws |]].
    now rewrite Ascii.eqb_sym.
  - eexists _, _. split; [reflexivity | split; reflexivity].
  - cbn [SerializeJSONProperty].
    destruct (map _ items); eexists _, _;
      (split; [reflexivity | split; reflexivity]).
  - cbn [SerializeJSONProperty].
    destruct (flat_map _ ms); eexists _, _;
      (split; [reflexivity | split; reflexivity]).
Qed.

End ObjectsAndText.

Section ArrayItems.

Context {Num : JSNumber}.

Lemma delimited_nl (s : string) : delimited (Str.nl ++ s).
Proof. reflexivity. Qed.

Lemma delimited_separator (indent s : string) :
  delimited (separator indent ++ s).
Proof. reflexivity. Qed.

(** The items of an array, up to the closing bracket. *)
Lemma parse_elements_items (indent stepback : string) (items : list value) :
  Forall readsBack items -> items <> [] ->
  forallb isJSONValue items = true -> blank indent -> blank stepback ->
  forall fuel ws rest,
    blank ws ->
    (2 + String.length
           (Str.join (separator indent)
              (map (SerializeJSONProperty indent) items)) <= fuel)%nat ->
    parse_elements fuel
      (ws ++ Str.join (separator indent)
               (map (SerializeJSONProperty indent) items)
       ++ Str.nl ++ stepback ++ String "]" rest)
    = Some (items, rest).
Proof.
  intros HP Hne Hjson Hind Hstep.
  induction HP as [|x items Hx HP IH]; [now elim Hne |].
  intros fuel ws rest Hws Hfuel.
  cbn [forallb] in Hjson. apply andb_true_iff in Hjson.
  destruct Hjson as [Hjx Hjitems].
  rewrite parse_elements_blank by exact Hws.
  destruct fuel as [|fuel]; [lia |].
  rewrite parse_elements_step.
  destruct items as [|y items].
  - cbn [map Str.join String.concat] in *.
    rewrite (Hx indent _ fuel Hjx Hind (delimited_nl _)) by lia.
    rewrite (blank_nl _), (Hstep _). reflexivity.
  - cbn [map] in *. rewrite join_cons2 in Hfuel |- *.
    rewrite length_append, length_append in Hfuel.
    pose proof (separator_length indent) as Hsep.
    rewrite !append_assoc.
    rewrite (Hx indent _ fuel Hjx Hind (delimited_separator _ _)) by lia.
    unfold separator at 1. cbn [append Lex.skip_ws].
    change (Lex.is_ws ",") with false. cbv iota.
    change (Ascii.eqb "," ",") with true. cbv iota.
    rewrite (IH ltac:(discriminate) Hjitems fuel (Str.nl ++ indent) rest).
    + reflexivity.
    + apply blank_app; [apply blank_nl | exact Hind].
    + lia.
Qed.

End ArrayItems.

Section ReadBackProof.

Context {Num : JSNumber}.

(** The members of an object, up to the closing brace. *)
Lemma parse_members_items (indent stepback : string) (ms : members) :
  Forall (fun kv => forall x, snd kv = Some x -> readsBack x) ms ->
  ms <> [] ->
  forallb
    (fun kv => match snd kv with Some x => isJSONValue x | None => false end)
    ms = true ->
  blank indent -> blank stepback ->
  forall fuel acc ws rest,
    blank ws ->
    (2 + String.length (Str.join (separator indent) (map (memberOf indent) ms))
     <= fuel)%nat ->
    parse_members fuel acc
      (ws ++ Str.join (separator indent) (map (memberOf indent) ms)
       ++ Str.nl ++ stepback ++ String "}" rest)
    = Some
        (VObject
           (fold_left (fun o kv => defineProperty (fst kv) (snd kv) o) ms acc),
         rest).
Proof.
  intros HP Hne Hjson Hind Hstep.
  induction HP as [|[k ox] ms Hx HP IH]; [now elim Hne |].
  intros fuel acc ws rest Hws Hfuel.
  cbn [forallb snd] in Hjson. apply andb_true_iff in Hjson.
  destruct Hjson as [Hjx Hjms].
  destruct ox as [x|]; [| discriminate].
  specialize (Hx x eq_refl).
  rewrite parse_members_blank by exact Hws.
  destruct fuel as [|fuel]; [lia |].
  assert (Hstepk : forall tail,
            (String.length (SerializeJSONProperty indent x) < fuel)%nat ->
            delimited tail ->
            parse_members (S fuel) acc (memberOf indent (k, Some x) ++ tail)
            = match Lex.skip_ws tail with
              | EmptyString => None
              | String c r4 =>
                  if Ascii.eqb c ","
                  then parse_members fuel (defineProperty k (Some x) acc) r4
                  else if Ascii.eqb c "}"
                       then Some (VObject (defineProperty k (Some x) acc), r4)
                       else None
              end).
  { intros tail Hlen Htail. unfold memberOf, memberText. cbn [fst snd].
    rewrite !append_assoc.
    destruct (parse_chars_QuoteJSONString k
                (": " ++ SerializeJSONProperty indent x ++ tail))
      as (body & -> & Hbody).
    rewrite parse_members_step, Hbody.
    cbn [append Lex.skip_ws].
    change (Lex.is_ws ":") with false. cbv iota.
    cbn [startsWith]. change (Ascii.eqb ":" ":") with true. cbv iota.
    change (String " " (SerializeJSONProperty indent x ++ tail))
      with (" " ++ SerializeJSONProperty indent x ++ tail).
    rewrite (parse_value_blank fuel " " _ blank_space).
    rewrite (Hx indent tail fuel Hjx Hind Htail Hlen). reflexivity. }
  assert (Hmem : (2 + String.length (SerializeJSONProperty indent x)
                  <= String.length (memberOf indent (k, Some x)))%nat).
  { unfold memberOf, memberText. cbn [fst snd].
    rewrite !length_append. simpl. lia. }
  destruct ms as [|kv ms].
  - cbn [map Str.join String.concat] in *.
    rewrite Hstepk; [| lia | apply delimited_nl].
    rewrite (blank_nl _), (Hstep _). reflexivity.
  - cbn [map] in *. rewrite join_cons2 in Hfuel |- *.
    rewrite length_append, length_append in Hfuel.
    pose proof (separator_length indent) as Hsep.
    rewrite !append_assoc.
    rewrite Hstepk; [| lia | apply delimited_separator].
    unfold separator at 1. cbn [append Lex.skip_ws].
    change (Lex.is_ws ",") with false. cbv iota.
    change (Ascii.eqb "," ",") with true. cbv iota.
    rewrite (IH ltac:(discriminate) Hjms fuel _ (Str.nl ++ indent) rest).
    + reflexivity.
    + apply blank_app; [apply blank_nl | exact Hind].
    + lia.
Qed.

Lemma join_opens (sep p : string) (ps : list string) :
  opens p -> opens (Str.join sep (p :: ps)).
Proof.
  intros H. destruct ps as [|q ps]; [exact H |].
  rewrite join_cons2. now apply opens_app.
Qed.

(** Every JSON value is read back from its text. *)
Lemma SerializeJSONProperty_readsBack (v : value) : readsBack v.
Proof.
  induction v as [| b | n | s | items H | mems H] using value_induction;
    intros indent rest fuel Hjson Hind Hrest Hfuel.
  - destruct fuel; [simpl in Hfuel; lia | reflexivity].
  - destruct fuel; [simpl in Hfuel; lia |]. destruct b; reflexivity.
  - cbn [isJSONValue] in Hjson. apply andb_true_iff in Hjson.
    destruct Hjson as [Hf Hz]. apply negb_true_iff in Hz.
    cbn [SerializeJSONProperty] in *. rewrite Hf in *.
    pose proof (numberToString_token n Hf) as Ht.
    pose proof (numberToString_exact n Hf Hz) as He.
    destruct (numberToString n) as [|c r] eqn:Etok; [discriminate |].
    cbn [Lex.number_token] in Ht. apply andb_true_iff in Ht.
    destruct Ht as [Hc Hr].
    destruct fuel; [simpl in Hfuel; lia |].
    cbn [append]. rewrite (parse_value_number fuel c _ Hc).
    change (String c (r ++ rest)) with (String c r ++ rest).
    rewrite take_number_token; [| | exact Hrest].
    + now rewrite He.
    + cbn [Lex.all_num_chars]. rewrite Hr.
      destruct (num_start_class c Hc) as (_ & -> & _). reflexivity.
  - destruct fuel; [simpl in Hfuel; lia |].
    cbn [SerializeJSONProperty].
    destruct (parse_chars_QuoteJSONString s rest) as (body & -> & Hbody).
    now rewrite parse_value_string, Hbody.
  - cbn [SerializeJSONProperty isJSONValue] in *.
    destruct fuel; [lia |].
    destruct items as [|x items]; [reflexivity |].
    cbn [map] in Hfuel |- *.
    pose proof (wrap_length "[" "]" indent (indent ++ gap)
                  (SerializeJSONProperty (indent ++ gap) x)
                  (map (SerializeJSONProperty (indent ++ gap)) items)) as Hw.
    rewrite wrap_cons, parse_value_array.
    assert (Hind' : blank (indent ++ gap))
      by (apply blank_app; [exact Hind | apply blank_gap]).
    assert (Hopen : opens
                      (Str.join (separator (indent ++ gap))
                         (SerializeJSONProperty (indent ++ gap) x
                          :: map (SerializeJSONProperty (indent ++ gap)) items))).
    { apply join_opens, SerializeJSONProperty_opens.
      cbn [forallb] in Hjson. apply andb_true_iff in Hjson. apply Hjson. }
    rewrite (blank_nl _), (Hind' _).
    rewrite (opens_skip _ (opens_app _ _ Hopen)).
    rewrite (opens_not_close _ (opens_app _ _ Hopen)).
    rewrite (parse_elements_blank fuel Str.nl _ blank_nl).
    rewrite (parse_elements_blank fuel _ _ Hind').
    pose proof (parse_elements_items (indent ++ gap) indent (x :: items) H
                  ltac:(discriminate) Hjson Hind' Hind fuel EmptyString rest
                  blank_empty) as Hitems.
    cbn [append map] in Hitems. rewrite Hitems; [reflexivity | lia].
  - cbn [SerializeJSONProperty isJSONValue] in *.
    apply andb_true_iff in Hjson. destruct Hjson as [Hjson Hcanon].
    rewrite (members_text (indent ++ gap) mems Hjson) in *.
    fold (memberOf (indent ++ gap)) in *.
    destruct fuel; [lia |].
    destruct mems as [|kv ms]; [reflexivity |].
    cbn [map] in Hfuel |- *.
    pose proof (wrap_length "{" "}" indent (indent ++ gap)
                  (memberOf (indent ++ gap) kv)
                  (map (memberOf (indent ++ gap)) ms)) as Hw.
    rewrite wrap_cons, parse_value_object.
    assert (Hind' : blank (indent ++ gap))
      by (apply blank_app; [exact Hind | apply blank_gap]).
    rewrite (blank_nl _), (Hind' _).
    assert (Hclose :
              startsWith "}"
                (Lex.skip_ws
                   (Str.join (separator (indent ++ gap))
                      (memberOf (indent ++ gap) kv
                       :: map (memberOf (indent ++ gap)) ms)
                    ++ Str.nl ++ indent ++ String "}" rest)) = None).
    { destruct (map (memberOf (indent ++ gap)) ms); reflexivity. }
    rewrite Hclose.
    rewrite (parse_members_blank fuel [] Str.nl _ blank_nl).
    rewrite (parse_members_blank fuel [] _ _ Hind').
    pose proof (parse_members_items (indent ++ gap) indent (kv :: ms) H
                  ltac:(discriminate) Hjson Hind' Hind fuel [] EmptyString rest
                  blank_empty) as Hitems.
    cbn [append map] in Hitems. rewrite Hitems; [| lia].
    fold (objectOf (kv :: ms)). now rewrite objectOf_canonical.
Qed.

End ReadBackProof.

(** *** A string literal that is cut short *)

Section CutLiterals.

Context {Num : JSNumber}.

Lemma hex4_LF_4 (a b c : ascii) : hex4 a b c Str.LF = None.
Proof.
  unfold hex4. destruct (hexValue a), (hexValue b), (hexValue c); reflexivity.
Qed.

(** What a line break ends: a literal, an escape, the digits of an
    escape. *)
Lemma parse_chars_LF (rest : string) :
  parse_chars (String Str.LF rest) = None.
Proof. reflexivity. Qed.

Lemma parse_chars_backslash_LF (rest : string) :
  parse_chars (String Str.BACKSLASH (String Str.LF rest)) = None.
Proof. reflexivity. Qed.

Lemma parse_chars_u_LF (digits rest : string) :
  (String.length digits < 4)%nat ->
  parse_chars
    (String Str.BACKSLASH (String "u" (digits ++ String Str.LF rest))) = None.
Proof.
  intros Hlen.
  destruct digits as [|a [|b [|c [|d digits]]]]; cbn [String.length] in Hlen;
    try lia; cbn [append parse_chars];
    change (Ascii.eqb Str.BACKSLASH Str.DQUOTE) with false;
    change (Ascii.eqb Str.BACKSLASH Str.BACKSLASH) with true;
    change (unescape "u") with (@None ascii);
    change (Ascii.eqb "u" "u") with true; cbv iota.
  - destruct rest as [|x [|y [|z rest]]]; reflexivity.
  - destruct rest as [|x [|y rest]]; try reflexivity.
    unfold hex4. destruct (hexValue a); reflexivity.
  - destruct rest as [|x rest]; try reflexivity.
    unfold hex4. destruct (hexValue a), (hexValue b); reflexivity.
  - now rewrite hex4_LF_4.
Qed.

Lemma substring_0_0 (s : string) : String.substring 0 0 s = EmptyString.
Proof. destruct s; reflexivity. Qed.

Lemma substring_0_S (n : nat) (c : ascii) (s : string) :
  String.substring 0 (S n) (String c s) = String c (String.substring 0 n s).
Proof. reflexivity. Qed.

(** A prefix of a quoted character and of what follows it, with a line
    break behind, cannot be read unless the rest can. *)
Lemma parse_chars_cut_char (c : ascii) (tail rest : string) (n : nat) :
  (forall k,
     parse_chars (String.substring 0 k tail ++ String Str.LF rest) = None) ->
  parse_chars
    (String.substring 0 n (quoteChar c ++ tail) ++ String Str.LF rest) = None.
Proof.
  intros Htail.
  assert (Hescape : forall e,
            unescape e <> None ->
            parse_chars
              (String.substring 0 n (escape2 e ++ tail) ++ String Str.LF rest)
            = None).
  { intros e He. unfold escape2. cbn [append].
    destruct n as [|[|k]].
    - rewrite substring_0_0. apply parse_chars_LF.
    - rewrite substring_0_S, substring_0_0. apply parse_chars_backslash_LF.
    - rewrite !substring_0_S. cbn [append parse_chars].
      change (Ascii.eqb Str.BACKSLASH Str.DQUOTE) with false.
      change (Ascii.eqb Str.BACKSLASH Str.BACKSLASH) with true.
      cbv iota. destruct (unescape e); [| now elim He].
      now rewrite Htail. }
  unfold quoteChar.
  destruct (Ascii.eqb_spec c Str.BS) as [-> | H1];
    [apply Hescape; discriminate |].
  destruct (Ascii.eqb_spec c Str.TAB) as [-> | H2];
    [apply Hescape; discriminate |].
  destruct (Ascii.eqb_spec c Str.LF) as [-> | H3];
    [apply Hescape; discriminate |].
  destruct (Ascii.eqb_spec c Str.FF) as [-> | H4];
    [apply Hescape; discriminate |].
  destruct (Ascii.eqb_spec c Str.CR) as [-> | H5];
    [apply Hescape; discriminate |].
  destruct (Ascii.eqb_spec c Str.DQUOTE) as [-> | H6];
    [apply Hescape; discriminate |].
  destruct (Ascii.eqb_spec c Str.BACKSLASH) as [-> | H7];
    [apply Hescape; discriminate |].
  destruct (N.ltb_spec (N_of_ascii c) 32) as [Hlt | Hge].
  - unfold UnicodeEscape. cbn [append].
    destruct n as [|[|[|[|[|[|k]]]]]].
    + rewrite substring_0_0. apply parse_chars_LF.
    + rewrite substring_0_S, substring_0_0. apply parse_chars_backslash_LF.
    + rewrite !substring_0_S, substring_0_0.
      apply (parse_chars_u_LF EmptyString). cbn. lia.
    + rewrite !substring_0_S, substring_0_0.
      apply (parse_chars_u_LF "0"). cbn. lia.
    + rewrite !substring_0_S, substring_0_0.
      apply (parse_chars_u_LF "00"). cbn. lia.
    + rewrite !substring_0_S, substring_0_0.
      apply (parse_chars_u_LF
               (String "0" (String "0" (String _ EmptyString)))). cbn. lia.
    + rewrite !substring_0_S. cbn [append parse_chars].
      change (Ascii.eqb Str.BACKSLASH Str.DQUOTE) with false.
      change (Ascii.eqb Str.BACKSLASH Str.BACKSLASH) with true.
      change (unescape "u") with (@None ascii).
      change (Ascii.eqb "u" "u") with true.
      cbv iota. rewrite (hex4_UnicodeEscape c Hlt). now rewrite Htail.
  - cbn [append]. destruct n as [|k].
    + rewrite substring_0_0. apply parse_chars_LF.
    + rewrite substring_0_S. cbn [append parse_chars].
      apply Ascii.eqb_neq in H6, H7. rewrite H6, H7.
      destruct (N.ltb_spec (N_of_ascii c) 32) as [Hlt | _]; [lia |].
      now rewrite Htail.
Qed.

(** No prefix of the characters of a string literal, with a line break
    behind, can be read as the rest of a literal: the closing quote is
    missing and the line break is no character of a literal. *)
Lemma parse_chars_cut (s rest : string) (n : nat) :
  parse_chars (String.substring 0 n (quoteChars s) ++ String Str.LF rest)
  = None.
Proof.
  revert n. induction s as [|c s IH]; intros n.
  - cbn [quoteChars]. destruct n; apply parse_chars_LF.
  - cbn [quoteChars]. apply parse_chars_cut_char. exact IH.
Qed.

Lemma substring_0_within (n : nat) (a b : string) :
  (n <= String.length a)%nat ->
  String.substring 0 n (a ++ b) = String.substring 0 n a.
Proof.
  revert a. induction n as [|n IH]; intros a Hn.
  - now rewrite !substring_0_0.
  - destruct a as [|c a]; cbn [String.length] in Hn; [lia |].
    cbn [append]. rewrite !substring_0_S, IH by lia. reflexivity.
Qed.

Lemma Str_substring_0 (s : string) (limit : Z) :
  0 <= limit <= Str.length s ->
  Str.substring s 0 limit = String.substring 0 (Z.to_nat limit) s.
Proof.
  intros H. unfold Str.substring.
  replace (Z.min (Z.max 0 0) (Str.length s)) with 0 by lia.
  replace (Z.min (Z.max limit 0) (Str.length s)) with limit by lia.
  replace (Z.min 0 limit) with 0 by lia.
  replace (Z.max 0 limit - 0) with limit by lia.
  reflexivity.
Qed.

(** A string literal that is cut at a positive length below its own and
    followed by text that starts with a line break is not JSON text. *)
Lemma JSON_parse_cut_literal (s rest : string) (limit : Z) :
  0 < limit < Str.length (QuoteJSONString s) ->
  JSON_parse
    (Str.substring (QuoteJSONString s) 0 limit ++ String Str.LF rest) = None.
Proof.
  intros Hlimit. rewrite Str_substring_0 by lia.
  destruct (Z.to_nat limit) as [|n] eqn:En; [lia |].
  unfold QuoteJSONString, Str.dq in *. cbn [append] in *.
  rewrite substring_0_S.
  rewrite substring_0_within.
  - unfold JSON_parse. cbn [append]. rewrite parse_value_string.
    now rewrite parse_chars_cut.
  - unfold Str.length in Hlimit. cbn [String.length] in Hlimit.
    rewrite length_append in Hlimit. cbn [String.length] in Hlimit. lia.
Qed.

End CutLiterals.

Section RoundTripResults.

Context {Num : JSNumber}.

(** [JSON.parse] undoes [JSON.stringify(_, null, 2)] on JSON values. *)
Lemma JSON_parse_stringify (v : value) :
  isJSONValue v = true -> JSON_parse (JSON_stringify v) = Some v.
Proof.
  intros H. unfold JSON_parse, JSON_stringify.
  rewrite <- (append_nil_r (SerializeJSONProperty EmptyString v)) at 2.
  rewrite (SerializeJSONProperty_readsBack v EmptyString EmptyString _ H
             blank_empty I); [reflexivity | lia].
Qed.

(** C4, amended.  For every payload that JSON text can denote (numbers
    finite and not the negative zero, no [undefined] member, members in
    the enumeration order of their object), the JSON rendering is valid
    JSON whose parse is the payload itself, nested arrays and objects,
    order of the keys and numbers included; a non-empty array or object
    is laid out one item per line, two spaces deeper than the line that
    opens it. *)
Theorem formatAsJSON_round_trip (P : value) :
  isJSONValue P = true ->
  JSON_parse (formatAsJSON P) = Some P
  /\ (forall indent x items,
        SerializeJSONProperty indent (VArray (x :: items))
        = "[" ++ Str.nl ++ (indent ++ "  ")
          ++ Str.join ("," ++ Str.nl ++ indent ++ "  ")
               (map (SerializeJSONProperty (indent ++ "  ")) (x :: items))
          ++ Str.nl ++ indent ++ "]")
  /\ (forall indent k x,
        SerializeJSONProperty indent (VObject [(k, Some x)])
        = "{" ++ Str.nl ++ (indent ++ "  ")
          ++ (QuoteJSONString k ++ ": "
              ++ SerializeJSONProperty (indent ++ "  ") x)
          ++ Str.nl ++ indent ++ "}").
Proof.
  intros H. split; [exact (JSON_parse_stringify P H) |].
  split; reflexivity.
Qed.

Variable toUpperCase : string -> string.
Variable UTC : Z -> Z.

Lemma formatResponse_JSON (data : value) (formatter : option (value -> string)) :
  formatResponse data JSON formatter
  = fst (truncateIfNeeded (formatAsJSON data) JSON).
Proof.
  unfold formatResponse. cbn [ResponseFormat_eqb].
  now destruct (truncateIfNeeded (formatAsJSON data) JSON).
Qed.

Lemma formatResponse_MARKDOWN (data : value) :
  formatResponse data MARKDOWN None
  = fst (truncateIfNeeded (formatAsJSON data) MARKDOWN).
Proof.
  unfold formatResponse. cbn [ResponseFormat_eqb].
  now destruct (truncateIfNeeded (formatAsJSON data) MARKDOWN).
Qed.

(** What the time-series tool returns in JSON format once the date guard
    has let the call through and the upstream has answered. *)
Lemma time_series_json_answer
  (validated : GetTimeSeries.args) (data : FrankfurterTimeSeriesResponse.t) :
  GetTimeSeries.response_format validated = JSON ->
  JsDate.ge (JsDate.parse UTC (GetTimeSeries.start_date validated))
    (JsDate.parse UTC (GetTimeSeries.end_date validated)) = false ->
  run (frankfurter_get_time_series toUpperCase UTC validated) (Resolved data)
  = success
      (fst (truncateIfNeeded
              (formatAsJSON
                 (VString (formatAsJSON (timeSeriesResponseValue data))))
              JSON)).
Proof.
  intros Hfmt Hguard.
  unfold frankfurter_get_time_series. cbv zeta. rewrite Hguard, Hfmt.
  cbn [run andThen makeApiRequest bind catchBlock ResponseFormat_eqb].
  now rewrite formatResponse_JSON.
Qed.

(** C9, amended.  A time-series call in JSON format that passes the date
    guard and gets an upstream answer returns the truncation of the
    twice-serialized answer.  When that text is within the limit it is
    returned whole, and parsing it once gives a string, the text of the
    answer, not the answer itself.  When it is longer, the text returned
    is its first 25000 characters followed by the notice, and is not JSON
    text: it does not parse. *)
Theorem time_series_json_serialized_twice
  (validated : GetTimeSeries.args) (data : FrankfurterTimeSeriesResponse.t) :
  GetTimeSeries.response_format validated = JSON ->
  JsDate.ge (JsDate.parse UTC (GetTimeSeries.start_date validated))
    (JsDate.parse UTC (GetTimeSeries.end_date validated)) = false ->
  let once := formatAsJSON (timeSeriesResponseValue data) in
  let twice := formatAsJSON (VString once) in
  let answer :=
    run (frankfurter_get_time_series toUpperCase UTC validated) (Resolved data) in
  answer = success (fst (truncateIfNeeded twice JSON))
  /\ (Str.length twice <= CHARACTER_LIMIT ->
      answer = success twice
      /\ JSON_parse twice = Some (VString once)
      /\ VString once <> timeSeriesResponseValue data)
  /\ (CHARACTER_LIMIT < Str.length twice ->
      let cut :=
        Str.substring twice 0 CHARACTER_LIMIT ++ truncationMessage JSON in
      answer = success cut
      /\ JSON_parse cut = None).
Proof.
  intros Hfmt Hguard. cbv zeta.
  rewrite (time_series_json_answer validated data Hfmt Hguard).
  split; [reflexivity |]. split.
  - intros Hlen. rewrite (truncateIfNeeded_short _ JSON Hlen).
    split; [reflexivity |]. split; [| discriminate].
    apply JSON_parse_stringify. reflexivity.
  - intros Hlen. rewrite (truncateIfNeeded_long _ JSON Hlen).
    split; [reflexivity |].
    change (truncationMessage JSON)
      with (String Str.LF
              (Str.nl ++ "[TRUNCATED: Response exceeded character limit]")).
    apply (JSON_parse_cut_literal
             (formatAsJSON (timeSeriesResponseValue data))).
    unfold CHARACTER_LIMIT in *.
    change (QuoteJSONString (formatAsJSON (timeSeriesResponseValue data)))
      with (formatAsJSON
              (VString (formatAsJSON (timeSeriesResponseValue data)))).
    lia.
Qed.

(** In Markdown format the tool hands the rendered table to
    [formatResponse] without a renderer, which writes it as a JSON string
    before the truncation. *)
Lemma time_series_markdown_answer
  (validated : GetTimeSeries.args) (data : FrankfurterTimeSeriesResponse.t)
  (table : string) :
  GetTimeSeries.response_format validated = MARKDOWN ->
  JsDate.ge (JsDate.parse UTC (GetTimeSeries.start_date validated))
    (JsDate.parse UTC (GetTimeSeries.end_date validated)) = false ->
  formatTimeSeriesAsMarkdown
    (FrankfurterTimeSeriesResponse.rates data)
    (FrankfurterTimeSeriesResponse.base data)
    (match GetTimeSeries.symbols validated with
     | Some l => map toUpperCase l
     | None => firstEntryKeys (FrankfurterTimeSeriesResponse.rates data)
     end) = Normal table ->
  run (frankfurter_get_time_series toUpperCase UTC validated) (Resolved data)
  = success (fst (truncateIfNeeded (formatAsJSON (VString table)) MARKDOWN)).
Proof.
  intros Hfmt Hguard Htable.
  unfold frankfurter_get_time_series. cbv zeta. rewrite Hguard, Hfmt.
  cbn [run andThen makeApiRequest bind catchBlock ResponseFormat_eqb].
  rewrite Htable. cbn [bind catchBlock].
  now rewrite formatResponse_MARKDOWN.
Qed.

End RoundTripResults.

(** C4, as stated, fails on the object that the conversion tool renders
    when the rate is missing: the parse of its rendering has no [rate]
    member and a [null] result. *)
Lemma formatAsJSON_loses_undefined :
  JSON_parse (formatAsJSON conversionWithoutRate)
  = Some
      (VObject
         [("from", Some (VString "EUR")); ("to", Some (VString "USD"));
          ("amount", Some (VNumber (IntOf 100)));
          ("result", Some VNull);
          ("date", Some (VString "2024-06-14"))])
  /\ JSON_parse (formatAsJSON conversionWithoutRate)
     <> Some conversionWithoutRate.
Proof.
  assert (H : JSON_parse (formatAsJSON conversionWithoutRate)
              = Some
                  (VObject
                     [("from", Some (VString "EUR")); ("to", Some (VString "USD"));
                      ("amount", Some (VNumber (IntOf 100)));
                      ("result", Some VNull);
                      ("date", Some (VString "2024-06-14"))])).
  { reflexivity. }
  split; [exact H |]. rewrite H. discriminate.
Qed.

Lemma formatAsJSON_round_trip_witness :
  JSON_parse (formatAsJSON sampleSeries) = Some sampleSeries.
Proof.
  apply (formatAsJSON_round_trip sampleSeries). reflexivity.
Defined.

(** C9, as stated, fails on an answer whose twice-serialized text is over
    the limit: the text returned is cut and carries the notice, so it is
    not the twice-serialized answer and does not parse at all. *)
Lemma time_series_json_truncated :
  let twice :=
    formatAsJSON (VString (formatAsJSON (timeSeriesResponseValue largeSeries))) in
  let text := fst (truncateIfNeeded twice JSON) in
  run (frankfurter_get_time_series asciiUpperCase utcHost januaryJson)
    (Resolved largeSeries) = success text
  /\ Str.length text < Str.length twice
  /\ JSON_parse text = None.
Proof.
  cbv zeta. split; [| split].
  - apply time_series_json_answer; reflexivity.
  - vm_compute. reflexivity.
  - vm_compute. reflexivity.
Qed.

Lemma time_series_json_serialized_twice_witness :
  let once := formatAsJSON (timeSeriesResponseValue smallSeries) in
  let twice := formatAsJSON (VString once) in
  let answer :=
    run (frankfurter_get_time_series asciiUpperCase utcHost januaryJson)
      (Resolved smallSeries) in
  answer = success (fst (truncateIfNeeded twice JSON))
  /\ (Str.length twice <= CHARACTER_LIMIT ->
      answer = success twice
      /\ JSON_parse twice = Some (VString once)
      /\ VString once <> timeSeriesResponseValue smallSeries)
  /\ (CHARACTER_LIMIT < Str.length twice ->
      let cut :=
        Str.substring twice 0 CHARACTER_LIMIT ++ truncationMessage JSON in
      answer = success cut
      /\ JSON_parse cut = None).
Proof.
  apply (time_series_json_serialized_twice (Num := Integers) asciiUpperCase
           utcHost januaryJson smallSeries); reflexivity.
Defined.

(** * Further properties *)

(** ** The rates and currencies tables *)

(** A loop that appends one row per entry builds the rows in the order
    of the entries. *)
Lemma fold_left_rows {A : Type} (step : string -> A -> string)
  (row : A -> string) (entries : list A) (markdown : string) :
  (forall md e, step md e = md ++ row e) ->
  fold_left step entries markdown
  = markdown ++ concatRows (map row entries).
Proof.
  intros Hstep. revert markdown.
  induction entries as [|e entries IH]; intros markdown; simpl.
  - now rewrite append_nil_r.
  - now rewrite IH, Hstep, append_assoc.
Qed.

Lemma concatRows_app (a b : list string) :
  concatRows (a ++ b) = concatRows a ++ concatRows b.
Proof.
  induction a as [|x a IH]; simpl; [reflexivity |].
  now rewrite IH, append_assoc.
Qed.

Section RatesRows.

Context {Num : JSNumber}.

Lemma formatRatesAsMarkdown_rows
  (rates : list (string * number)) (base date : string) :
  formatRatesAsMarkdown rates base date
  = ratesHeader base date ++ concatRows (map rateRow rates).
Proof.
  unfold formatRatesAsMarkdown. cbv zeta.
  apply fold_left_rows. intros md [currency rate]. reflexivity.
Qed.

(** X1.  The rates table is the header followed by one row per entry of
    the mapping, in the order in which the mapping lists them (nothing is
    sorted); the rows of a mapping that continues another one follow the
    table of that one. *)
Theorem formatRatesAsMarkdown_in_order
  (rates more : list (string * number)) (base date : string) :
  formatRatesAsMarkdown rates base date
  = ratesHeader base date ++ concatRows (map rateRow rates)
  /\ formatRatesAsMarkdown (rates ++ more) base date
     = formatRatesAsMarkdown rates base date ++ concatRows (map rateRow more).
Proof.
  rewrite !formatRatesAsMarkdown_rows. split; [reflexivity |].
  now rewrite map_app, concatRows_app, append_assoc.
Qed.

End RatesRows.

(** ** Sorting with a comparator *)

Section ComparatorSort.

Context {A : Type}.
Variable compareFn : A -> A -> Z.

(** The comparator is consistent: any two elements are comparable and
    the comparison is transitive. *)
Hypothesis compare_total :
  forall a b, compareFn a b <= 0 \/ compareFn b a <= 0.
Hypothesis compare_trans :
  forall a b c, compareFn a b <= 0 -> compareFn b c <= 0 -> compareFn a c <= 0.

Lemma sortInsert_ordered (x : A) (l : list A) :
  StronglySorted (fun a b => compareFn a b <= 0) l ->
  StronglySorted (fun a b => compareFn a b <= 0) (sortInsert compareFn x l).
Proof.
  intros Hs. induction Hs as [|y l Hs IH Hy]; simpl.
  - repeat constructor.
  - destruct (Z.leb_spec (compareFn x y) 0) as [Hle | Hgt].
    + constructor; [constructor; assumption |].
      constructor; [exact Hle |].
      rewrite Forall_forall in *. intros z Hz.
      exact (compare_trans _ _ _ Hle (Hy z Hz)).
    + constructor; [exact IH |].
      rewrite Forall_forall in *. intros z Hz.
      apply (Permutation_in _ (sortInsert_perm compareFn x l)) in Hz.
      destruct Hz as [<- | Hz]; [| exact (Hy z Hz)].
      destruct (compare_total y x) as [H | H]; [exact H | lia].
Qed.

Lemma Array_sort_ordered (l : list A) :
  StronglySorted (fun a b => compareFn a b <= 0) (Array_sort compareFn l).
Proof.
  induction l as [|x l IH]; simpl; [constructor |].
  now apply sortInsert_ordered.
Qed.

End ComparatorSort.

Section CurrenciesTable.

Variable localeCompare : string -> string -> Z.

Lemma formatCurrenciesAsMarkdown_rows (currencies : list (string * string)) :
  formatCurrenciesAsMarkdown localeCompare currencies
  = currenciesHeader
    ++ concatRows
         (map currencyRow
            (Array_sort (fun a b => localeCompare (fst a) (fst b)) currencies))
    ++ currenciesFooter (List.length currencies).
Proof.
  unfold formatCurrenciesAsMarkdown. cbv zeta.
  rewrite (fold_left_rows _ currencyRow)
    by (intros md [code name]; reflexivity).
  rewrite (Permutation_length (Array_sort_perm _ currencies)).
  unfold currenciesFooter. now rewrite !append_assoc.
Qed.

(** X2.  With a consistent [localeCompare], the currencies table is the
    header, one row per currency of the catalog in ascending order of
    the codes, and the footer with the number of currencies. *)
Theorem formatCurrenciesAsMarkdown_sorted
  (currencies : list (string * string)) :
  (forall a b, localeCompare a b <= 0 \/ localeCompare b a <= 0) ->
  (forall a b c, localeCompare a b <= 0 -> localeCompare b c <= 0 ->
                 localeCompare a c <= 0) ->
  exists entries,
    Permutation entries currencies
    /\ StronglySorted (fun a b => localeCompare (fst a) (fst b) <= 0) entries
    /\ formatCurrenciesAsMarkdown localeCompare currencies
       = currenciesHeader ++ concatRows (map currencyRow entries)
         ++ currenciesFooter (List.length currencies).
Proof.
  intros Htotal Htrans.
  exists (Array_sort (fun a b => localeCompare (fst a) (fst b)) currencies).
  split; [apply Array_sort_perm | split].
  - apply (Array_sort_ordered (fun a b => localeCompare (fst a) (fst b))).
    + intros a b. apply Htotal.
    + intros a b c. apply Htrans.
  - apply formatCurrenciesAsMarkdown_rows.
Qed.

End CurrenciesTable.

Lemma defaultCompare_total (a b : string) :
  defaultCompare a b <= 0 \/ defaultCompare b a <= 0.
Proof.
  destruct (Z.le_gt_cases (defaultCompare a b) 0) as [H | H]; [now left |].
  right. apply defaultCompare_le. left. apply defaultCompare_gt. lia.
Qed.

Lemma defaultCompare_trans (a b c : string) :
  defaultCompare a b <= 0 -> defaultCompare b c <= 0 -> defaultCompare a c <= 0.
Proof.
  intros H1 H2. apply defaultCompare_le in H1, H2. apply defaultCompare_le.
  destruct H1 as [H1 | ->]; [| exact H2].
  destruct H2 as [H2 | ->]; [| now left].
  left. exact (codeUnitLt_trans _ _ _ H1 H2).
Qed.

Lemma formatCurrenciesAsMarkdown_sorted_witness :
  exists entries,
    Permutation entries [("USD", "US Dollar"); ("EUR", "Euro")]
    /\ StronglySorted (fun a b => defaultCompare (fst a) (fst b) <= 0) entries
    /\ formatCurrenciesAsMarkdown defaultCompare
         [("USD", "US Dollar"); ("EUR", "Euro")]
       = currenciesHeader ++ concatRows (map currencyRow entries)
         ++ currenciesFooter
              (List.length [("USD", "US Dollar"); ("EUR", "Euro")]).
Proof.
  exact (formatCurrenciesAsMarkdown_sorted defaultCompare
           [("USD", "US Dollar"); ("EUR", "Euro")]
           defaultCompare_total defaultCompare_trans).
Defined.

(** ** The time-series renderer and [formatResponse] *)

Section Rendering.

Context {Num : JSNumber}.

(** X3.  The time-series renderer throws in one case only, and does
    throw then: when a cell is found on [Object.prototype], that is, when
    an entry of the series lacks a symbol whose name is one of
    [toString], [constructor] and the like.  The exception is the
    [TypeError] of calling [toFixed] on what was found.  In every other
    case, an empty series included, the renderer returns the table: the
    header and one row per date key of the series. *)
Theorem formatTimeSeriesAsMarkdown_outcome
  (rates : list (string * list (string * number)))
  (base : string) (symbols : list string) :
  (ownCells rates symbols ->
   exists dates,
     Permutation dates (Object_keys rates)
     /\ formatTimeSeriesAsMarkdown rates base symbols
        = Normal
            (timeSeriesHeader base symbols
             ++ tableRows symbols (map (entryOf rates) dates)))
  /\ (forall date dateRates symbol,
        getProperty rates date = Some dateRates -> In symbol symbols ->
        getProperty dateRates symbol = None ->
        In symbol Object_prototype_keys ->
        formatTimeSeriesAsMarkdown rates base symbols
        = Throw (TypeError "rate.toFixed is not a function"))
  /\ (ownCells rates symbols
      \/ exists date dateRates symbol,
           getProperty rates date = Some dateRates /\ In symbol symbols
           /\ getProperty dateRates symbol = None
           /\ In symbol Object_prototype_keys)
  /\ formatTimeSeriesAsMarkdown [] base symbols
     = Normal (timeSeriesHeader base symbols).
Proof.
  split; [| split; [| split]].
  - intros Hown.
    exists (Array_sort defaultCompare (Object_keys rates)).
    split; [apply Array_sort_perm |].
    apply formatTimeSeriesAsMarkdown_normal, Hown.
  - intros date dateRates symbol Hdate Hsym Hnone Hkey.
    apply (formatTimeSeriesAsMarkdown_Throw rates base symbols
             date dateRates symbol Hdate Hsym).
    exact (Get_inherited _ _ Hkey Hnone).
  - destruct (ownCells_dec rates symbols)
      as [Hown | (date & dateRates & symbol & Hdate & Hsym & Hget)];
      [now left | right].
    exists date, dateRates, symbol.
    destruct (Get_Inherited_inv _ _ Hget) as [Hnone Hkey]. now repeat split.
  - rewrite formatTimeSeriesAsMarkdown_normal by (intros d r s H; discriminate).
    unfold tableRows. cbn [Object_keys map Array_sort fold_right].
    now rewrite append_nil_r.
Qed.

Lemma formatResponse_truncates
  (data : value) (format : ResponseFormat)
  (formatter : option (value -> string)) :
  exists content,
    formatResponse data format formatter
    = fst (truncateIfNeeded content format).
Proof.
  unfold formatResponse.
  match goal with
  | |- context [truncateIfNeeded ?c format] =>
      exists c; now destruct (truncateIfNeeded c format)
  end.
Qed.

(** X4.  Whatever the data, the format and the renderer, the text that
    [formatResponse] returns is at most the limit plus the notice of the
    format long.  In JSON format the renderer is not used, and in
    Markdown format without a renderer the data is rendered as JSON. *)
Theorem formatResponse_bounded
  (data : value) (format : ResponseFormat)
  (formatter : option (value -> string)) :
  Str.length (formatResponse data format formatter)
  <= CHARACTER_LIMIT + Str.length (truncationMessage format)
  /\ formatResponse data JSON formatter = formatResponse data JSON None
  /\ formatResponse data MARKDOWN None
     = fst (truncateIfNeeded (formatAsJSON data) MARKDOWN).
Proof.
  split; [| split].
  - destruct (formatResponse_truncates data format formatter) as (c & ->).
    apply truncateIfNeeded_length.
  - now rewrite !formatResponse_JSON.
  - apply formatResponse_MARKDOWN.
Qed.

End Rendering.

(** ** Quoted strings *)

Lemma allPrintable_app (a b : string) :
  allPrintable (a ++ b) = allPrintable a && allPrintable b.
Proof.
  induction a as [|c a IH]; [reflexivity |].
  cbn [append allPrintable]. now rewrite IH, andb_assoc.
Qed.

Lemma quoteChar_printable (c : ascii) : allPrintable (quoteChar c) = true.
Proof. each_char c; reflexivity. Qed.

(** A string written as a JSON string holds no control character: line
    breaks and the like are written as escapes. *)
Lemma QuoteJSONString_printable (s : string) :
  allPrintable (QuoteJSONString s) = true.
Proof.
  unfold QuoteJSONString. rewrite !allPrintable_app.
  assert (H : allPrintable (quoteChars s) = true).
  { induction s as [|c s IH]; [reflexivity |].
    cbn [quoteChars]. now rewrite allPrintable_app, quoteChar_printable, IH. }
  now rewrite H.
Qed.

Section JsonAnswers.

Context {Num : JSNumber}.

(** X5.  Two JSON values with the same JSON rendering are equal:
    different payloads are never rendered as the same text. *)
Theorem formatAsJSON_distinct (a b : value) :
  isJSONValue a = true -> isJSONValue b = true -> a <> b ->
  formatAsJSON a <> formatAsJSON b.
Proof.
  intros Ha Hb Hne Heq. apply Hne.
  pose proof (JSON_parse_stringify a Ha) as Pa.
  pose proof (JSON_parse_stringify b Hb) as Pb.
  unfold formatAsJSON in Heq. rewrite Heq, Pb in Pa. now injection Pa.
Qed.

End JsonAnswers.

Lemma formatAsJSON_distinct_witness :
  formatAsJSON (Num := Integers) (VNumber (IntOf 1))
  <> formatAsJSON (VString "1").
Proof.
  apply (formatAsJSON_distinct (Num := Integers)); [reflexivity | reflexivity |].
  discriminate.
Defined.

(** ** What the tools send upstream *)

Lemma isCurrencyCode_truthy (b : string) :
  isCurrencyCode b = true -> truthy (Some b) = true.
Proof. destruct b; [discriminate | reflexivity]. Qed.

Lemma matchesDatePattern_truthy (d : string) :
  JsDate.matchesDatePattern d = true -> truthy (Some d) = true.
Proof. destruct d; [discriminate | reflexivity]. Qed.

Section Requests.

Context {Num : JSNumber}.
Variable toUpperCase : string -> string.
Variable localeCompare : string -> string -> Z.
Variable UTC : Z -> Z.

Lemma processParams_rateParams
  (base : option string) (symbols : option (list string)) :
  optionalCode base = true ->
  processParams (Some (rateParams toUpperCase base symbols))
  = rateQuery toUpperCase base symbols.
Proof.
  intros Hb. unfold rateParams, rateQuery, processParams.
  destruct base as [b|].
  - rewrite (isCurrencyCode_truthy b Hb). destruct symbols; reflexivity.
  - destruct symbols; reflexivity.
Qed.

(** X6.  A conversion call that satisfies its schema sends exactly one
    request, whatever the date: to the path of the date when one is
    given and to [/latest] otherwise, with the two codes in upper case
    as the query.  The amount is not sent. *)
Theorem convert_currency_request (validated : ConvertCurrency.args) :
  ConvertCurrency.Schema validated = true ->
  requests (frankfurter_convert_currency toUpperCase validated)
  = [mkHttpGet
       (API_BASE_URL
        ++ match ConvertCurrency.date validated with
           | Some d => "/" ++ d
           | None => "/latest"
           end)
       (requestConfig
          [("from", toUpperCase (ConvertCurrency.from validated));
           ("to", toUpperCase (ConvertCurrency.to validated))])].
Proof.
  intros H. unfold ConvertCurrency.Schema in H.
  apply andb_true_iff in H. destruct H as [_ Hd].
  unfold frankfurter_convert_currency. cbv zeta.
  destruct (ConvertCurrency.date validated) as [d|].
  - rewrite (matchesDatePattern_truthy d Hd). reflexivity.
  - reflexivity.
Qed.

(** X7.  A latest-rates call that satisfies its schema sends exactly one
    request to [/latest]; its query holds the base, if one is given, and
    the symbols, if a list is given (an empty list included), all in
    upper case and the symbols joined by commas. *)
Theorem latest_rates_request (validated : GetLatestRates.args) :
  GetLatestRates.Schema validated = true ->
  requests (frankfurter_get_latest_rates toUpperCase validated)
  = [mkHttpGet (API_BASE_URL ++ "/latest")
       (requestConfig
          (rateQuery toUpperCase (GetLatestRates.base validated)
             (GetLatestRates.symbols validated)))].
Proof.
  intros H. unfold GetLatestRates.Schema in H.
  apply andb_true_iff in H. destruct H as [Hb _].
  unfold frankfurter_get_latest_rates, makeApiRequest. cbv zeta.
  cbn [andThen requests]. now rewrite (processParams_rateParams _ _ Hb).
Qed.

(** X8.  When the requested date is a calendar date that is not later
    than the current (UTC) date, today included, the historical-rates
    tool sends exactly one request, to the path of that date. *)
Theorem historical_past_date_requested
  (now : Z) (validated : GetHistoricalRates.args)
  (y m d : Z) (today : Z * Z * Z) :
  GetHistoricalRates.Schema validated = true ->
  JsDate.fields (GetHistoricalRates.date validated) = Some (y, m, d) ->
  JsDate.validDate y m d ->
  JsDate.utcDateOf now today ->
  ~ JsDate.before today (y, m, d) ->
  requests (frankfurter_get_historical_rates toUpperCase UTC now validated)
  = [mkHttpGet (API_BASE_URL ++ "/" ++ GetHistoricalRates.date validated)
       (requestConfig
          (rateQuery toUpperCase (GetHistoricalRates.base validated)
             (GetHistoricalRates.symbols validated)))].
Proof.
  intros Hschema Hf Hv Ht Hnb.
  unfold GetHistoricalRates.Schema in Hschema.
  apply andb_true_iff in Hschema. destruct Hschema as [Hschema _].
  apply andb_true_iff in Hschema. destruct Hschema as [_ Hb].
  unfold frankfurter_get_historical_rates. cbv zeta.
  rewrite (parse_valid UTC _ _ _ _ Hf Hv).
  destruct today as [[y0 m0] d0]. destruct Ht as [Hv0 Hnow].
  assert (Hle : JsDate.MakeDay y m d <= JsDate.MakeDay y0 m0 d0).
  { destruct (before_trichotomy (y0, m0, d0) (y, m, d)) as [Hb' | [Heq | Hb']].
    - contradiction.
    - injection Heq as -> -> ->. lia.
    - pose proof (MakeDay_before _ _ _ _ _ _ Hv Hv0 Hb'). lia. }
  unfold JsDate.gt.
  destruct (Z.ltb_spec now (JsDate.MakeDay y m d * JsDate.msPerDay)) as [Hlt | _].
  - unfold JsDate.msPerDay in *. lia.
  - unfold makeApiRequest. cbn [andThen requests].
    now rewrite (processParams_rateParams _ _ Hb).
Qed.

(** ** How the tools answer *)

(** X9.  When the request of a tool fails, the tool answers with an
    error-flagged text: [Error: ] followed by the message that the client
    derives from the failure, or by the message of any other error.  The
    historical and time-series tools do so unless their date guard has
    answered without a request. *)
Theorem upstream_failure_reported
  (now : Z) (rejection : AxiosError + JsError)
  (convert : ConvertCurrency.args) (latest : GetLatestRates.args)
  (historical : GetHistoricalRates.args) (series : GetTimeSeries.args)
  (list : ListCurrencies.args) :
  let answer := failure ("Error: " ++ errorMessage (thrownBy rejection)) in
  run (frankfurter_convert_currency toUpperCase convert)
    (rejectedWith rejection) = answer
  /\ run (frankfurter_get_latest_rates toUpperCase latest)
       (rejectedWith rejection) = answer
  /\ run (frankfurter_list_currencies localeCompare list)
       (rejectedWith rejection) = answer
  /\ (requests (frankfurter_get_historical_rates toUpperCase UTC now historical)
      = []
      \/ run (frankfurter_get_historical_rates toUpperCase UTC now historical)
           (rejectedWith rejection) = answer)
  /\ (requests (frankfurter_get_time_series toUpperCase UTC series) = []
      \/ run (frankfurter_get_time_series toUpperCase UTC series)
           (rejectedWith rejection) = answer).
Proof.
  cbv zeta.
  split; [destruct rejection; reflexivity |].
  split; [destruct rejection; reflexivity |].
  split; [destruct rejection; reflexivity |].
  split.
  - unfold frankfurter_get_historical_rates. cbv zeta.
    destruct (JsDate.gt _ _); [left; reflexivity |].
    right. destruct rejection; reflexivity.
  - unfold frankfurter_get_time_series. cbv zeta.
    destruct (JsDate.ge _ _); [left; reflexivity |].
    right. destruct rejection; reflexivity.
Qed.

End Requests.

Section SeriesAnswers.

Context {Num : JSNumber}.
Variable toUpperCase : string -> string.
Variable UTC : Z -> Z.

(** What the tool answers in Markdown format when the renderer throws. *)
Lemma time_series_markdown_thrown
  (validated : GetTimeSeries.args) (data : FrankfurterTimeSeriesResponse.t)
  (error : JsError) :
  GetTimeSeries.response_format validated = MARKDOWN ->
  JsDate.ge (JsDate.parse UTC (GetTimeSeries.start_date validated))
    (JsDate.parse UTC (GetTimeSeries.end_date validated)) = false ->
  formatTimeSeriesAsMarkdown
    (FrankfurterTimeSeriesResponse.rates data)
    (FrankfurterTimeSeriesResponse.base data)
    (seriesColumns toUpperCase (GetTimeSeries.symbols validated)
       (FrankfurterTimeSeriesResponse.rates data)) = Throw error ->
  run (frankfurter_get_time_series toUpperCase UTC validated) (Resolved data)
  = failure ("Error: " ++ errorMessage error).
Proof.
  intros Hfmt Hguard Hthrow. unfold seriesColumns in Hthrow.
  unfold frankfurter_get_time_series. cbv zeta. rewrite Hguard, Hfmt.
  cbn [run andThen makeApiRequest bind catchBlock ResponseFormat_eqb].
  rewrite Hthrow. reflexivity.
Qed.

(** X10.  Once the date guard has let a time-series call through and the
    upstream has answered, the tool answers in JSON format, and in
    Markdown format when no cell of the table is found on
    [Object.prototype], with a text that is not error-flagged and is at
    most the limit plus the notice of the format long, whatever the size
    of the answer.  In Markdown format with a cell found on
    [Object.prototype] (the columns can be keys of the upstream answer)
    the tool answers with the error-flagged message of the [TypeError]. *)
Theorem time_series_answer_bounded
  (validated : GetTimeSeries.args) (data : FrankfurterTimeSeriesResponse.t) :
  JsDate.ge (JsDate.parse UTC (GetTimeSeries.start_date validated))
    (JsDate.parse UTC (GetTimeSeries.end_date validated)) = false ->
  let rates := FrankfurterTimeSeriesResponse.rates data in
  let columns :=
    seriesColumns toUpperCase (GetTimeSeries.symbols validated) rates in
  let answer :=
    run (frankfurter_get_time_series toUpperCase UTC validated) (Resolved data) in
  (GetTimeSeries.response_format validated = JSON \/ ownCells rates columns ->
   exists text,
     answer = success text
     /\ Str.length text
        <= CHARACTER_LIMIT
           + Str.length
               (truncationMessage (GetTimeSeries.response_format validated)))
  /\ (GetTimeSeries.response_format validated = MARKDOWN ->
      forall date dateRates symbol,
        getProperty rates date = Some dateRates -> In symbol columns ->
        getProperty dateRates symbol = None ->
        In symbol Object_prototype_keys ->
        answer = failure "Error: rate.toFixed is not a function").
Proof.
  intros Hguard. cbv zeta. split.
  - intros Hcase.
    destruct (GetTimeSeries.response_format validated) eqn:Hfmt.
    + eexists. split.
      * apply (time_series_json_answer toUpperCase UTC validated data Hfmt
                 Hguard).
      * apply truncateIfNeeded_length.
    + destruct Hcase as [Hjson | Hown]; [discriminate |].
      eexists. split.
      * exact (time_series_markdown_answer toUpperCase UTC validated data _
                 Hfmt Hguard (formatTimeSeriesAsMarkdown_normal _ _ _ Hown)).
      * apply truncateIfNeeded_length.
  - intros Hfmt date dateRates symbol Hdate Hsym Hnone Hkey.
    apply (time_series_markdown_thrown validated data
             (TypeError "rate.toFixed is not a function") Hfmt Hguard).
    apply (formatTimeSeriesAsMarkdown_Throw _ _ _ date dateRates symbol
             Hdate Hsym).
    exact (Get_inherited _ _ Hkey Hnone).
Qed.

(** X11.  In Markdown format the time-series tool does not return the
    table as rendered: when no cell is found on [Object.prototype], the
    table (the columns are the requested symbols, or the keys of the
    first entry of the answer) is written as a JSON string and then
    truncated.  Within the limit the text returned is that string
    literal: it holds no line break or other control character, and
    parsing it as JSON gives the table back. *)
Theorem time_series_markdown_literal
  (validated : GetTimeSeries.args) (data : FrankfurterTimeSeriesResponse.t) :
  GetTimeSeries.response_format validated = MARKDOWN ->
  JsDate.ge (JsDate.parse UTC (GetTimeSeries.start_date validated))
    (JsDate.parse UTC (GetTimeSeries.end_date validated)) = false ->
  let rates := FrankfurterTimeSeriesResponse.rates data in
  let columns :=
    seriesColumns toUpperCase (GetTimeSeries.symbols validated) rates in
  let table :=
    timeSeriesHeader (FrankfurterTimeSeriesResponse.base data) columns
    ++ tableRows columns
         (map (entryOf rates) (Array_sort defaultCompare (Object_keys rates))) in
  let literal := formatAsJSON (VString table) in
  let answer :=
    run (frankfurter_get_time_series toUpperCase UTC validated) (Resolved data) in
  ownCells rates columns ->
  answer = success (fst (truncateIfNeeded literal MARKDOWN))
  /\ (Str.length literal <= CHARACTER_LIMIT ->
      answer = success literal
      /\ allPrintable literal = true
      /\ JSON_parse literal = Some (VString table)).
Proof.
  intros Hfmt Hguard. cbv zeta. intros Hown.
  rewrite (time_series_markdown_answer toUpperCase UTC validated data _ Hfmt
             Hguard (formatTimeSeriesAsMarkdown_normal _ _ _ Hown)).
  split; [reflexivity |].
  intros Hlen. unfold seriesColumns in *.
  rewrite (truncateIfNeeded_short _ MARKDOWN Hlen).
  split; [reflexivity |]. split.
  - apply QuoteJSONString_printable.
  - apply JSON_parse_stringify. reflexivity.
Qed.

(** ** JSON answers read back *)

Lemma ratesValue_isJSONValue (rates : list (string * number)) :
  forallb (fun kv => isJSONValue (VNumber (snd kv))) rates = true ->
  canonicalKeys (Object_keys rates) = true ->
  isJSONValue (ratesValue rates) = true.
Proof.
  intros Hnum Hkeys. unfold ratesValue. cbn [isJSONValue].
  apply andb_true_iff. split.
  - rewrite forallb_forall in *. intros kv Hin.
    apply in_map_iff in Hin. destruct Hin as (e & <- & He).
    exact (Hnum e He).
  - rewrite map_map. exact Hkeys.
Qed.

(** X12.  When the upstream answer has the uppercased target code and the
    amount, the rate and their product are finite numbers, the JSON text
    of a conversion parses to the record of the conversion: the two codes
    in upper case, the amount, the rate, [amount * rate] as the result,
    and the date of the answer, in this order. *)
Theorem convert_json_reads_back
  (validated : ConvertCurrency.args) (data : FrankfurterBaseResponse.t)
  (rate : number) :
  let from := toUpperCase (ConvertCurrency.from validated) in
  let to := toUpperCase (ConvertCurrency.to validated) in
  let amount := ConvertCurrency.amount validated in
  ConvertCurrency.response_format validated = JSON ->
  getProperty (FrankfurterBaseResponse.rates data) to = Some rate ->
  isJSONValue (VNumber amount) = true ->
  isJSONValue (VNumber rate) = true ->
  isJSONValue (VNumber (multiply amount rate)) = true ->
  exists text,
    run (frankfurter_convert_currency toUpperCase validated) (Resolved data)
    = success text
    /\ JSON_parse text
       = Some
           (VObject
              [("from", Some (VString from)); ("to", Some (VString to));
               ("amount", Some (VNumber amount));
               ("rate", Some (VNumber rate));
               ("result", Some (VNumber (multiply amount rate)));
               ("date", Some (VString (FrankfurterBaseResponse.date data)))]).
Proof.
  cbv zeta. intros Hfmt Hrate Ha Hr Hp.
  eexists. split.
  - unfold frankfurter_convert_currency, makeApiRequest, andThen, run.
    cbv zeta. cbn [bind]. rewrite Hrate, Hfmt. reflexivity.
  - apply JSON_parse_stringify.
    cbn [isJSONValue forallb snd option_map times] in *.
    rewrite Ha, Hr, Hp. reflexivity.
Qed.

(** X13.  When every rate of the upstream answer is a finite number and
    the codes are in the enumeration order of their object, the JSON text
    of the latest-rates tool parses to the upstream answer itself. *)
Theorem latest_rates_json_reads_back
  (validated : GetLatestRates.args) (data : FrankfurterBaseResponse.t) :
  GetLatestRates.response_format validated = JSON ->
  forallb (fun kv => isJSONValue (VNumber (snd kv)))
    (FrankfurterBaseResponse.rates data) = true ->
  canonicalKeys (Object_keys (FrankfurterBaseResponse.rates data)) = true ->
  exists text,
    run (frankfurter_get_latest_rates toUpperCase validated) (Resolved data)
    = success text
    /\ JSON_parse text = Some (baseResponseValue data).
Proof.
  intros Hfmt Hnum Hkeys. eexists. split.
  - unfold frankfurter_get_latest_rates, makeApiRequest, andThen, run.
    cbv zeta. cbn [bind catchBlock]. unfold ratesContent. rewrite Hfmt.
    reflexivity.
  - apply JSON_parse_stringify. unfold baseResponseValue.
    cbn [isJSONValue forallb snd].
    rewrite (ratesValue_isJSONValue _ Hnum Hkeys). reflexivity.
Qed.

End SeriesAnswers.

(** ** What truncation keeps *)

Lemma substring_0_append (head tail : string) :
  String.substring 0 (String.length head) (head ++ tail) = head.
Proof.
  induction head as [|c head IH]; simpl.
  - destruct tail; reflexivity.
  - now rewrite IH.
Qed.

Lemma Str_substring_head (head tail : string) :
  Str.substring (head ++ tail) 0 (Str.length head) = head.
Proof.
  unfold Str.substring.
  pose proof (Str_length_nonneg head) as Hh.
  pose proof (Str_length_nonneg tail) as Ht.
  rewrite Str_length_append.
  replace (Z.min (Z.max 0 0) (Str.length head + Str.length tail)) with 0 by lia.
  replace (Z.min (Z.max (Str.length head) 0)
             (Str.length head + Str.length tail))
    with (Str.length head) by lia.
  replace (Z.min 0 (Str.length head)) with 0 by lia.
  replace (Z.max 0 (Str.length head) - 0) with (Str.length head) by lia.
  change (Z.to_nat 0) with 0%nat. unfold Str.length.
  rewrite Nat2Z.id. apply substring_0_append.
Qed.

(** X14.  What lies beyond the limit has no effect on the text returned:
    two contents over the limit that agree on their first 25000
    characters are truncated to the same text, those characters followed
    by the notice. *)
Theorem truncateIfNeeded_forgets_tail
  (head tail tail' : string) (format : ResponseFormat) :
  Str.length head = CHARACTER_LIMIT ->
  tail <> EmptyString -> tail' <> EmptyString ->
  fst (truncateIfNeeded (head ++ tail) format) = head ++ truncationMessage format
  /\ fst (truncateIfNeeded (head ++ tail) format)
     = fst (truncateIfNeeded (head ++ tail') format).
Proof.
  intros Hhead Ht Ht'.
  assert (H : forall t, t <> EmptyString ->
            fst (truncateIfNeeded (head ++ t) format)
            = head ++ truncationMessage format).
  { intros t Hne.
    rewrite truncateIfNeeded_long.
    - cbn [fst]. rewrite <- Hhead. now rewrite Str_substring_head.
    - rewrite Str_length_append, Hhead.
      destruct t as [|c t]; [now elim Hne |].
      unfold Str.length. cbn [String.length]. lia. }
  split; [apply H, Ht |]. now rewrite (H tail Ht), (H tail' Ht').
Qed.

(** ** Examples *)

Lemma truncateIfNeeded_forgets_tail_witness :
  fst (truncateIfNeeded (atLimit ++ "b") JSON)
  = atLimit ++ truncationMessage JSON
  /\ fst (truncateIfNeeded (atLimit ++ "b") JSON)
     = fst (truncateIfNeeded (atLimit ++ "cd") JSON).
Proof.
  apply (truncateIfNeeded_forgets_tail atLimit "b" "cd" JSON).
  - vm_compute. reflexivity.
  - discriminate.
  - discriminate.
Defined.

Lemma convert_currency_request_witness :
  requests
    (frankfurter_convert_currency (Num := Integers) asciiUpperCase
       (ConvertCurrency.mk (Num := Integers) "eur" "usd" (IntOf 100)
          (Some "2024-06-14") JSON))
  = [mkHttpGet "https://api.frankfurter.dev/v1/2024-06-14"
       (requestConfig [("from", "EUR"); ("to", "USD")])].
Proof.
  apply (convert_currency_request (Num := Integers) asciiUpperCase
           (ConvertCurrency.mk (Num := Integers) "eur" "usd" (IntOf 100)
              (Some "2024-06-14") JSON)).
  reflexivity.
Defined.

Lemma latest_rates_request_witness :
  requests
    (frankfurter_get_latest_rates (Num := Integers) asciiUpperCase
       (GetLatestRates.mk (Some "usd") (Some ["eur"; "gbp"]) MARKDOWN))
  = [mkHttpGet "https://api.frankfurter.dev/v1/latest"
       (requestConfig [("base", "USD"); ("symbols", "EUR,GBP")])].
Proof.
  apply (latest_rates_request (Num := Integers) asciiUpperCase
           (GetLatestRates.mk (Some "usd") (Some ["eur"; "gbp"]) MARKDOWN)).
  reflexivity.
Defined.

Lemma historical_past_date_requested_witness :
  requests
    (frankfurter_get_historical_rates (Num := Integers) asciiUpperCase utcHost
       noon_2024_06_15 (GetHistoricalRates.mk "2024-06-15" None None MARKDOWN))
  = [mkHttpGet "https://api.frankfurter.dev/v1/2024-06-15" (requestConfig [])].
Proof.
  apply (historical_past_date_requested (Num := Integers) asciiUpperCase utcHost
           noon_2024_06_15
           (GetHistoricalRates.mk "2024-06-15" None None MARKDOWN)
           2024 6 15 (2024, 6, 15)).
  - reflexivity.
  - reflexivity.
  - vm_compute. intuition discriminate.
  - vm_compute. intuition discriminate.
  - vm_compute. intuition discriminate.
Defined.

Lemma time_series_answer_bounded_witness :
  exists text,
    run (frankfurter_get_time_series asciiUpperCase utcHost januaryJson)
      (Resolved largeSeries) = success text
    /\ Str.length text
       <= CHARACTER_LIMIT + Str.length (truncationMessage JSON).
Proof.
  refine (proj1 (time_series_answer_bounded (Num := Integers) asciiUpperCase
                   utcHost januaryJson largeSeries _) _).
  - reflexivity.
  - left. reflexivity.
Defined.

Lemma formatTimeSeriesAsMarkdown_outcome_witness :
  formatTimeSeriesAsMarkdown (Num := Integers)
    [("2024-01-01", [("USD", IntOf 1)])] "EUR" ["toString"]
  = Throw (TypeError "rate.toFixed is not a function").
Proof.
  apply (proj1 (proj2 (formatTimeSeriesAsMarkdown_outcome (Num := Integers)
                         [("2024-01-01", [("USD", IntOf 1)])] "EUR"
                         ["toString"]))
           "2024-01-01" [("USD", IntOf 1)] "toString").
  - reflexivity.
  - left. reflexivity.
  - reflexivity.
  - vm_compute. intuition.
Defined.

Lemma time_series_markdown_literal_witness :
  let table :=
    timeSeriesHeader "EUR" ["USD"]
    ++ tableRows ["USD"] [("2024-01-02", [("USD", IntOf 2)])] in
  let literal := formatAsJSON (Num := Integers) (VString table) in
  run (frankfurter_get_time_series asciiUpperCase utcHost januaryMarkdown)
    (Resolved smallSeries) = success literal
  /\ allPrintable literal = true
  /\ JSON_parse literal = Some (VString table).
Proof.
  refine (proj2 (time_series_markdown_literal (Num := Integers) asciiUpperCase
                   utcHost januaryMarkdown smallSeries _ _ _) _).
  - reflexivity.
  - reflexivity.
  - intros date dateRates symbol _ [<- | []]. unfold Get. cbn [fst].
    destruct (getProperty dateRates "USD"); [discriminate |].
    vm_compute. discriminate.
  - vm_compute. discriminate.
Defined.

Lemma convert_json_reads_back_witness :
  exists text,
    run (frankfurter_convert_currency (Num := Integers) asciiUpperCase
           (ConvertCurrency.mk (Num := Integers) "eur" "usd" (IntOf 100) None
              JSON))
      (Resolved
         (FrankfurterBaseResponse.mk (Num := Integers) "EUR" "2024-06-14"
            [("USD", IntOf 2)]))
    = success text
    /\ JSON_parse text
       = Some
           (VObject
              [("from", Some (VString "EUR")); ("to", Some (VString "USD"));
               ("amount", Some (VNumber (IntOf 100)));
               ("rate", Some (VNumber (IntOf 2)));
               ("result", Some (VNumber (IntOf 200)));
               ("date", Some (VString "2024-06-14"))]).
Proof.
  apply (convert_json_reads_back (Num := Integers) asciiUpperCase
           (ConvertCurrency.mk (Num := Integers) "eur" "usd" (IntOf 100) None
              JSON)
           (FrankfurterBaseResponse.mk (Num := Integers) "EUR" "2024-06-14"
              [("USD", IntOf 2)])
           (IntOf 2)); reflexivity.
Defined.

Lemma latest_rates_json_reads_back_witness :
  let data :=
    FrankfurterBaseResponse.mk (Num := Integers) "EUR" "2024-06-14"
      [("USD", IntOf 2); ("GBP", IntOf 1)] in
  exists text,
    run (frankfurter_get_latest_rates asciiUpperCase
           (GetLatestRates.mk None None JSON))
      (Resolved data)
    = success text
    /\ JSON_parse text = Some (baseResponseValue data).
Proof.
  apply (latest_rates_json_reads_back (Num := Integers) asciiUpperCase
           (GetLatestRates.mk None None JSON)
           (FrankfurterBaseResponse.mk (Num := Integers) "EUR" "2024-06-14"
              [("USD", IntOf 2); ("GBP", IntOf 1)])); reflexivity.
Defined.

(** ** Failures without a status *)

(** X15.  A timeout of the client is reported as such whatever else the
    error carries, a response included.  Without a response and without
    a timeout, an error whose request was sent is reported as a
    connection failure, and any other error with its own message. *)
Theorem handleApiError_without_status (error : AxiosError) :
  (code error = Some "ECONNABORTED" ->
   handleApiError error
   = Error "Request timeout: The Frankfurter API did not respond within 10 seconds. Please try again.")
  /\ (code error <> Some "ECONNABORTED" -> response error = None ->
      request error = true ->
      handleApiError error
      = Error "Unable to connect to the Frankfurter API. Please check your internet connection.")
  /\ (code error <> Some "ECONNABORTED" -> response error = None ->
      request error = false ->
      handleApiError error
      = Error ("An unexpected error occurred: " ++ message error)).
Proof.
  unfold handleApiError. split; [| split].
  - intros ->. reflexivity.
  - intros Hcode -> ->.
    destruct (code error) as [c|]; [| reflexivity].
    destruct (String.eqb_spec c "ECONNABORTED") as [-> | _];
      [now elim Hcode | reflexivity].
  - intros Hcode -> ->.
    destruct (code error) as [c|]; [| reflexivity].
    destruct (String.eqb_spec c "ECONNABORTED") as [-> | _];
      [now elim Hcode | reflexivity].
Qed.

Lemma handleApiError_without_status_witness :
  handleApiError
    (mkAxiosError (Some "ECONNABORTED")
       (Some (mkAxiosResponse 404 "Not Found")) true
       "timeout of 10000ms exceeded")
  = Error "Request timeout: The Frankfurter API did not respond within 10 seconds. Please try again.".
Proof.
  apply (proj1 (handleApiError_without_status
                  (mkAxiosError (Some "ECONNABORTED")
                     (Some (mkAxiosResponse 404 "Not Found")) true
                     "timeout of 10000ms exceeded"))).
  reflexivity.
Defined.

(** ** What a consumer of the JSON rendering reads *)

Section ReadsView.

Context {Num : JSNumber}.



End ReadsView.


(** ** Answers without an error flag *)

(** A request that did not resolve leaves an error-flagged answer. *)
Lemma catchBlock_unresolved {T : Type}
  (outcome : AxiosOutcome T) (k : T -> completion CallToolResult) :
  isError
    (catchBlock
       (data <- match outcome with
                | Resolved data => Normal data
                | RejectedAxios error => Throw (handleApiError error)
                | Rejected error => Throw error
                end ;;
        k data)) = false ->
  exists data, outcome = Resolved data.
Proof.
  destruct outcome as [data | error | error]; cbn [bind catchBlock failure isError].
  - intros _. now exists data.
  - discriminate.
  - discriminate.
Qed.

Section Answers.

Context {Num : JSNumber}.
Variable toUpperCase : string -> string.
Variable localeCompare : string -> string -> Z.
Variable UTC : Z -> Z.

(** X17.  No tool answers without an error flag unless it has sent its
    one request and the upstream has resolved it: a call that a date
    guard turns down and a request that fails both end error-flagged. *)
Theorem unflagged_answer_is_upstream
  (now : Z)
  (convert : ConvertCurrency.args) (latest : GetLatestRates.args)
  (historical : GetHistoricalRates.args) (series : GetTimeSeries.args)
  (list : ListCurrencies.args) :
  (forall outcome,
     isError (run (frankfurter_convert_currency toUpperCase convert) outcome)
     = false ->
     (exists data, outcome = Resolved data)
     /\ List.length
          (requests (frankfurter_convert_currency toUpperCase convert)) = 1%nat)
  /\ (forall outcome,
        isError (run (frankfurter_get_latest_rates toUpperCase latest) outcome)
        = false ->
        (exists data, outcome = Resolved data)
        /\ List.length
             (requests (frankfurter_get_latest_rates toUpperCase latest))
           = 1%nat)
  /\ (forall outcome,
        isError
          (run (frankfurter_get_historical_rates toUpperCase UTC now historical)
             outcome) = false ->
        (exists data, outcome = Resolved data)
        /\ List.length
             (requests
                (frankfurter_get_historical_rates toUpperCase UTC now historical))
           = 1%nat)
  /\ (forall outcome,
        isError (run (frankfurter_get_time_series toUpperCase UTC series) outcome)
        = false ->
        (exists data, outcome = Resolved data)
        /\ List.length
             (requests (frankfurter_get_time_series toUpperCase UTC series))
           = 1%nat)
  /\ (forall outcome,
        isError (run (frankfurter_list_currencies localeCompare list) outcome)
        = false ->
        (exists data, outcome = Resolved data)
        /\ List.length
             (requests (frankfurter_list_currencies localeCompare list))
           = 1%nat).
Proof.
  split; [| split; [| split; [| split]]]; intros outcome.
  - unfold frankfurter_convert_currency, makeApiRequest. cbv zeta.
    cbn [andThen run requests List.length]. intros H.
    split; [exact (catchBlock_unresolved outcome _ H) | reflexivity].
  - unfold frankfurter_get_latest_rates, makeApiRequest. cbv zeta.
    cbn [andThen run requests List.length]. intros H.
    split; [exact (catchBlock_unresolved outcome _ H) | reflexivity].
  - unfold frankfurter_get_historical_rates, makeApiRequest. cbv zeta.
    destruct (JsDate.gt _ _).
    + cbn [run failure isError]. discriminate.
    + cbn [andThen run requests List.length]. intros H.
      split; [exact (catchBlock_unresolved outcome _ H) | reflexivity].
  - unfold frankfurter_get_time_series, makeApiRequest. cbv zeta.
    destruct (JsDate.ge _ _).
    + cbn [run failure isError]. discriminate.
    + cbn [andThen run requests List.length]. intros H.
      split; [exact (catchBlock_unresolved outcome _ H) | reflexivity].
  - unfold frankfurter_list_currencies, makeApiRequest. cbv zeta.
    cbn [andThen run requests List.length]. intros H.
    split; [exact (catchBlock_unresolved outcome _ H) | reflexivity].
Qed.

(** X18.  Past its date guard, the historical-rates tool is the
    latest-rates tool at another address: for the same base, symbols and
    format it sends the same query, headers and timeout, and it turns
    every outcome of the request into the same answer. *)
Theorem historical_rates_as_latest
  (now : Z) (validated : GetHistoricalRates.args)
  (outcome : AxiosOutcome FrankfurterBaseResponse.t) :
  JsDate.gt (JsDate.parse UTC (GetHistoricalRates.date validated)) (Some now)
  = false ->
  let latest :=
    GetLatestRates.mk (GetHistoricalRates.base validated)
      (GetHistoricalRates.symbols validated)
      (GetHistoricalRates.response_format validated) in
  run (frankfurter_get_historical_rates toUpperCase UTC now validated) outcome
  = run (frankfurter_get_latest_rates toUpperCase latest) outcome
  /\ map config
       (requests (frankfurter_get_historical_rates toUpperCase UTC now validated))
     = map config (requests (frankfurter_get_latest_rates toUpperCase latest))
  /\ map url
       (requests (frankfurter_get_historical_rates toUpperCase UTC now validated))
     = [API_BASE_URL ++ "/" ++ GetHistoricalRates.date validated].
Proof.
  intros Hguard. cbv zeta.
  unfold frankfurter_get_historical_rates, frankfurter_get_latest_rates.
  cbv zeta. rewrite Hguard. repeat split.
Qed.

(** X19.  The list-currencies tool sends one request to [/currencies]
    with an empty query, whatever its input.  With a consistent
    [localeCompare], its Markdown answer to a catalog is the whole
    currencies table, whatever its length: the header, one row per
    currency in ascending order of the codes, and the footer. *)
Theorem list_currencies_answer
  (validated : ListCurrencies.args) (data : FrankfurterCurrenciesResponse) :
  (forall a b, localeCompare a b <= 0 \/ localeCompare b a <= 0) ->
  (forall a b c, localeCompare a b <= 0 -> localeCompare b c <= 0 ->
                 localeCompare a c <= 0) ->
  ListCurrencies.response_format validated = MARKDOWN ->
  requests (frankfurter_list_currencies localeCompare validated)
  = [mkHttpGet (API_BASE_URL ++ "/currencies") (requestConfig [])]
  /\ exists entries,
       Permutation entries data
       /\ StronglySorted (fun a b => localeCompare (fst a) (fst b) <= 0) entries
       /\ run (frankfurter_list_currencies localeCompare validated)
            (Resolved data)
          = success
              (currenciesHeader ++ concatRows (map currencyRow entries)
               ++ currenciesFooter (List.length data)).
Proof.
  intros Htotal Htrans Hfmt. split; [reflexivity |].
  exists (Array_sort (fun a b => localeCompare (fst a) (fst b)) data).
  split; [apply Array_sort_perm | split].
  - apply (Array_sort_ordered (fun a b => localeCompare (fst a) (fst b))).
    + intros a b. apply Htotal.
    + intros a b c. apply Htrans.
  - unfold frankfurter_list_currencies, makeApiRequest. cbv zeta.
    cbn [andThen run bind catchBlock]. rewrite Hfmt.
    cbn [ResponseFormat_eqb]. now rewrite formatCurrenciesAsMarkdown_rows.
Qed.

End Answers.

Lemma unflagged_answer_is_upstream_witness :
  (exists data : FrankfurterBaseResponse.t (Num := Integers),
     Resolved smallRates = Resolved data)
  /\ List.length
       (requests
          (frankfurter_get_latest_rates (Num := Integers) asciiUpperCase
             (GetLatestRates.mk None None JSON))) = 1%nat.
Proof.
  apply (proj1 (proj2 (unflagged_answer_is_upstream (Num := Integers)
                         asciiUpperCase defaultCompare utcHost noon_2024_06_15
                         (ConvertCurrency.mk (Num := Integers) "eur" "usd"
                            (IntOf 100) None JSON)
                         (GetLatestRates.mk None None JSON)
                         (GetHistoricalRates.mk "2024-06-15" None None JSON)
                         januaryJson (ListCurrencies.mk JSON)))).
  reflexivity.
Defined.

Lemma historical_rates_as_latest_witness :
  let validated := GetHistoricalRates.mk "2024-06-15" (Some "usd") None JSON in
  let latest := GetLatestRates.mk (Some "usd") None JSON in
  run (frankfurter_get_historical_rates (Num := Integers) asciiUpperCase utcHost
         noon_2024_06_15 validated) (Resolved smallRates)
  = run (frankfurter_get_latest_rates asciiUpperCase latest)
      (Resolved smallRates)
  /\ map config
       (requests
          (frankfurter_get_historical_rates (Num := Integers) asciiUpperCase utcHost
             noon_2024_06_15 validated))
     = map config
         (requests
            (frankfurter_get_latest_rates (Num := Integers) asciiUpperCase
               latest))
  /\ map url
       (requests
          (frankfurter_get_historical_rates (Num := Integers) asciiUpperCase utcHost
             noon_2024_06_15 validated))
     = [API_BASE_URL ++ "/" ++ "2024-06-15"].
Proof.
  apply (historical_rates_as_latest (Num := Integers) asciiUpperCase utcHost
           noon_2024_06_15
           (GetHistoricalRates.mk "2024-06-15" (Some "usd") None JSON)
           (Resolved smallRates)).
  reflexivity.
Defined.

Lemma list_currencies_answer_witness :
  requests
    (frankfurter_list_currencies defaultCompare (ListCurrencies.mk MARKDOWN))
  = [mkHttpGet (API_BASE_URL ++ "/currencies") (requestConfig [])]
  /\ exists entries,
       Permutation entries [("USD", "US Dollar"); ("EUR", "Euro")]
       /\ StronglySorted (fun a b => defaultCompare (fst a) (fst b) <= 0)
            entries
       /\ run (frankfurter_list_currencies defaultCompare
                 (ListCurrencies.mk MARKDOWN))
            (Resolved [("USD", "US Dollar"); ("EUR", "Euro")])
          = success
              (currenciesHeader ++ concatRows (map currencyRow entries)
               ++ currenciesFooter
                    (List.length [("USD", "US Dollar"); ("EUR", "Euro")])).
Proof.
  apply (list_currencies_answer defaultCompare (ListCurrencies.mk MARKDOWN)
           [("USD", "US Dollar"); ("EUR", "Euro")]
           defaultCompare_total defaultCompare_trans).
  reflexivity.
Defined.
